(** * linkit-backend: order validation, pricing and order workflow

    A shallow embedding of the request-validation and order-workflow code
    of the NFC-card ordering backend, with the properties of its
    specification stated and proved over that embedding.

    - [JS]              the fragment of JavaScript the code relies on
    - [FileUpload]      utils/fileUpload.js
    - [OrderValidation] utils/orderValidation.js
    - [ProductModel]    models/productModel.js
    - [OrderUtils]      utils/orderUtils.js (pricing)
    - [OrderController] the order controller (create / update / status)

    Part I holds the embedding, Part II the predicates and sample data the
    statements use, Part III the properties. *)

From Stdlib Require Import ZArith Ascii Bool Lia DecimalString.
From stdpp Require Import gmap strings list fin_maps.

Local Open Scope Z_scope.

(* ===================================================================== *)
(** * Part I: the embedding                                              *)
(* ===================================================================== *)

(** ** The JavaScript fragment *)

Module JS.

(** Primitive values as they arrive in a parsed request body.  Numbers
    are the integer-valued ones; strings are ASCII. *)
Inductive value : Type :=
| JUndefined
| JNull
| JBool (b : bool)
| JNum (n : Z)
| JStr (s : string).

(** ToBoolean. *)
Definition truthy (v : value) : bool :=
  match v with
  | JUndefined | JNull => false
  | JBool b => b
  | JNum n => negb (n =? 0)
  | JStr s => negb (String.eqb s "")
  end.

Definition decimal (n : Z) : string := NilZero.string_of_int (Z.to_int n).

(** ToString, as used by template literals and property keys. *)
Definition to_string (v : value) : string :=
  match v with
  | JUndefined => "undefined"
  | JNull => "null"
  | JBool true => "true"
  | JBool false => "false"
  | JNum n => decimal n
  | JStr s => s
  end.

(** [a === b] against a string literal. *)
Definition strict_eq_str (v : value) (lit : string) : bool :=
  match v with
  | JStr s => String.eqb s lit
  | _ => false
  end.

(** [a === true]. *)
Definition strict_eq_true (v : value) : bool :=
  match v with
  | JBool true => true
  | _ => false
  end.

(** [a || b] on values. *)
Definition or_else (a b : value) : value := if truthy a then a else b.

(** The outcome of running a piece of code: it returns or it throws. *)
Inductive completion (A : Type) : Type :=
| Return (a : A)
| Throw (err : string).
Arguments Return {A} a.
Arguments Throw {A} err.

(** *** Strings *)

Fixpoint drop (n : nat) (s : string) : string :=
  match n, s with
  | O, _ => s
  | S n', String _ s' => drop n' s'
  | S _, EmptyString => EmptyString
  end.

(** [s.startsWith(p)] *)
Fixpoint startsWith (p s : string) : bool :=
  match p, s with
  | EmptyString, _ => true
  | String a p', String b s' => Ascii.eqb a b && startsWith p' s'
  | String _ _, EmptyString => false
  end.

(** [s.indexOf(p)]; [None] stands for -1. *)
Fixpoint indexOf (p s : string) : option nat :=
  if startsWith p s then Some O
  else match s with
       | EmptyString => None
       | String _ s' => option_map S (indexOf p s')
       end.

(** [s.includes(p)] *)
Definition includes (p s : string) : bool :=
  match indexOf p s with Some _ => true | None => false end.

(** [s.replace(p, r)] with a string pattern: the first occurrence only. *)
Fixpoint replace (p r s : string) : string :=
  if startsWith p s then r +:+ drop (String.length p) s
  else match s with
       | EmptyString => EmptyString
       | String c s' => String c (replace p r s')
       end.

(** [s.substring(n)] *)
Definition substring_from (n : nat) (s : string) : string := drop n s.

(** [s.split(c)] for a one-character separator. *)
Fixpoint split (sep : ascii) (s : string) : list string :=
  match s with
  | EmptyString => [EmptyString]
  | String c s' =>
      if Ascii.eqb c sep then EmptyString :: split sep s'
      else match split sep s' with
           | [] => [String c EmptyString]
           | seg :: segs => String c seg :: segs
           end
  end.

(** [xs.join(sep)] *)
Fixpoint join (sep : string) (xs : list string) : string :=
  match xs with
  | [] => EmptyString
  | [x] => x
  | x :: rest => x +:+ sep +:+ join sep rest
  end.

(** In ASCII text only the letters A to Z have a lower-case form. *)
Definition lower_ascii (c : ascii) : ascii :=
  let n := nat_of_ascii c in
  if (65 <=? n)%nat && (n <=? 90)%nat then ascii_of_nat (n + 32) else c.

(** [s.toLowerCase()] *)
Fixpoint toLowerCase (s : string) : string :=
  match s with
  | EmptyString => EmptyString
  | String c s' => String (lower_ascii c) (toLowerCase s')
  end.

(** [a === b] on primitive values. *)
Definition strict_eq (a b : value) : bool :=
  match a, b with
  | JUndefined, JUndefined | JNull, JNull => true
  | JBool x, JBool y => Bool.eqb x y
  | JNum x, JNum y => (x =? y)
  | JStr x, JStr y => String.eqb x y
  | _, _ => false
  end.

(** Whether every character of the string passes the test. *)
Fixpoint all_chars (p : ascii -> bool) (s : string) : bool :=
  match s with
  | EmptyString => true
  | String c s' => p c && all_chars p s'
  end.

(** *** Numbers read by [parseInt]

    Exact integers or [NaN]; the rounding of digit strings beyond 2^53 is
    not modelled. *)

Inductive number : Type :=
| NaN
| Int (z : Z).

(** The property key a number turns into. *)
Definition number_key (n : number) : string :=
  match n with
  | NaN => "NaN"
  | Int z => decimal z
  end.

(** White space and line terminators, which [parseInt] and [trim] skip
    and [\s] matches; in ASCII text these are TAB, LF, VT, FF, CR and the
    space. *)
Definition is_space (c : ascii) : bool :=
  let n := nat_of_ascii c in
  ((9 <=? n)%nat && (n <=? 13)%nat) || (n =? 32)%nat.

Fixpoint trim_start (s : string) : string :=
  match s with
  | String c s' => if is_space c then trim_start s' else s
  | EmptyString => EmptyString
  end.

(** [s.trimEnd()] *)
Fixpoint trim_end (s : string) : string :=
  match s with
  | EmptyString => EmptyString
  | String c s' =>
      match trim_end s' with
      | EmptyString => if is_space c then EmptyString else String c EmptyString
      | rest => String c rest
      end
  end.

(** [s.trim()] *)
Definition trim (s : string) : string := trim_end (trim_start s).

Definition digit_value (radix : Z) (c : ascii) : option Z :=
  let n := Z.of_nat (nat_of_ascii c) in
  let d := if (48 <=? n) && (n <=? 57) then n - 48
           else if (97 <=? n) && (n <=? 122) then n - 87
           else if (65 <=? n) && (n <=? 90) then n - 55
           else radix in
  if d <? radix then Some d else None.

(** The longest prefix of digits, read in the given radix. *)
Fixpoint parse_digits (radix : Z) (s : string) (acc : option Z) : option Z :=
  match s with
  | EmptyString => acc
  | String c s' =>
      match digit_value radix c with
      | Some d => parse_digits radix s' (Some (radix * default 0 acc + d))
      | None => acc
      end
  end.

(** [parseInt(s)] without a radix argument. *)
Definition parseInt (s : string) : number :=
  let s := trim_start s in
  let '(negative, s) :=
    match s with
    | String "-" s' => (true, s')
    | String "+" s' => (false, s')
    | _ => (false, s)
    end in
  let '(radix, s) :=
    match s with
    | String "0" (String "x" s') | String "0" (String "X" s') => (16, s')
    | _ => (10, s)
    end in
  match parse_digits radix s None with
  | None => NaN
  | Some n => Int (if negative then - n else n)
  end.

(** *** Loose equality

    [a == b] on primitive values.  A string is compared with a number or
    a boolean through the number the engine reads it as; that reading
    ([StringToNumber]) is a parameter, and a result that is no integer is
    [NaN] here, since it equals no integer. *)

Section LooseEquality.

Variable StringToNumber : string -> number.

Definition number_is (n : number) (z : Z) : bool :=
  match n with
  | Int y => (y =? z)
  | NaN => false
  end.

(** ToNumber of a boolean. *)
Definition bool_number (b : bool) : Z := if b then 1 else 0.

Definition loose_eq (a b : value) : bool :=
  match a, b with
  | JUndefined, JUndefined | JUndefined, JNull
  | JNull, JUndefined | JNull, JNull => true
  | JBool x, JBool y => Bool.eqb x y
  | JNum x, JNum y => (x =? y)
  | JStr x, JStr y => String.eqb x y
  | JNum x, JStr y | JStr y, JNum x => number_is (StringToNumber y) x
  | JBool x, JNum y | JNum y, JBool x => (y =? bool_number x)
  | JBool x, JStr y | JStr y, JBool x =>
      number_is (StringToNumber y) (bool_number x)
  | _, _ => false
  end.

End LooseEquality.

(** *** Objects created by literals or by JSON parsing

    Such an object inherits from [Object.prototype]; a property read
    that misses the own properties finds these members. *)
Definition object_prototype_members : list string :=
  [ "constructor"; "__defineGetter__"; "__defineSetter__"; "hasOwnProperty";
    "__lookupGetter__"; "__lookupSetter__"; "isPrototypeOf";
    "propertyIsEnumerable"; "toString"; "valueOf"; "__proto__";
    "toLocaleString" ].

Definition is_prototype_member (k : string) : bool :=
  existsb (String.eqb k) object_prototype_members.

End JS.

Export JS.

(** ** utils/fileUpload.js *)

Module FileUpload.

(** An uploaded file as multer hands it over. *)
Record File : Type := {
  fieldname : string;
  originalname : string;
  mimetype : string;
  path : string;
  filename : string
}.

(** [getRelativeFilePath(file)]: the file path for database storage,
    relative to the public folder; [None] is [null]. *)
Definition getRelativeFilePath (file : option File) : option string :=
  match file with
  | None => None
  | Some f =>
      match indexOf "public" (path f) with
      | Some publicIndex => Some (substring_from (publicIndex + 6) (path f))
      | None => Some (filename f)
      end
  end.

(** [path.join(dir, segment)] for a normalized directory and a plain
    segment. *)
Definition path_join (dir segment : string) : string :=
  dir +:+ "/" +:+ segment.

(** The subdirectory the storage picks for a field name. *)
Definition upload_subdir (field : string) : string :=
  if String.eqb field "images" then "images"
  else if String.eqb field "documents" then "documents"
  else if String.eqb field "image" then "images"
  else if String.eqb field "companyLogo" then "companyLogo"
  else "general".

(** [destination] of the disk storage: the directory for the file, created
    if it does not exist.  [dirs] are the directories that exist. *)
Definition destination (uploadsDir : string) (dirs : gset string) (file : File)
    : gset string * string :=
  let uploadPath := path_join uploadsDir (upload_subdir (fieldname file)) in
  let dirs := if bool_decide (uploadPath ∈ dirs) then dirs
              else {[uploadPath]} ∪ dirs in
  (dirs, uploadPath).

(** File filter for images: [None] accepts the file, [Some e] refuses it
    with the error [e]. *)
Definition imageFilter (file : File) : option string :=
  if existsb (String.eqb (mimetype file))
       ["image/jpeg"; "image/jpg"; "image/png"; "image/gif"; "image/webp"]
  then None
  else Some "Only image files are allowed (jpeg, jpg, png, gif, webp)".

Section DeleteFile.

(** [path.join(__dirname, '../public', filePath)] *)
Variable publicPath : string -> string.

(** Whether [fs.unlinkSync] throws on an existing path (a directory, a
    file it may not remove). *)
Variable unlinkFails : string -> bool.

(** Helper function to delete file.  [fs] are the paths that exist; the
    exception of [unlinkSync] is caught and logged. *)
Definition deleteFile (fs : gset string) (filePath : string)
    : gset string * bool :=
  let fullPath := publicPath filePath in
  if bool_decide (fullPath ∈ fs) then
    if unlinkFails fullPath then (fs, false)
    else (fs ∖ {[fullPath]}, true)
  else (fs, false).

End DeleteFile.

End FileUpload.

Export FileUpload.

(** ** The shape of an order (request body and stored document) *)

Module Order.

Record PersonalInfo : Type := {
  firstName : value;
  lastName : value
}.

Record CardDesign : Type := {
  color : value;
  includePrintedLogo : value;
  companyLogo : value
}.

Record DeliveryInfo : Type := {
  country : value;
  city : value;
  useSameContact : value
}.

(** The fields of an order.  A nested group that is absent (or any other
    falsy value) is [None]. *)
Record OrderData : Type := {
  product : value;
  customer : value;
  personalInfo : option PersonalInfo;
  cardDesign : option CardDesign;
  deliveryInfo : option DeliveryInfo;
  productPrice : value;
  logoSurcharge : value;
  total : value;
  status : value;
  notes : value
}.

End Order.

(** [req.files]: field name to the uploaded files of that field. *)
Abbreviation Files := (gmap string (list File)).

(** ** utils/orderValidation.js *)

Module OrderValidation.

(** Country-City mapping for delivery validation. *)
Definition COUNTRY_CITY_MAP : list (string * list string) :=
  [ ("JO", ["Amman"; "Irbid"; "Zarqa"; "Aqaba"; "Salt"]);
    ("UK", ["London"; "Manchester"; "Birmingham"; "Liverpool"; "Bristol"]) ].

(** [Object.keys(COUNTRY_CITY_MAP)] *)
Definition country_keys : list string := map fst COUNTRY_CITY_MAP.

Fixpoint assoc {A : Type} (k : string) (l : list (string * A)) : option A :=
  match l with
  | [] => None
  | (k', a) :: rest => if String.eqb k k' then Some a else assoc k rest
  end.

(** What [COUNTRY_CITY_MAP[country]] evaluates to. *)
Inductive map_entry : Type :=
| Cities (cs : list string)      (* an own property: the city array *)
| PrototypeMember (k : string)   (* inherited from Object.prototype *)
| NoEntry.                       (* undefined *)

Definition lookup_country (country : value) : map_entry :=
  let k := to_string country in
  match assoc k COUNTRY_CITY_MAP with
  | Some cs => Cities cs
  | None => if is_prototype_member k then PrototypeMember k else NoEntry
  end.

(** [validCities.includes(city)] on a city array (SameValueZero). *)
Definition cities_include (cs : list string) (city : value) : bool :=
  existsb (strict_eq_str city) cs.

Definition company_logo_required : string :=
  "Company logo is required when printed logo is selected".

(** [validateCompanyLogo(cardDesign, files = {}, existingOrder = null)] *)
Definition validateCompanyLogo (cardDesign : option Order.CardDesign)
    (files : option Files) (existingOrder : option Order.OrderData)
    : option string :=
  match cardDesign with
  | None => None
  | Some cd =>
      if negb (truthy (Order.includePrintedLogo cd)) then None
      else
        let files := default ∅ files in
        let hasUploadedLogo :=
          truthy (Order.companyLogo cd)
          || match files !! "companyLogo" with
             | Some fs => (0 <? Z.of_nat (length fs))
             | None => false
             end in
        let hasExistingLogo :=
          match existingOrder with
          | Some o =>
              match Order.cardDesign o with
              | Some ecd => truthy (Order.companyLogo ecd)
              | None => false
              end
          | None => false
          end in
        if negb hasUploadedLogo && negb hasExistingLogo
        then Some company_logo_required
        else None
  end.

(** [validateCountryCity(country, city)] *)
Definition validateCountryCity (country city : value)
    : completion (option string) :=
  if negb (truthy country) || negb (truthy city) then Return None
  else
    match lookup_country country with
    | NoEntry =>
        let availableCountries := join ", " country_keys in
        Return (Some ("Invalid country '" +:+ to_string country
                      +:+ "'. Available countries are: "
                      +:+ availableCountries))
    | PrototypeMember _ =>
        Throw "TypeError: validCities.includes is not a function"
    | Cities validCities =>
        if negb (cities_include validCities city)
        then Return (Some ("Invalid city '" +:+ to_string city
                           +:+ "' for country '" +:+ to_string country
                           +:+ "'. Valid cities are: "
                           +:+ join ", " validCities))
        else Return None
    end.

(** [existingOrder?.deliveryInfo?.field] *)
Definition existing_delivery (existingOrder : option Order.OrderData)
    (field : Order.DeliveryInfo -> value) : value :=
  match existingOrder with
  | Some o =>
      match Order.deliveryInfo o with
      | Some edi => field edi
      | None => JUndefined
      end
  | None => JUndefined
  end.

(** [validateDeliveryInfo(deliveryInfo, existingOrder = null)] *)
Definition validateDeliveryInfo (deliveryInfo : option Order.DeliveryInfo)
    (existingOrder : option Order.OrderData) : completion (option string) :=
  match deliveryInfo with
  | None => Return None
  | Some di =>
      let country :=
        or_else (Order.country di)
                (existing_delivery existingOrder Order.country) in
      let city :=
        or_else (Order.city di)
                (existing_delivery existingOrder Order.city) in
      validateCountryCity country city
  end.

(** [validateRequiredFields(orderData)] *)
Definition validateRequiredFields (orderData : Order.OrderData)
    : option string :=
  if negb (bool_decide (is_Some (Order.personalInfo orderData)))
  then Some "Personal information is required"
  else if negb (bool_decide (is_Some (Order.cardDesign orderData)))
  then Some "Card design information is required"
  else if negb (bool_decide (is_Some (Order.deliveryInfo orderData)))
  then Some "Delivery information is required"
  else if negb (truthy (Order.product orderData))
  then Some "Product ID is required"
  else None.

(** [getValidCities(country)]: [COUNTRY_CITY_MAP[country] || []]. *)
Definition getValidCities (country : value) : map_entry :=
  match lookup_country country with
  | NoEntry => Cities []
  | found => found
  end.

(** [getValidCountries()] *)
Definition getValidCountries : list string := country_keys.

(** *** The form-data middleware

    [parseFormData] reads the flat fields of [req.body] and builds three
    plain objects.  The objects start out as [{}], so property reads that
    miss the own properties continue on [Object.prototype]; the code runs
    in sloppy mode (the module has no strict directive). *)

(** A value stored in a parsed group: a field value, or an array created
    for keys such as [phoneNumbers[0]].  Array slots are kept by property
    key. *)
Inductive member : Type :=
| Scalar (v : value)
| Array (slots : list (string * value)).

(** A plain object built by the parser.  [null_proto] records that its
    prototype was replaced by [null]; [own] lists the own properties. *)
Record group : Type := {
  null_proto : bool;
  own : list (string * member)
}.

Definition empty_group : group := {| null_proto := false; own := [] |}.

(** What has been written on the shared [Object.prototype] and on its
    function members.  Both are only ever written at a number key. *)
Record realm : Type := {
  on_prototype : list (number * value);
  on_members : list (string * number * value)
}.

Definition pristine : realm := {| on_prototype := []; on_members := [] |}.

(** [o[k] = a] on own properties: overwrite in place or append. *)
Fixpoint assoc_set {A : Type} (k : string) (a : A) (l : list (string * A))
    : list (string * A) :=
  match l with
  | [] => [(k, a)]
  | (k', a') :: rest =>
      if String.eqb k k' then (k, a) :: rest
      else (k', a') :: assoc_set k a rest
  end.

Fixpoint lookup_number_key (k : string) (l : list (number * value))
    : option value :=
  match l with
  | [] => None
  | (n, v) :: rest =>
      if String.eqb k (number_key n) then Some v
      else lookup_number_key k rest
  end.

Fixpoint set_number_key (n : number) (v : value) (l : list (number * value))
    : list (number * value) :=
  match l with
  | [] => [(n, v)]
  | (n', v') :: rest =>
      if String.eqb (number_key n) (number_key n') then (n, v) :: rest
      else (n', v') :: set_number_key n v rest
  end.

(** What a property read [g[k]] finds. *)
Inductive target : Type :=
| TOwn (m : member)        (* an own property *)
| TPolluted (v : value)    (* a value written earlier on Object.prototype *)
| TPrototype               (* Object.prototype itself, through __proto__ *)
| TMember (name : string)  (* a function member of Object.prototype *)
| TUndefined.

Definition get (r : realm) (g : group) (k : string) : target :=
  match assoc k (own g) with
  | Some m => TOwn m
  | None =>
      if null_proto g then TUndefined
      else match lookup_number_key k (on_prototype r) with
           | Some v => TPolluted v
           | None =>
               if String.eqb k "__proto__" then TPrototype
               else if is_prototype_member k then TMember k
               else TUndefined
           end
  end.

Definition target_truthy (t : target) : bool :=
  match t with
  | TOwn (Scalar v) | TPolluted v => truthy v
  | TOwn (Array _) | TPrototype | TMember _ => true
  | TUndefined => false
  end.

(** [t !== undefined] *)
Definition target_defined (t : target) : bool :=
  match t with
  | TOwn (Scalar JUndefined) | TPolluted JUndefined | TUndefined => false
  | _ => true
  end.

(** [t === 'true' || t === true] *)
Definition target_is_true (t : target) : bool :=
  match t with
  | TOwn (Scalar v) | TPolluted v => strict_eq_str v "true" || strict_eq_true v
  | _ => false
  end.

(** [g[k] = v] for a field value [v].  On an object that still inherits
    from [Object.prototype] the key [__proto__] is an accessor: [null]
    replaces the prototype and any other primitive is ignored.  Every other
    assignment creates or overwrites an own property. *)
Definition set (g : group) (k : string) (v : value) : group :=
  if String.eqb k "__proto__" && negb (null_proto g) then
    match v with
    | JNull => {| null_proto := true; own := own g |}
    | _ => g
    end
  else {| null_proto := null_proto g; own := assoc_set k (Scalar v) (own g) |}.

(** [g[k] = slots] for an array.  The parser only assigns an array where
    the read just before found nothing truthy, so [k] is not served by the
    [__proto__] accessor and the assignment lands on an own property. *)
Definition set_array (g : group) (k : string) (slots : list (string * value))
    : group :=
  {| null_proto := null_proto g; own := assoc_set k (Array slots) (own g) |}.

(** The three objects of [parsedBody]. *)
Record parsed : Type := {
  p_personalInfo : group;
  p_cardDesign : group;
  p_deliveryInfo : group
}.

Definition parsedBody0 : parsed :=
  {| p_personalInfo := empty_group; p_cardDesign := empty_group;
     p_deliveryInfo := empty_group |}.

(** The array case of a [personalInfo[...]] key:
    [if (!pi[arrayKey]) pi[arrayKey] = []; pi[arrayKey][arrayIndex] = v]. *)
Definition store_indexed (r : realm) (pi : group) (arrayKey : string)
    (arrayIndex : number) (v : value) : realm * group :=
  let fresh := set_array pi arrayKey [(number_key arrayIndex, v)] in
  match get r pi arrayKey with
  | TOwn (Array slots) =>
      (r, set_array pi arrayKey (assoc_set (number_key arrayIndex) v slots))
  | TOwn (Scalar old) =>
      (* a truthy primitive silently ignores the write; a falsy one is
         replaced by a new array first *)
      if truthy old then (r, pi) else (r, fresh)
  | TPolluted old =>
      if truthy old then (r, pi) else (r, fresh)
  | TPrototype =>
      ({| on_prototype := set_number_key arrayIndex v (on_prototype r);
          on_members := on_members r |}, pi)
  | TMember name =>
      ({| on_prototype := on_prototype r;
          on_members := on_members r ++ [(name, arrayIndex, v)] |}, pi)
  | TUndefined => (r, fresh)
  end.

(** One turn of [for (const key in req.body)]. *)
Definition parse_field (r : realm) (pb : parsed) (key : string) (v : value)
    : realm * parsed * completion unit :=
  if startsWith "personalInfo[" key then
    let nestedKey := replace "]" "" (replace "personalInfo[" "" key) in
    if includes "[" nestedKey && includes "]" nestedKey then
      (* Handle arrays like phoneNumbers[0] *)
      match split "[" nestedKey with
      | arrayKey :: second :: _ =>
          let arrayIndex := parseInt (replace "]" "" second) in
          let '(r1, pi) :=
            store_indexed r (p_personalInfo pb) arrayKey arrayIndex v in
          (r1, {| p_personalInfo := pi; p_cardDesign := p_cardDesign pb;
                  p_deliveryInfo := p_deliveryInfo pb |}, Return tt)
      | _ =>
          (r, pb, Throw "TypeError: Cannot read properties of undefined (reading 'replace')")
      end
    else
      (r, {| p_personalInfo := set (p_personalInfo pb) nestedKey v;
             p_cardDesign := p_cardDesign pb;
             p_deliveryInfo := p_deliveryInfo pb |}, Return tt)
  else if startsWith "cardDesign[" key then
    let nestedKey := replace "]" "" (replace "cardDesign[" "" key) in
    (r, {| p_personalInfo := p_personalInfo pb;
           p_cardDesign := set (p_cardDesign pb) nestedKey v;
           p_deliveryInfo := p_deliveryInfo pb |}, Return tt)
  else if startsWith "deliveryInfo[" key then
    let nestedKey := replace "]" "" (replace "deliveryInfo[" "" key) in
    (r, {| p_personalInfo := p_personalInfo pb;
           p_cardDesign := p_cardDesign pb;
           p_deliveryInfo := set (p_deliveryInfo pb) nestedKey v |}, Return tt)
  else (r, pb, Return tt).

(** Parse all keys and organize them into nested objects. *)
Fixpoint parse_fields (r : realm) (pb : parsed) (fields : list (string * value))
    : realm * parsed * completion unit :=
  match fields with
  | [] => (r, pb, Return tt)
  | (key, v) :: rest =>
      match parse_field r pb key v with
      | (r1, pb1, Return _) => parse_fields r1 pb1 rest
      | thrown => thrown
      end
  end.

(** [req.body] after the middleware: the flat fields and the groups. *)
Inductive bvalue : Type :=
| Field (v : value)
| Group (g : group).

Abbreviation Body := (list (string * bvalue)).

(** [Object.keys(g).length > 0] *)
Definition has_keys (g : group) : bool := (0 <? Z.of_nat (length (own g))).

(** Convert string boolean to actual boolean. *)
Definition coerce_flag (r : realm) (k : string) (g : group) : group :=
  let x := get r g k in
  if target_defined x then set g k (JBool (target_is_true x)) else g.

(** Handle color - convert hex to name if needed. *)
Definition normalize_color (r : realm) (g : group) : group * completion unit :=
  let c := get r g "color" in
  if target_truthy c then
    match c with
    | TOwn (Scalar (JStr s)) | TPolluted (JStr s) =>
        let color := toLowerCase s in
        if String.eqb color "#000" || String.eqb color "#000000"
           || String.eqb color "black"
        then (set g "color" (JStr "black"), Return tt)
        else if String.eqb color "#fff" || String.eqb color "#ffffff"
                || String.eqb color "white"
        then (set g "color" (JStr "white"), Return tt)
        else (g, Return tt)
    | _ =>
        (g, Throw "TypeError: req.body.cardDesign.color.toLowerCase is not a function")
    end
  else (g, Return tt).

(** The part of [parseFormData] after the loop: only add nested objects
    if they have properties. *)
Definition attach (r : realm) (pb : parsed) (b : Body) : Body * completion unit :=
  let b1 :=
    if has_keys (p_personalInfo pb)
    then assoc_set "personalInfo" (Group (p_personalInfo pb)) b
    else b in
  let '(b2, c) :=
    if has_keys (p_cardDesign pb) then
      let cd := coerce_flag r "includePrintedLogo" (p_cardDesign pb) in
      let '(cd, c) := normalize_color r cd in
      (assoc_set "cardDesign" (Group cd) b1, c)
    else (b1, Return tt) in
  match c with
  | Throw e => (b2, Throw e)
  | Return _ =>
      if has_keys (p_deliveryInfo pb)
      then (assoc_set "deliveryInfo"
              (Group (coerce_flag r "useSameContact" (p_deliveryInfo pb))) b2,
            Return tt)
      else (b2, Return tt)
  end.

(** Middleware to parse FormData into nested objects.  [fields] are the
    own properties of [req.body] in enumeration order; [Return tt] stands
    for the call of [next()].  The loop also visits what was written on
    [Object.prototype]; those are number keys, which carry none of the
    three prefixes. *)
Definition parseFormData (r : realm) (fields : list (string * value))
    : realm * Body * completion unit :=
  let b := map (fun kv => (fst kv, Field (snd kv))) fields in
  match parse_fields r parsedBody0 fields with
  | (r1, pb, Return _) =>
      let '(b1, c) := attach r1 pb b in (r1, b1, c)
  | (r1, _, Throw e) => (r1, b, Throw e)
  end.

(** [req.body[outer][inner]] as a field value, when both exist. *)
Definition nested_field (b : Body) (outer inner : string) : option value :=
  match assoc outer b with
  | Some (Group g) =>
      match assoc inner (own g) with
      | Some (Scalar v) => Some v
      | _ => None
      end
  | _ => None
  end.

(** *** The file middleware *)

(** [req.body.cardDesign.companyLogo = p], after
    [if (!req.body.cardDesign) req.body.cardDesign = {}]. *)
Definition with_companyLogo (p : value) (b : Order.OrderData)
    : Order.OrderData :=
  let cd :=
    match Order.cardDesign b with
    | Some cd =>
        {| Order.color := Order.color cd;
           Order.includePrintedLogo := Order.includePrintedLogo cd;
           Order.companyLogo := p |}
    | None =>
        {| Order.color := JUndefined; Order.includePrintedLogo := JUndefined;
           Order.companyLogo := p |}
    end in
  {| Order.product := Order.product b; Order.customer := Order.customer b;
     Order.personalInfo := Order.personalInfo b;
     Order.cardDesign := Some cd;
     Order.deliveryInfo := Order.deliveryInfo b;
     Order.productPrice := Order.productPrice b;
     Order.logoSurcharge := Order.logoSurcharge b;
     Order.total := Order.total b;
     Order.status := Order.status b; Order.notes := Order.notes b |}.

Definition path_value (p : option string) : value :=
  match p with
  | Some s => JStr s
  | None => JNull
  end.

(** Middleware to process uploaded files for orders: [file] is [req.file],
    [fs] is [req.files]; the result is [req.body]. *)
Definition processOrderFiles (file : option File) (fs : option Files)
    (b : Order.OrderData) : Order.OrderData :=
  match file with
  | Some f =>
      if String.eqb (fieldname f) "companyLogo"
      then with_companyLogo (path_value (getRelativeFilePath (Some f))) b
      else
        match fs with
        | Some m =>
            match m !! "companyLogo" with
            | Some (f0 :: _) =>
                with_companyLogo (path_value (getRelativeFilePath (Some f0))) b
            | _ => b
            end
        | None => b
        end
  | None =>
      (* Check for multiple file upload (req.files) *)
      match fs with
      | Some m =>
          match m !! "companyLogo" with
          | Some (f0 :: _) =>
              with_companyLogo (path_value (getRelativeFilePath (Some f0))) b
          | _ => b
          end
      | None => b
      end
  end.

End OrderValidation.

(** ** models/productModel.js *)

Module ProductModel.

(** A Product document.  [images] is [None] when the path holds no array
    ([null]); [isNew] and [updatedAt] are the document state the first
    pre-save hook works on. *)
Record Product : Type := {
  title : string;
  description : string;
  price : Z;
  colors : list string;
  images : option (list value);
  isNew : bool;
  updatedAt : Z
}.

Definition default_image : string := "/img/products/default-product.jpg".

Definition with_updatedAt (t : Z) (doc : Product) : Product :=
  {| title := title doc; description := description doc; price := price doc;
     colors := colors doc; images := images doc; isNew := isNew doc;
     updatedAt := t |}.

Definition with_images (imgs : list value) (doc : Product) : Product :=
  {| title := title doc; description := description doc; price := price doc;
     colors := colors doc; images := Some imgs; isNew := isNew doc;
     updatedAt := updatedAt doc |}.

(** Pre-save middleware to update the updatedAt field. *)
Definition preSaveUpdatedAt (now : Z) (doc : Product) : completion Product :=
  if negb (isNew doc) then Return (with_updatedAt now doc) else Return doc.

(** Pre-save middleware to ensure at least one image. *)
Definition preSaveImages (doc : Product) : completion Product :=
  match images doc with
  | None => Throw "TypeError: Cannot read properties of null (reading 'length')"
  | Some imgs =>
      if (Z.of_nat (length imgs) =? 0)
      then Return (with_images (imgs ++ [JStr default_image]) doc)
      else Return doc
  end.

Definition with_colors (cs : list string) (doc : Product) : Product :=
  {| title := title doc; description := description doc; price := price doc;
     colors := cs; images := images doc; isNew := isNew doc;
     updatedAt := updatedAt doc |}.

(** The setters the schema declares for each colour, [trim: true] and
    [lowercase: true].  [colors] is a Mongoose array: every value that
    enters it, pushed or assigned, passes through them. *)
Definition colorSetters (color : string) : string := trim (toLowerCase color).

(** Instance method to add color: the document afterwards and the
    returned [this.colors].  [includes] looks for the argument as it is;
    [push] stores what the setters make of it. *)
Definition addColor (color : string) (doc : Product) : Product * list string :=
  let doc :=
    if negb (existsb (String.eqb (toLowerCase color)) (colors doc))
    then with_colors (colors doc ++ [colorSetters (toLowerCase color)]) doc
    else doc in
  (doc, colors doc).

(** Instance method to remove color.  The filtered array is assigned to
    [this.colors], so its elements pass through the setters. *)
Definition removeColor (color : string) (doc : Product)
    : Product * list string :=
  let doc :=
    with_colors
      (List.map colorSetters
         (List.filter (fun c => negb (String.eqb c (toLowerCase color)))
            (colors doc)))
      doc in
  (doc, colors doc).

Section Images.

Variable StringToNumber : string -> number.

(** Instance method to add image.  [images] is a Mongoose array of
    [Mixed]: its [includes] compares with [==], and [push] stores the
    value as it is. *)
Definition addImage (imageUrl : value) (doc : Product)
    : completion (Product * list value) :=
  match images doc with
  | None =>
      Throw "TypeError: Cannot read properties of null (reading 'includes')"
  | Some imgs =>
      let imgs :=
        if negb (existsb (loose_eq StringToNumber imageUrl) imgs)
        then imgs ++ [imageUrl]
        else imgs in
      Return (with_images imgs doc, imgs)
  end.

End Images.

(** Instance method to remove image. *)
Definition removeImage (imageUrl : value) (doc : Product)
    : completion (Product * list value) :=
  match images doc with
  | None =>
      Throw "TypeError: Cannot read properties of null (reading 'filter')"
  | Some imgs =>
      let imgs := List.filter (fun img => negb (strict_eq img imageUrl)) imgs in
      Return (with_images imgs doc, imgs)
  end.

Definition is_letter (c : ascii) : bool :=
  let n := nat_of_ascii c in
  ((65 <=? n)%nat && (n <=? 90)%nat) || ((97 <=? n)%nat && (n <=? 122)%nat).

Definition is_hex_digit (c : ascii) : bool :=
  let n := nat_of_ascii c in
  ((48 <=? n)%nat && (n <=? 57)%nat)
  || ((65 <=? n)%nat && (n <=? 70)%nat)
  || ((97 <=? n)%nat && (n <=? 102)%nat).

(** [/^[a-zA-Z\s]+$/] *)
Definition colorNameRegex (s : string) : bool :=
  negb (String.eqb s "")
  && all_chars (fun c => is_letter c || is_space c) s.

(** [/^#([A-Fa-f0-9]{6}|[A-Fa-f0-9]{3})$/] *)
Definition hexColorRegex (s : string) : bool :=
  match s with
  | String "#" digits =>
      ((String.length digits =? 6)%nat || (String.length digits =? 3)%nat)
      && all_chars is_hex_digit digits
  | _ => false
  end.

(** The validator the schema declares for each colour: allow color names
    or hex codes. *)
Definition color_validator (color : string) : bool :=
  colorNameRegex color || hexColorRegex color.

Section Save.

(** Mongoose validates the document against the declared schema before the
    pre-save hooks of the model run.  The hook that the schema option
    [timestamps] installs belongs to Mongoose; it writes [createdAt] and
    [updatedAt] only and is not among the hooks below. *)
Variable schemaValid : Product -> bool.

(** [doc.save()]: the document that is persisted, or the error. *)
Definition save (now : Z) (doc : Product) : completion Product :=
  if schemaValid doc then
    match preSaveUpdatedAt now doc with
    | Return doc1 => preSaveImages doc1
    | Throw e => Throw e
    end
  else Throw "ValidationError".

End Save.

(** The validator the schema declares for [price]. *)
Definition price_validator (val : Z) : bool := (0 <=? val).

End ProductModel.

(** ** routes/products.js *)

Module ProductsRouter.

(** [req.body.images]: a single value (absent when [undefined]) or an
    array. *)
Inductive images_field : Type :=
| One (v : value)
| Many (l : list value).

Definition field_truthy (f : images_field) : bool :=
  match f with
  | One v => truthy v
  | Many _ => true
  end.

(** Middleware to process uploaded images: [files] is [req.files], the
    array multer fills; the result is [req.body.images]. *)
Definition processUploadedImages (files : option (list File))
    (images : images_field) : images_field :=
  match files with
  | Some (f :: rest) =>
      (* Convert uploaded files to relative paths for database storage *)
      let imagePaths :=
        map (fun file => OrderValidation.path_value
                           (getRelativeFilePath (Some file))) (f :: rest) in
      if field_truthy images then
        (* If images already exist in body, merge them *)
        let existingImages :=
          match images with
          | Many l => l
          | One v => [v]
          end in
        Many (existingImages ++ imagePaths)
      else Many imagePaths
  | _ => images
  end.

End ProductsRouter.

(** ** utils/orderUtils.js: pricing *)

Module OrderUtils.

Record Pricing : Type := {
  total : Z;
  logoSurcharge : Z
}.

Section Pricing.

(** The fixed surcharge for a printed logo. *)
Variable LOGO_SURCHARGE : Z.

(** Modelled from the spec: [calculateOrderTotal] of utils/orderUtils.js,
    which is not among the sources.  "Computes a fixed logo surcharge when
    includePrintedLogo is true, zero otherwise; total is the sum." *)
Definition calculateOrderTotal (productPrice : Z) (includePrintedLogo : bool)
    : Pricing :=
  let logoSurcharge := if includePrintedLogo then LOGO_SURCHARGE else 0 in
  {| total := productPrice + logoSurcharge; logoSurcharge := logoSurcharge |}.

End Pricing.

End OrderUtils.

(** ** The order controller *)

Module OrderController.

Record User : Type := {
  user_id : string;
  role : string
}.

(** The persistent collections, keyed by document id. *)
Record DB : Type := {
  products : gmap string ProductModel.Product;
  orders : gmap string Order.OrderData
}.

Record Request : Type := {
  params_id : string;
  body : Order.OrderData;
  files : option Files;
  user : User
}.

(** How a handler finishes: a JSON response, an [AppError] handed to
    [next], or an exception that [catchAsync] hands to [next]. *)
Inductive outcome : Type :=
| Responded (code : Z) (order : Order.OrderData) (message : string)
| Failed (message : string) (code : Z)
| Crashed (err : string).

Definition with_orders (os : gmap string Order.OrderData) (db : DB) : DB :=
  {| products := products db; orders := os |}.

Definition with_pricing (p t s : value) (b : Order.OrderData)
    : Order.OrderData :=
  {| Order.product := Order.product b; Order.customer := Order.customer b;
     Order.personalInfo := Order.personalInfo b;
     Order.cardDesign := Order.cardDesign b;
     Order.deliveryInfo := Order.deliveryInfo b;
     Order.productPrice := p; Order.logoSurcharge := s; Order.total := t;
     Order.status := Order.status b; Order.notes := Order.notes b |}.

Definition with_status (s : value) (b : Order.OrderData) : Order.OrderData :=
  {| Order.product := Order.product b; Order.customer := Order.customer b;
     Order.personalInfo := Order.personalInfo b;
     Order.cardDesign := Order.cardDesign b;
     Order.deliveryInfo := Order.deliveryInfo b;
     Order.productPrice := Order.productPrice b;
     Order.logoSurcharge := Order.logoSurcharge b;
     Order.total := Order.total b;
     Order.status := s; Order.notes := Order.notes b |}.

Definition with_notes (n : value) (b : Order.OrderData) : Order.OrderData :=
  {| Order.product := Order.product b; Order.customer := Order.customer b;
     Order.personalInfo := Order.personalInfo b;
     Order.cardDesign := Order.cardDesign b;
     Order.deliveryInfo := Order.deliveryInfo b;
     Order.productPrice := Order.productPrice b;
     Order.logoSurcharge := Order.logoSurcharge b;
     Order.total := Order.total b;
     Order.status := Order.status b; Order.notes := n |}.

(** [req.body.cardDesign?.includePrintedLogo] *)
Definition body_includePrintedLogo (b : Order.OrderData) : value :=
  match Order.cardDesign b with
  | Some cd => Order.includePrintedLogo cd
  | None => JUndefined
  end.

(** The message for a status transition. *)
Definition status_message (status : value) : string :=
  if strict_eq_str status "confirmed"
  then "Order confirmed! Your NFC card will be printed soon."
  else if strict_eq_str status "printed"
  then "Your NFC card has been printed and is ready for shipping!"
  else if strict_eq_str status "shipped"
  then "Your NFC card has been shipped! You will receive it soon."
  else if strict_eq_str status "delivered"
  then "Order delivered successfully! Thank you for your business."
  else "Order status updated to " +:+ to_string status.

Section Handlers.

(** Collaborators of the controller that live in utils/orderUtils.js and
    models/orderModel.js, neither of which is among the sources. *)
Variable setOrderDefaults : Order.OrderData -> User -> Order.OrderData.
Variable processOrderFiles : option Files -> Order.OrderData -> Order.OrderData.
Variable calculateOrderTotal : Z -> value -> OrderUtils.Pricing.
Variable buildOrderUpdateObject : Order.OrderData -> gmap string value.
Variable deliveryDateText : Order.OrderData -> string.

(** Schema validation of the Order model, run by [Order.create] and
    [order.save()]. *)
Variable orderSchemaValid : Order.OrderData -> bool.

(** MongoDB's [$set] of dotted paths on a stored order. *)
Variable applySet : gmap string value -> Order.OrderData -> Order.OrderData.

(** The statuses the Order model recognises. *)
Variable STATUSES : list string.

(** Modelled from the spec: [Order.create] of models/orderModel.js, which
    is not among the sources.  "persist": the fields of the request body
    are stored as given once the schema accepts them. *)
Definition Order_create (doc : Order.OrderData) : completion Order.OrderData :=
  if orderSchemaValid doc then Return doc else Throw "ValidationError".

(** Modelled from the spec: [order.updateStatus] of models/orderModel.js,
    which is not among the sources.  "any provided status is accepted as
    long as it is a recognized value"; "apply the new status". *)
Definition updateStatus (order : Order.OrderData) (status : value)
    : completion Order.OrderData :=
  if existsb (strict_eq_str status) STATUSES
  then Return (with_status status order)
  else Throw ("Invalid status: " +:+ to_string status).

(** Modelled from the spec: [order.save()] of models/orderModel.js, which
    is not among the sources.  "persist". *)
Definition Order_save (order : Order.OrderData) : completion Order.OrderData :=
  if orderSchemaValid order then Return order else Throw "ValidationError".

(** Create new NFC card order.  [newId] is the id the database assigns.
    What follows [Order.create] ([populate], [formatOrderResponse]) shapes
    the response only and is not among the sources; the response is kept
    as the created order and its message. *)
Definition createOrder (newId : string) (db : DB) (req : Request)
    : DB * outcome :=
  (* Set default values *)
  let body := setOrderDefaults (body req) (user req) in
  (* Validate required fields *)
  match OrderValidation.validateRequiredFields body with
  | Some requiredFieldsError => (db, Failed requiredFieldsError 400)
  | None =>
      (* Get product details and validate *)
      match products db !! to_string (Order.product body) with
      | None => (db, Failed "Product not found" 404)
      | Some product =>
          (* Process file uploads *)
          let body := processOrderFiles (files req) body in
          (* Calculate pricing *)
          let pricing :=
            calculateOrderTotal (ProductModel.price product)
                                (body_includePrintedLogo body) in
          let body :=
            with_pricing (JNum (ProductModel.price product))
                         (JNum (OrderUtils.total pricing))
                         (JNum (OrderUtils.logoSurcharge pricing)) body in
          (* Validate company logo *)
          match OrderValidation.validateCompanyLogo
                  (Order.cardDesign body) (files req) None with
          | Some logoError => (db, Failed logoError 400)
          | None =>
              (* Validate delivery info *)
              match OrderValidation.validateDeliveryInfo
                      (Order.deliveryInfo body) None with
              | Throw e => (db, Crashed e)
              | Return (Some deliveryError) => (db, Failed deliveryError 400)
              | Return None =>
                  (* Create the order *)
                  match Order_create body with
                  | Throw e => (db, Crashed e)
                  | Return newOrder =>
                      (with_orders (<[newId := newOrder]> (orders db)) db,
                       Responded 201 newOrder
                         ("NFC Card order " +:+ newId
                          +:+ " created successfully! Estimated delivery: "
                          +:+ deliveryDateText newOrder))
                  end
              end
          end
      end
  end.

(** [req.files && req.files.companyLogo] *)
Definition uploaded_logo (fs : option Files) : option (list File) :=
  match fs with
  | Some m => m !! "companyLogo"
  | None => None
  end.

(** Build update object, then add uploaded file paths to update data. *)
Definition updateData_of (body : Order.OrderData) (fs : option Files)
    : completion (gmap string value) :=
  let updateData := buildOrderUpdateObject body in
  match uploaded_logo fs with
  | None => Return updateData
  | Some [] =>
      Throw "TypeError: Cannot read properties of undefined (reading 'path')"
  | Some (f :: _) =>
      Return (<["cardDesign.companyLogo" := JStr (path f)]> updateData)
  end.

(** Update order.  What follows [findByIdAndUpdate] ([populate],
    [formatOrderResponse]) shapes the response only and is not among the
    sources; the response is kept as the updated order and its message. *)
Definition updateOrder (db : DB) (req : Request) : DB * outcome :=
  (* Get current order for validation *)
  match orders db !! params_id req with
  | None => (db, Failed "No order found with that ID" 404)
  | Some existingOrder =>
      (* Process file uploads *)
      let body := processOrderFiles (files req) (body req) in
      (* Validate company logo *)
      match OrderValidation.validateCompanyLogo
              (Order.cardDesign body) (files req) (Some existingOrder) with
      | Some logoError => (db, Failed logoError 400)
      | None =>
          (* Validate delivery info *)
          match OrderValidation.validateDeliveryInfo
                  (Order.deliveryInfo body) (Some existingOrder) with
          | Throw e => (db, Crashed e)
          | Return (Some deliveryError) => (db, Failed deliveryError 400)
          | Return None =>
              match updateData_of body (files req) with
              | Throw e => (db, Crashed e)
              | Return updateData =>
                  (* Check if there's actually something to update *)
                  if (Z.of_nat (size updateData) =? 0)
                  then (db, Failed "No valid fields provided for update" 400)
                  else
                    (* Update the order *)
                    let order := applySet updateData existingOrder in
                    (with_orders (<[params_id req := order]> (orders db)) db,
                     Responded 200 order "Order updated successfully")
              end
          end
      end
  end.

(** Update order status.  What follows [order.save()] ([populate],
    [getOrderSummary]) shapes the response only and is not among the
    sources; the response is kept as the saved order and its message. *)
Definition updateOrderStatus (db : DB) (req : Request) : DB * outcome :=
  let status := Order.status (body req) in
  let notes := Order.notes (body req) in
  if negb (truthy status) then (db, Failed "Please provide a status" 400)
  else
    match orders db !! params_id req with
    | None => (db, Failed "No order found with that ID" 404)
    | Some order =>
        match updateStatus order status with
        | Throw e => (db, Failed e 400)
        | Return order =>
            (* Add notes if provided *)
            let order := if truthy notes then with_notes notes order
                         else order in
            match Order_save order with
            | Throw e => (db, Failed e 400)
            | Return order =>
                (* Send different messages based on status *)
                (with_orders (<[params_id req := order]> (orders db)) db,
                 Responded 200 order (status_message status))
            end
        end
    end.

End Handlers.

(** How the listing of a customer's orders finishes. *)
Inductive listing : Type :=
| Listed (code : Z) (results : Z) (found : list Order.OrderData)
| Refused (message : string) (code : Z).

Section CustomerOrders.

(** [Order.findByCustomer], a static of models/orderModel.js, which is not
    among the sources. *)
Variable findByCustomer : DB -> string -> list Order.OrderData.

(** Get customer orders (with role-based access control). *)
Definition getCustomerOrders (db : DB) (u : User) (customerId : string)
    : listing :=
  (* Check if user is admin or requesting their own orders *)
  if negb (String.eqb (role u) "admin")
     && negb (String.eqb (user_id u) customerId)
  then Refused "You can only access your own orders" 403
  else
    let found := findByCustomer db customerId in
    Listed 200 (Z.of_nat (length found)) found.

End CustomerOrders.

End OrderController.

(* ===================================================================== *)
(** * Part II: specification predicates and sample data                  *)
(* ===================================================================== *)

Import OrderValidation.
Import OrderController.

(** "city is in the static whitelist for country". *)
Definition whitelisted (country city : value) : bool :=
  match assoc (to_string country) COUNTRY_CITY_MAP with
  | Some cs => cities_include cs city
  | None => false
  end.

(** An order whose stored delivery address is outside the whitelist. *)
Definition order_outside_whitelist : Order.OrderData :=
  {| Order.product := JStr "p1"; Order.customer := JStr "u1";
     Order.personalInfo := None; Order.cardDesign := None;
     Order.deliveryInfo :=
       Some {| Order.country := JStr "FR"; Order.city := JStr "Paris";
               Order.useSameContact := JBool false |};
     Order.productPrice := JNum 20; Order.logoSurcharge := JNum 0;
     Order.total := JNum 20; Order.status := JStr "pending";
     Order.notes := JUndefined |}.

(** The three places a logo can come from. *)
Definition logo_on_design (cd : Order.CardDesign) : bool :=
  truthy (Order.companyLogo cd).

Definition logo_uploaded (files : option Files) : bool :=
  match files with
  | Some m =>
      match m !! "companyLogo" with
      | Some (_ :: _) => true
      | _ => false
      end
  | None => false
  end.

Definition logo_on_existing_order (existingOrder : option Order.OrderData)
    : bool :=
  match existingOrder with
  | Some o =>
      match Order.cardDesign o with
      | Some ecd => truthy (Order.companyLogo ecd)
      | None => false
      end
  | None => false
  end.

Definition some_logo_source (cd : Order.CardDesign) (files : option Files)
    (existingOrder : option Order.OrderData) : bool :=
  logo_on_design cd || logo_uploaded files
  || logo_on_existing_order existingOrder.

Definition logo_file : File :=
  {| fieldname := "companyLogo"; originalname := "logo.png";
     mimetype := "image/png";
     path := "/srv/app/public/uploads/companyLogo/logo-1700000000000-42.png";
     filename := "logo-1700000000000-42.png" |}.

Definition design_wanting_logo : Order.CardDesign :=
  {| Order.color := JStr "black"; Order.includePrintedLogo := JBool true;
     Order.companyLogo := JUndefined |}.

(** A design as a JSON body may carry it: the flag is the string "false",
    not a boolean, and no logo comes with it. *)
Definition design_with_string_flag : Order.CardDesign :=
  {| Order.color := JStr "black"; Order.includePrintedLogo := JStr "false";
     Order.companyLogo := JUndefined |}.


(** A small database: one product and one pending order. *)
Definition card_product : ProductModel.Product :=
  {| ProductModel.title := "NFC card";
     ProductModel.description := "A plain NFC business card";
     ProductModel.price := 20; ProductModel.colors := ["black"; "white"];
     ProductModel.images := Some [JStr "/uploads/images/card.png"];
     ProductModel.isNew := false; ProductModel.updatedAt := 0 |}.

Definition pending_order : Order.OrderData :=
  {| Order.product := JStr "p1"; Order.customer := JStr "u1";
     Order.personalInfo :=
       Some {| Order.firstName := JStr "Lina"; Order.lastName := JStr "Haddad" |};
     Order.cardDesign :=
       Some {| Order.color := JStr "black";
               Order.includePrintedLogo := JBool false;
               Order.companyLogo := JUndefined |};
     Order.deliveryInfo :=
       Some {| Order.country := JStr "JO"; Order.city := JStr "Amman";
               Order.useSameContact := JBool true |};
     Order.productPrice := JNum 20; Order.logoSurcharge := JNum 0;
     Order.total := JNum 20; Order.status := JStr "pending";
     Order.notes := JUndefined |}.

Definition shop : DB :=
  {| products := {["p1" := card_product]};
     orders := {["o1" := pending_order]} |}.

Definition customer_u1 : User := {| user_id := "u1"; role := "user" |}.

Definition status_request (s : string) : Request :=
  {| params_id := "o1";
     body := with_status (JStr s) pending_order;
     files := None; user := customer_u1 |}.

Definition known_statuses : list string :=
  ["pending"; "confirmed"; "printed"; "shipped"; "delivered"; "cancelled"].

(** A request that sends its own pricing along with the order. *)
Definition underpriced_body : Order.OrderData :=
  {| Order.product := JStr "p1"; Order.customer := JStr "u1";
     Order.personalInfo :=
       Some {| Order.firstName := JStr "Lina"; Order.lastName := JStr "Haddad" |};
     Order.cardDesign :=
       Some {| Order.color := JStr "black";
               Order.includePrintedLogo := JBool true;
               Order.companyLogo := JUndefined |};
     Order.deliveryInfo :=
       Some {| Order.country := JStr "JO"; Order.city := JStr "Amman";
               Order.useSameContact := JBool true |};
     Order.productPrice := JNum 1; Order.logoSurcharge := JNum 0;
     Order.total := JNum 1; Order.status := JStr "pending";
     Order.notes := JUndefined |}.

Definition create_request : Request :=
  {| params_id := ""; body := underpriced_body;
     files := Some {["companyLogo" := [logo_file]]}; user := customer_u1 |}.


(** What the flag conversion makes of a value. *)
Definition coerced_flag (v : value) : value :=
  match v with
  | JUndefined => JUndefined
  | _ => JBool (strict_eq_str v "true" || strict_eq_true v)
  end.

(** The nested key a flat key addresses in the group with this prefix. *)
Definition nested_key (prefix key : string) : option string :=
  if startsWith prefix key then Some (replace "]" "" (replace prefix "" key))
  else None.

Definition addresses (prefix name key : string) : bool :=
  match nested_key prefix key with
  | Some k => String.eqb k name
  | None => false
  end.

(** The value a form supplies under [prefix name]: that of the last field
    that addresses it. *)
Fixpoint supplied (prefix name : string) (fields : list (string * value))
    : option value :=
  match fields with
  | [] => None
  | (key, v) :: rest =>
      match supplied prefix name rest with
      | Some w => Some w
      | None => if addresses prefix name key then Some v else None
      end
  end.

(** A form as a browser sends it. *)
Definition order_form : list (string * value) :=
  [ ("product", JStr "p1");
    ("personalInfo[firstName]", JStr "Lina");
    ("personalInfo[phoneNumbers][0]", JStr "0790000000");
    ("cardDesign[color]", JStr "#FFF");
    ("cardDesign[includePrintedLogo]", JStr "false");
    ("deliveryInfo[country]", JStr "JO");
    ("deliveryInfo[city]", JStr "Amman");
    ("deliveryInfo[useSameContact]", JStr "true") ].

(** The message [validateCountryCity] gives for a city outside the list
    [cs] of a known country. *)
Definition invalid_city_message (country city : value) (cs : list string)
    : string :=
  "Invalid city '" +:+ to_string city +:+ "' for country '"
  +:+ to_string country +:+ "'. Valid cities are: " +:+ join ", " cs.

(** Whether a key carries one of the three prefixes the parser reads. *)
Definition prefixed (key : string) : bool :=
  startsWith "personalInfo[" key || startsWith "cardDesign[" key
  || startsWith "deliveryInfo[" key.

(** The array a [personalInfo[...]] key writes into, if it is of the
    array form. *)
Definition array_key (key : string) : option string :=
  match nested_key "personalInfo[" key with
  | Some nestedKey =>
      if includes "[" nestedKey && includes "]" nestedKey
      then head (split "[" nestedKey)
      else None
  | None => None
  end.

(** The colour token the parser stores for a colour string. *)
Definition canonical_color (s : string) : string :=
  let c := toLowerCase s in
  if String.eqb c "#000" || String.eqb c "#000000" || String.eqb c "black"
  then "black"
  else if String.eqb c "#fff" || String.eqb c "#ffffff" || String.eqb c "white"
  then "white"
  else s.

(** [req.body[key]] as a flat field. *)
Definition flat_field (b : Body) (key : string) : option value :=
  match assoc key b with
  | Some (Field v) => Some v
  | _ => None
  end.

(** The three keys under which the parser attaches its groups. *)
Definition group_name (key : string) : bool :=
  String.eqb key "personalInfo" || String.eqb key "cardDesign"
  || String.eqb key "deliveryInfo".

(** A [$set] that only knows the logo path. *)
Definition set_logo_only (u : gmap string value) (o : Order.OrderData)
    : Order.OrderData :=
  match u !! "cardDesign.companyLogo" with
  | Some p => with_companyLogo p o
  | None => o
  end.

Definition empty_body : Order.OrderData :=
  {| Order.product := JUndefined; Order.customer := JUndefined;
     Order.personalInfo := None; Order.cardDesign := None;
     Order.deliveryInfo := None;
     Order.productPrice := JUndefined; Order.logoSurcharge := JUndefined;
     Order.total := JUndefined; Order.status := JUndefined;
     Order.notes := JUndefined |}.

(** An update that sends nothing but a logo file. *)
Definition logo_update_request : Request :=
  {| params_id := "o1"; body := empty_body;
     files := Some {["companyLogo" := [logo_file]]}; user := customer_u1 |}.

Definition admin_user : User := {| user_id := "a1"; role := "admin" |}.

(** The orders of a customer, read off the stored customer reference. *)
Definition orders_of (db : DB) (customerId : string) : list Order.OrderData :=
  List.filter (fun o => strict_eq_str (Order.customer o) customerId)
    (map snd (map_to_list (orders db))).

(** The images a product body already lists, as the upload middleware
    takes them over. *)
Definition existing_images (images : ProductsRouter.images_field)
    : list value :=
  match images with
  | ProductsRouter.Many l => l
  | ProductsRouter.One v => if truthy v then [v] else []
  end.

(** The database path of an uploaded file. *)
Definition stored_path (file : File) : value :=
  path_value (getRelativeFilePath (Some file)).

(** Neither [req.file] nor [req.files] carries a company logo. *)
Definition no_logo_upload (file : option File) (fs : option Files) : Prop :=
  match file with
  | Some f => fieldname f <> "companyLogo"
  | None => True
  end
  /\ logo_uploaded fs = false.

Definition image_file (name : string) : File :=
  {| fieldname := "images"; originalname := name; mimetype := "image/png";
     path := "/srv/app/public/uploads/images/" +:+ name; filename := name |}.

(** The array and the slot a key of the form [personalInfo[k][i]] writes,
    the slot as a property key. *)
Definition array_slot (key : string) : option (string * string) :=
  match nested_key "personalInfo[" key with
  | Some nestedKey =>
      if includes "[" nestedKey && includes "]" nestedKey then
        match split "[" nestedKey with
        | arrayKey :: second :: _ =>
            Some (arrayKey, number_key (parseInt (replace "]" "" second)))
        | _ => None
        end
      else None
  | None => None
  end.

(** The property a key of the form [personalInfo[k]] sets. *)
Definition plain_key (key : string) : option string :=
  match nested_key "personalInfo[" key with
  | Some nestedKey =>
      if includes "[" nestedKey && includes "]" nestedKey then None
      else Some nestedKey
  | None => None
  end.

Definition writes_slot (name slot key : string) : bool :=
  match array_slot key with
  | Some (k, i) => String.eqb k name && String.eqb i slot
  | None => false
  end.

(** The value a form supplies for slot [slot] of the array [name]: that
    of the last field that writes it. *)
Fixpoint supplied_slot (name slot : string) (fields : list (string * value))
    : option value :=
  match fields with
  | [] => None
  | (key, v) :: rest =>
      match supplied_slot name slot rest with
      | Some w => Some w
      | None => if writes_slot name slot key then Some v else None
      end
  end.

(** Slot [slot] of the array [g[name]]. *)
Definition group_slot (g : group) (name slot : string) : option value :=
  match assoc name (own g) with
  | Some (Array slots) => assoc slot slots
  | _ => None
  end.

(** [req.body[outer][name][slot]] *)
Definition nested_slot (b : Body) (outer name slot : string) : option value :=
  match assoc outer b with
  | Some (Group g) => group_slot g name slot
  | _ => None
  end.

(** [g[name]] is an array or nothing. *)
Definition array_or_absent (g : group) (name : string) : Prop :=
  match assoc name (own g) with
  | Some (Scalar _) => False
  | _ => True
  end.

(** A field that neither sets [personalInfo[name]] as a plain property nor
    writes through a member of [Object.prototype]. *)
Definition harmless_for (name key : string) : Prop :=
  plain_key key <> Some name
  /\ match array_key key with
     | Some k => is_prototype_member k = false
     | None => True
     end.

Definition phone_form : list (string * value) :=
  [ ("personalInfo[phoneNumbers][0]", JStr "0790000000");
    ("personalInfo[firstName]", JStr "Lina");
    ("personalInfo[phoneNumbers][2]", JStr "0780000000");
    ("personalInfo[phoneNumbers][0]", JStr "0770000000") ].

(** A colour as the array holds it: the setters of the schema leave it as
    it is (lower case, no white space around it). *)
Definition as_stored (c : string) : Prop := ProductModel.colorSetters c = c.

(** A string that is empty or starts with a character that is no white
    space. *)
Definition starts_clean (s : string) : Prop :=
  match s with
  | EmptyString => True
  | String c _ => is_space c = false
  end.

(** A colour that consists of white space only. *)
Definition blank (c : string) : bool := all_chars is_space c.

(** A reading of strings as numbers for documents whose images are all
    strings: these are compared as strings and not read as numbers. *)
Definition unread : string -> number := fun _ => NaN.

(** Every own property of the group holds a string. *)
Definition strings_only (g : group) : Prop :=
  forall k m, assoc k (own g) = Some m -> exists s, m = Scalar (JStr s).

(* ===================================================================== *)
(** * Part III: the properties                                           *)
(* ===================================================================== *)

(** ** Pricing *)

Section PricingProperties.

Variable LOGO_SURCHARGE : Z.
Hypothesis surcharge_positive : 0 < LOGO_SURCHARGE.

(** C1.  For every product price and printed-logo flag,
    [calculateOrderTotal] returns a total and a surcharge with
    [total = productPrice + logoSurcharge]; the surcharge is zero exactly
    when the flag is false, and it is the fixed positive surcharge when the
    flag is true.  Being a function of its two arguments, the result is
    deterministic. *)
Theorem calculateOrderTotal_sum_and_surcharge
    (productPrice : Z) (includePrintedLogo : bool) :
  let r := OrderUtils.calculateOrderTotal LOGO_SURCHARGE productPrice
             includePrintedLogo in
  OrderUtils.total r = productPrice + OrderUtils.logoSurcharge r
  /\ (OrderUtils.logoSurcharge r = 0 <-> includePrintedLogo = false)
  /\ (includePrintedLogo = true ->
      OrderUtils.logoSurcharge r = LOGO_SURCHARGE
      /\ 0 < OrderUtils.logoSurcharge r).
Proof.
  destruct includePrintedLogo; cbn; repeat split; intros; try lia;
    try discriminate; try reflexivity.
Qed.

End PricingProperties.

Lemma calculateOrderTotal_sum_and_surcharge_witness :
  0 < 5
  /\ OrderUtils.total (OrderUtils.calculateOrderTotal 5 20 true) = 25
  /\ OrderUtils.logoSurcharge (OrderUtils.calculateOrderTotal 5 20 false) = 0.
Proof.
  split; [lia |].
  pose proof (calculateOrderTotal_sum_and_surcharge 5 ltac:(lia) 20 true) as Ht.
  pose proof (calculateOrderTotal_sum_and_surcharge 5 ltac:(lia) 20 false) as Hf.
  cbn in Ht, Hf.
  destruct Ht as [Ht _]. destruct Hf as [_ [Hf _]].
  split; [exact Ht | apply Hf; reflexivity].
Defined.

(** ** Delivery validation *)

(** The static table, as the specification lists it. *)
Lemma whitelist_table :
  assoc "JO" COUNTRY_CITY_MAP
    = Some ["Amman"; "Irbid"; "Zarqa"; "Aqaba"; "Salt"]
  /\ assoc "UK" COUNTRY_CITY_MAP
    = Some ["London"; "Manchester"; "Birmingham"; "Liverpool"; "Bristol"]
  /\ forall k, k <> "JO" -> k <> "UK" -> assoc k COUNTRY_CITY_MAP = @None (list string).
Proof.
  repeat split. intros k H1 H2. cbn.
  destruct (String.eqb_spec k "JO"); [contradiction |].
  destruct (String.eqb_spec k "UK"); [contradiction | reflexivity].
Qed.

(** C2, as stated, fails: with the city missing the validator returns
    [null] although no city of the whitelist was given. *)
Lemma validateCountryCity_null_without_city :
  validateCountryCity (JStr "JO") JUndefined = Return None
  /\ whitelisted (JStr "JO") JUndefined = false.
Proof. split; reflexivity. Qed.

(** C2, amended.  [validateCountryCity] returns [null] exactly when the
    country or the city is missing (falsy) or the city is in the whitelist
    of the country.  With both present, a country that names no entry of
    the table (and no member the table object inherits) gets the message
    listing the known countries, and a known country with an unlisted city
    gets the message listing that country's cities. *)
Theorem validateCountryCity_null_iff (country city : value) :
  (validateCountryCity country city = Return None
   <-> truthy country = false \/ truthy city = false
       \/ whitelisted country city = true)
  /\ (truthy country = true -> truthy city = true ->
      assoc (to_string country) COUNTRY_CITY_MAP = None ->
      is_prototype_member (to_string country) = false ->
      validateCountryCity country city
      = Return (Some ("Invalid country '" +:+ to_string country
                      +:+ "'. Available countries are: JO, UK")))
  /\ (forall cs, truthy country = true -> truthy city = true ->
      assoc (to_string country) COUNTRY_CITY_MAP = Some cs ->
      cities_include cs city = false ->
      validateCountryCity country city
      = Return (Some ("Invalid city '" +:+ to_string city
                      +:+ "' for country '" +:+ to_string country
                      +:+ "'. Valid cities are: " +:+ join ", " cs))).
Proof.
  unfold validateCountryCity, whitelisted, lookup_country.
  generalize (assoc (to_string country) COUNTRY_CITY_MAP)
             (is_prototype_member (to_string country)).
  intros entry inherited. repeat split.
  - destruct (truthy country); cbn [negb orb]; [| auto].
    destruct (truthy city); cbn [negb orb]; [| auto].
    destruct entry as [cs |].
    + destruct (cities_include cs city); cbn [negb];
        [auto | intros H; discriminate H].
    + destruct inherited; intros H; discriminate H.
  - intros [Hc | [Hy | Hw]].
    + rewrite Hc. reflexivity.
    + rewrite Hy, orb_true_r. reflexivity.
    + destruct (negb (truthy country) || negb (truthy city)); [reflexivity |].
      destruct entry as [cs |]; [| discriminate].
      rewrite Hw. reflexivity.
  - intros Hc Hy -> ->. rewrite Hc, Hy. reflexivity.
  - intros cs Hc Hy Hcs Hin. rewrite Hc, Hy, Hcs. cbn [negb orb].
    rewrite Hin. reflexivity.
Qed.

Lemma validateCountryCity_null_iff_witness :
  validateCountryCity (JStr "FR") (JStr "Paris")
  = Return (Some "Invalid country 'FR'. Available countries are: JO, UK")
  /\ validateCountryCity (JStr "UK") (JStr "Amman")
     = Return (Some "Invalid city 'Amman' for country 'UK'. Valid cities are: London, Manchester, Birmingham, Liverpool, Bristol")
  /\ validateCountryCity (JStr "JO") (JStr "Amman") = Return None.
Proof.
  split; [| split].
  - apply (proj1 (proj2 (validateCountryCity_null_iff (JStr "FR") (JStr "Paris"))));
      reflexivity.
  - apply (proj2 (proj2 (validateCountryCity_null_iff (JStr "UK") (JStr "Amman")))
             ["London"; "Manchester"; "Birmingham"; "Liverpool"; "Bristol"]);
      reflexivity.
  - apply (proj1 (validateCountryCity_null_iff (JStr "JO") (JStr "Amman"))).
    right; right; reflexivity.
Defined.

(** C10.  Without a [deliveryInfo] object the delivery validation returns
    [null] whatever the existing order holds, so the whitelist is not
    checked on such an update.  With a [deliveryInfo] object that supplies
    both the country and the city, the existing order is not consulted:
    the verdict is that of [validateCountryCity] on the supplied pair. *)
Theorem validateDeliveryInfo_without_deliveryInfo
    (existingOrder : option Order.OrderData) :
  validateDeliveryInfo None existingOrder = Return None
  /\ (forall di : Order.DeliveryInfo,
      truthy (Order.country di) = true -> truthy (Order.city di) = true ->
      validateDeliveryInfo (Some di) existingOrder
      = validateCountryCity (Order.country di) (Order.city di)).
Proof.
  split; [reflexivity |].
  intros di Hc Hy. unfold validateDeliveryInfo, or_else.
  rewrite Hc, Hy. reflexivity.
Qed.

Lemma validateDeliveryInfo_without_deliveryInfo_witness :
  validateDeliveryInfo None (Some order_outside_whitelist) = Return None
  /\ validateDeliveryInfo
       (Some {| Order.country := JStr "JO"; Order.city := JStr "Amman";
                Order.useSameContact := JUndefined |})
       (Some order_outside_whitelist)
     = validateCountryCity (JStr "JO") (JStr "Amman").
Proof.
  split.
  - apply (proj1 (validateDeliveryInfo_without_deliveryInfo
                    (Some order_outside_whitelist))).
  - apply (proj2 (validateDeliveryInfo_without_deliveryInfo
                    (Some order_outside_whitelist))
             {| Order.country := JStr "JO"; Order.city := JStr "Amman";
                Order.useSameContact := JUndefined |}); reflexivity.
Defined.

(** With a [deliveryInfo] object that lacks the country, the country of
    the existing order is the one that is validated. *)
Lemma validateDeliveryInfo_falls_back
    (di : Order.DeliveryInfo) (existingOrder : option Order.OrderData) :
  truthy (Order.country di) = false ->
  truthy (Order.city di) = true ->
  validateDeliveryInfo (Some di) existingOrder
  = validateCountryCity (existing_delivery existingOrder Order.country)
      (Order.city di).
Proof.
  intros Hc Hy. unfold validateDeliveryInfo, or_else.
  rewrite Hc, Hy. reflexivity.
Qed.

(** ** The company logo rule *)

Lemma uploaded_length (files : option Files) :
  match default ∅ files !! "companyLogo" with
  | Some fs => 0 <? Z.of_nat (length fs)
  | None => false
  end = logo_uploaded files.
Proof.
  unfold logo_uploaded. destruct files as [m |]; cbn.
  - destruct (m !! "companyLogo") as [[| f fs] |]; reflexivity.
  - rewrite lookup_empty. reflexivity.
Qed.

(** C3, as stated, fails: the flag is tested for truth, not compared
    with [true], so a flag that is not [true] but passes the truth test
    (the string "false") makes the validator ask for a logo. *)
Lemma validateCompanyLogo_asks_for_a_truthy_flag :
  strict_eq_true (Order.includePrintedLogo design_with_string_flag) = false
  /\ validateCompanyLogo (Some design_with_string_flag) None None
     = Some "Company logo is required when printed logo is selected".
Proof. split; reflexivity. Qed.

(** C3, amended.  [validateCompanyLogo] returns [null] whenever the design
    does not ask for a printed logo (the flag fails JavaScript's truth
    test, or there is no design object at all).  When the flag passes the
    truth test, it returns the fixed message exactly when none of the
    three logo sources is present, and [null] when at least one of them
    is. *)
Theorem validateCompanyLogo_requires_a_logo
    (cd : Order.CardDesign) (files : option Files)
    (existingOrder : option Order.OrderData) :
  validateCompanyLogo None files existingOrder = None
  /\ (truthy (Order.includePrintedLogo cd) = false ->
      validateCompanyLogo (Some cd) files existingOrder = None)
  /\ (truthy (Order.includePrintedLogo cd) = true ->
      (validateCompanyLogo (Some cd) files existingOrder
       = Some "Company logo is required when printed logo is selected"
       <-> some_logo_source cd files existingOrder = false)
      /\ (validateCompanyLogo (Some cd) files existingOrder = None
          <-> some_logo_source cd files existingOrder = true)).
Proof.
  split; [reflexivity |].
  unfold validateCompanyLogo, some_logo_source.
  rewrite uploaded_length.
  fold (logo_on_design cd). fold (logo_on_existing_order existingOrder).
  split.
  - intros ->. reflexivity.
  - intros ->. cbn [negb].
    destruct (logo_on_design cd), (logo_uploaded files),
      (logo_on_existing_order existingOrder); cbn;
      repeat split; intros H; try reflexivity; try discriminate H.
Qed.

Lemma validateCompanyLogo_requires_a_logo_witness :
  validateCompanyLogo (Some design_wanting_logo) None None
  = Some "Company logo is required when printed logo is selected"
  /\ validateCompanyLogo (Some design_wanting_logo)
       (Some {["companyLogo" := [logo_file]]}) None = None
  /\ validateCompanyLogo
       (Some {| Order.color := JStr "black";
                Order.includePrintedLogo := JBool false;
                Order.companyLogo := JUndefined |}) None None = None.
Proof.
  split; [| split].
  - apply (proj1 (proj2 (proj2 (validateCompanyLogo_requires_a_logo
                                  design_wanting_logo None None))
                   eq_refl)).
    reflexivity.
  - apply (proj2 (proj2 (proj2 (validateCompanyLogo_requires_a_logo
                                  design_wanting_logo
                                  (Some {["companyLogo" := [logo_file]]}) None))
                   eq_refl)).
    reflexivity.
  - apply (proj1 (proj2 (validateCompanyLogo_requires_a_logo
                           {| Order.color := JStr "black";
                              Order.includePrintedLogo := JBool false;
                              Order.companyLogo := JUndefined |} None None))).
    reflexivity.
Defined.

(** ** The Product model *)



Section ProductSave.

Variable schemaValid : ProductModel.Product -> bool.


End ProductSave.


(** ** The order controller *)

Lemma existsb_status (s : string) (l : list string) :
  In s l -> existsb (strict_eq_str (JStr s)) l = true.
Proof.
  intros H. apply existsb_exists. exists s. split; [exact H |].
  cbn. apply String.eqb_refl.
Qed.

Lemma status_message_generic (s : string) :
  s <> "confirmed" -> s <> "printed" -> s <> "shipped" -> s <> "delivered" ->
  status_message (JStr s) = "Order status updated to " +:+ s.
Proof.
  intros H1 H2 H3 H4. unfold status_message. cbn [strict_eq_str to_string].
  apply String.eqb_neq in H1, H2, H3, H4.
  rewrite H1, H2, H3, H4. reflexivity.
Qed.

Section StatusTransition.

Variable orderSchemaValid : Order.OrderData -> bool.
Variable STATUSES : list string.

(** C4.  A status transition to a recognised, non-empty status on an
    existing order answers 200 with a status-specific message: the exact
    wording for "confirmed", bespoke wording for "printed", "shipped" and
    "delivered", and for every other accepted status the generic message,
    which contains "status updated"; the order that is persisted carries
    the requested status. *)
Theorem updateOrderStatus_message_and_status
    (db : DB) (req : Request) (order : Order.OrderData) (s : string) :
  let notes := Order.notes (body req) in
  let updated :=
    if truthy notes then with_notes notes (with_status (JStr s) order)
    else with_status (JStr s) order in
  Order.status (body req) = JStr s ->
  s <> "" ->
  In s STATUSES ->
  orders db !! params_id req = Some order ->
  orderSchemaValid updated = true ->
  exists db' msg,
    updateOrderStatus orderSchemaValid STATUSES db req
    = (db', Responded 200 updated msg)
    /\ orders db' !! params_id req = Some updated
    /\ Order.status updated = JStr s
    /\ (s = "confirmed" ->
        msg = "Order confirmed! Your NFC card will be printed soon.")
    /\ (s = "printed" ->
        msg = "Your NFC card has been printed and is ready for shipping!")
    /\ (s = "shipped" ->
        msg = "Your NFC card has been shipped! You will receive it soon.")
    /\ (s = "delivered" ->
        msg = "Order delivered successfully! Thank you for your business.")
    /\ (s <> "confirmed" -> s <> "printed" -> s <> "shipped" ->
        s <> "delivered" ->
        msg = "Order status updated to " +:+ s
        /\ includes "status updated" msg = true).
Proof.
  intros notes updated Hs Hne Hin Hord Hvalid.
  exists (with_orders (<[params_id req := updated]> (orders db)) db),
         (status_message (JStr s)).
  split; [| split; [| split]].
  - unfold updateOrderStatus. rewrite Hs.
    assert (Ht : truthy (JStr s) = true).
    { cbn. apply negb_true_iff, String.eqb_neq, Hne. }
    rewrite Ht. cbn [negb]. rewrite Hord.
    unfold updateStatus. rewrite (existsb_status _ _ Hin).
    fold notes. fold updated. unfold Order_save. rewrite Hvalid. reflexivity.
  - cbn. apply lookup_insert_eq.
  - subst updated. destruct (truthy notes); reflexivity.
  - repeat split; try (intros ->; reflexivity).
    + apply status_message_generic; assumption.
    + rewrite status_message_generic by assumption. reflexivity.
Qed.

End StatusTransition.

Lemma updateOrderStatus_message_and_status_witness :
  exists db' msg,
    updateOrderStatus (fun _ => true) known_statuses shop
      (status_request "confirmed")
    = (db', Responded 200 (with_status (JStr "confirmed") pending_order) msg)
    /\ orders db' !! "o1" = Some (with_status (JStr "confirmed") pending_order)
    /\ msg = "Order confirmed! Your NFC card will be printed soon.".
Proof.
  destruct (updateOrderStatus_message_and_status (fun _ => true) known_statuses
              shop (status_request "confirmed") pending_order "confirmed")
    as (db' & msg & Hrun & Hdb & _ & Hmsg & _).
  - reflexivity.
  - discriminate.
  - cbn. tauto.
  - reflexivity.
  - reflexivity.
  - exists db', msg. split; [exact Hrun |]. split; [exact Hdb |].
    apply Hmsg. reflexivity.
Defined.

Section OrderCreation.

Variable setOrderDefaults : Order.OrderData -> User -> Order.OrderData.
Variable processOrderFiles : option Files -> Order.OrderData -> Order.OrderData.
Variable calculateOrderTotal : Z -> value -> OrderUtils.Pricing.
Variable deliveryDateText : Order.OrderData -> string.
Variable orderSchemaValid : Order.OrderData -> bool.


End OrderCreation.


Section ClientPricing.

Variable setOrderDefaults : Order.OrderData -> User -> Order.OrderData.
Variable processOrderFiles : option Files -> Order.OrderData -> Order.OrderData.
Variable calculateOrderTotal : Z -> value -> OrderUtils.Pricing.
Variable deliveryDateText : Order.OrderData -> string.
Variable orderSchemaValid : Order.OrderData -> bool.

(** The two helpers leave the pricing fields alone. *)
Hypothesis defaults_keep_pricing :
  forall b u p t s,
    setOrderDefaults (with_pricing p t s b) u
    = with_pricing p t s (setOrderDefaults b u).
Hypothesis files_keep_pricing :
  forall fs b p t s,
    processOrderFiles fs (with_pricing p t s b)
    = with_pricing p t s (processOrderFiles fs b).

(** Then the pricing a client sends has no effect at all: the handler
    answers and persists the same with it as without it. *)
Lemma createOrder_ignores_client_pricing
    (newId : string) (db : DB) (req : Request) (p t s : value) :
  createOrder setOrderDefaults processOrderFiles calculateOrderTotal
    deliveryDateText orderSchemaValid newId db
    {| params_id := params_id req; body := with_pricing p t s (body req);
       files := files req; user := user req |}
  = createOrder setOrderDefaults processOrderFiles calculateOrderTotal
      deliveryDateText orderSchemaValid newId db req.
Proof.
  unfold createOrder. cbn [body files user].
  rewrite defaults_keep_pricing.
  set (defaults := setOrderDefaults (body req) (user req)).
  change (validateRequiredFields (with_pricing p t s defaults))
    with (validateRequiredFields defaults).
  destruct (validateRequiredFields defaults); [reflexivity |].
  cbn [with_pricing Order.product].
  destruct (products db !! to_string (Order.product defaults)); [| reflexivity].
  change {| Order.product := Order.product defaults;
            Order.customer := Order.customer defaults;
            Order.personalInfo := Order.personalInfo defaults;
            Order.cardDesign := Order.cardDesign defaults;
            Order.deliveryInfo := Order.deliveryInfo defaults;
            Order.productPrice := p; Order.logoSurcharge := s;
            Order.total := t; Order.status := Order.status defaults;
            Order.notes := Order.notes defaults |}
    with (with_pricing p t s defaults).
  rewrite files_keep_pricing. reflexivity.
Qed.

End ClientPricing.

(** The file middleware of utils/orderValidation.js is such a helper. *)
Lemma processOrderFiles_keeps_pricing
    (file : option File) (fs : option Files) (b : Order.OrderData)
    (p t s : value) :
  processOrderFiles file fs (with_pricing p t s b)
  = with_pricing p t s (processOrderFiles file fs b).
Proof.
  unfold processOrderFiles.
  destruct file as [f |]; [destruct (String.eqb (fieldname f) "companyLogo") |];
    try reflexivity;
    (destruct fs as [m |]; [| reflexivity];
     destruct (m !! "companyLogo") as [[| f0 rest] |]; reflexivity).
Qed.

Section OrderUpdate.

Variable processOrderFiles : option Files -> Order.OrderData -> Order.OrderData.
Variable buildOrderUpdateObject : Order.OrderData -> gmap string value.
Variable applySet : gmap string value -> Order.OrderData -> Order.OrderData.

(** An update whose update set comes out empty is refused with the 400
    error "No valid fields provided for update" and the database is left
    as it was. *)
Lemma updateOrder_rejects_empty_update
    (db : DB) (req : Request) (existing : Order.OrderData)
    (updateData : gmap string value) :
  let processed := processOrderFiles (files req) (body req) in
  orders db !! params_id req = Some existing ->
  validateCompanyLogo (Order.cardDesign processed) (files req) (Some existing)
  = None ->
  validateDeliveryInfo (Order.deliveryInfo processed) (Some existing)
  = Return None ->
  updateData_of buildOrderUpdateObject processed (files req)
  = Return updateData ->
  updateData = ∅ ->
  updateOrder processOrderFiles buildOrderUpdateObject applySet db req
  = (db, Failed "No valid fields provided for update" 400).
Proof.
  intros processed Hord Hlogo Hdel Hset ->. unfold updateOrder.
  rewrite Hord. fold processed. rewrite Hlogo, Hdel, Hset.
  rewrite map_size_empty. reflexivity.
Qed.

(** C5 at a request that uploads a logo.  The entry the controller adds
    to the update set under [cardDesign.companyLogo] is the path of the
    upload as multer reports it, not the path relative to the public
    folder that [getRelativeFilePath] resolves. *)
Theorem updateOrder_adds_unresolved_upload_path (body : Order.OrderData) :
  exists updateData,
    updateData_of buildOrderUpdateObject body
      (Some {["companyLogo" := [logo_file]]})
    = Return updateData
    /\ updateData !! "cardDesign.companyLogo"
       = Some (JStr "/srv/app/public/uploads/companyLogo/logo-1700000000000-42.png")
    /\ getRelativeFilePath (Some logo_file)
       = Some "/uploads/companyLogo/logo-1700000000000-42.png".
Proof.
  eexists. split; [| split].
  - unfold updateData_of, uploaded_logo. rewrite lookup_singleton_eq.
    reflexivity.
  - rewrite lookup_insert_eq. reflexivity.
  - reflexivity.
Qed.

End OrderUpdate.

(** ** The form-data middleware *)

(** Case analysis on every test the goal still branches on. *)
Ltac case_ifs :=
  repeat match goal with
         | |- context [if ?b then _ else _] => destruct b
         end.

Lemma assoc_set_eq {A : Type} (k : string) (a : A) (l : list (string * A)) :
  assoc k (assoc_set k a l) = Some a.
Proof.
  induction l as [| [k' a'] l IH]; cbn.
  - rewrite String.eqb_refl. reflexivity.
  - destruct (String.eqb k k') eqn:E; cbn.
    + rewrite String.eqb_refl. reflexivity.
    + rewrite E. exact IH.
Qed.

Lemma assoc_set_ne {A : Type} (k k' : string) (a : A) (l : list (string * A)) :
  k <> k' -> assoc k' (assoc_set k a l) = assoc k' l.
Proof.
  intros Hne. induction l as [| [k0 a0] l IH]; cbn.
  - apply not_eq_sym, String.eqb_neq in Hne. rewrite Hne. reflexivity.
  - destruct (String.eqb k k0) eqn:E; cbn.
    + apply String.eqb_eq in E. subst k0.
      apply not_eq_sym, String.eqb_neq in Hne. rewrite Hne. reflexivity.
    + destruct (String.eqb k' k0); [reflexivity | exact IH].
Qed.

Lemma assoc_has_keys (k : string) (m : member) (g : group) :
  assoc k (own g) = Some m -> has_keys g = true.
Proof.
  unfold has_keys. destruct (own g); [discriminate | reflexivity].
Qed.

Lemma coerced_flag_cases :
  coerced_flag (JStr "true") = JBool true
  /\ coerced_flag (JStr "false") = JBool false
  /\ coerced_flag (JBool true) = JBool true
  /\ coerced_flag (JBool false) = JBool false
  /\ coerced_flag JNull = JBool false
  /\ (forall n, coerced_flag (JNum n) = JBool false)
  /\ (forall s, s <> "true" -> coerced_flag (JStr s) = JBool false).
Proof.
  repeat split; try reflexivity.
  intros s Hs. cbn. apply String.eqb_neq in Hs. rewrite Hs. reflexivity.
Qed.

Lemma coerce_flag_own (r : realm) (k : string) (g : group) (v : value) :
  k <> "__proto__" ->
  assoc k (own g) = Some (Scalar v) ->
  assoc k (own (coerce_flag r k g)) = Some (Scalar (coerced_flag v)).
Proof.
  intros Hk Hv. unfold coerce_flag, get. rewrite Hv.
  destruct v; cbn [target_defined target_is_true coerced_flag]; try exact Hv;
    unfold set; apply String.eqb_neq in Hk; rewrite Hk; cbn [andb own];
    apply assoc_set_eq.
Qed.

Lemma normalize_color_keeps (r : realm) (g : group) (k : string) :
  k <> "color" ->
  assoc k (own (fst (normalize_color r g))) = assoc k (own g).
Proof.
  intros Hk. unfold normalize_color.
  destruct (target_truthy (get r g "color")); [| reflexivity].
  assert (Hset : forall c, assoc k (own (set g "color" c)) = assoc k (own g)).
  { intros c. unfold set. cbn [String.eqb Ascii.eqb Bool.eqb andb own].
    apply assoc_set_ne. intros E. apply Hk. symmetry. exact E. }
  destruct (get r g "color") as [[[] |] | [] | | |]; try reflexivity;
    case_ifs; cbn [fst]; first [apply Hset | reflexivity].
Qed.

Lemma attach_cardDesign (r : realm) (pb : parsed) (b : Body) (v : value) :
  assoc "includePrintedLogo" (own (p_cardDesign pb)) = Some (Scalar v) ->
  nested_field (fst (attach r pb b)) "cardDesign" "includePrintedLogo"
  = Some (coerced_flag v).
Proof.
  intros Hv. unfold attach.
  rewrite (assoc_has_keys _ _ _ Hv).
  pose proof (normalize_color_keeps r
                (coerce_flag r "includePrintedLogo" (p_cardDesign pb))
                "includePrintedLogo" ltac:(discriminate)) as Hkeep.
  destruct (normalize_color r
              (coerce_flag r "includePrintedLogo" (p_cardDesign pb)))
    as [cd c].
  cbn [fst] in Hkeep.
  rewrite (coerce_flag_own r "includePrintedLogo" _ v ltac:(discriminate) Hv)
    in Hkeep.
  assert (Hcd : forall b0,
             nested_field (assoc_set "cardDesign" (Group cd) b0)
               "cardDesign" "includePrintedLogo" = Some (coerced_flag v)).
  { intros b0. unfold nested_field. rewrite assoc_set_eq, Hkeep. reflexivity. }
  destruct c as [u | e]; cbn [fst]; [| apply Hcd].
  destruct (has_keys (p_deliveryInfo pb)); cbn [fst]; [| apply Hcd].
  unfold nested_field. rewrite assoc_set_ne by discriminate. apply Hcd.
Qed.

Lemma attach_deliveryInfo (r : realm) (pb : parsed) (b : Body) (v : value) :
  snd (attach r pb b) = Return tt ->
  assoc "useSameContact" (own (p_deliveryInfo pb)) = Some (Scalar v) ->
  nested_field (fst (attach r pb b)) "deliveryInfo" "useSameContact"
  = Some (coerced_flag v).
Proof.
  intros Hc Hv. unfold attach in *.
  destruct (if has_keys (p_cardDesign pb) then _ else _) as [b2 c].
  destruct c as [u | e]; [| discriminate Hc].
  rewrite (assoc_has_keys _ _ _ Hv). cbn [fst].
  unfold nested_field. rewrite assoc_set_eq.
  rewrite (coerce_flag_own r "useSameContact" _ v ltac:(discriminate) Hv).
  reflexivity.
Qed.

(** The middleware after its loop: the parsed groups are attached with
    their flags converted. *)
Lemma parseFormData_after_loop
    (r r1 : realm) (fields : list (string * value)) (pb : parsed) :
  parse_fields r parsedBody0 fields = (r1, pb, Return tt) ->
  exists b c,
    parseFormData r fields = (r1, b, c)
    /\ (forall v,
        assoc "includePrintedLogo" (own (p_cardDesign pb)) = Some (Scalar v) ->
        nested_field b "cardDesign" "includePrintedLogo"
        = Some (coerced_flag v))
    /\ (forall v,
        c = Return tt ->
        assoc "useSameContact" (own (p_deliveryInfo pb)) = Some (Scalar v) ->
        nested_field b "deliveryInfo" "useSameContact"
        = Some (coerced_flag v)).
Proof.
  intros Hloop. unfold parseFormData. rewrite Hloop.
  set (b0 := map _ fields).
  pose proof (attach_cardDesign r1 pb b0) as Hcd.
  pose proof (attach_deliveryInfo r1 pb b0) as Hdi.
  destruct (attach r1 pb b0) as [b c]. cbn [fst snd] in *.
  exists b, c. split; [reflexivity |]. split.
  - exact Hcd.
  - intros v Hc. apply Hdi. exact Hc.
Qed.

(** C6, as stated, fails: a value other than "true" and "false" is not
    left untouched, it becomes the boolean [false]. *)
Lemma parseFormData_rewrites_other_values :
  nested_field
    (snd (fst (parseFormData pristine
                 [("cardDesign[includePrintedLogo]", JStr "yes")])))
    "cardDesign" "includePrintedLogo"
  = Some (JBool false)
  /\ nested_field
       (snd (fst (parseFormData pristine
                    [("deliveryInfo[useSameContact]", JNum 1)])))
       "deliveryInfo" "useSameContact"
     = Some (JBool false).
Proof. split; reflexivity. Qed.

(** *** The loop over the fields *)

Lemma split_cons (sep : ascii) (s : string) :
  exists seg segs, split sep s = seg :: segs.
Proof.
  destruct s as [| c s]; cbn; [eauto |].
  destruct (Ascii.eqb c sep); [eauto |].
  destruct (split sep s); eauto.
Qed.

Lemma includes_split (s : string) :
  includes "[" s = true ->
  exists arrayKey second rest, split "[" s = arrayKey :: second :: rest.
Proof.
  unfold includes. induction s as [| c s IH].
  - intros H. discriminate H.
  - cbn [indexOf startsWith split]. rewrite andb_true_r.
    destruct (Ascii.eqb_spec "[" c) as [<- | Hne].
    + intros _. cbn. destruct (split_cons "[" s) as (seg & segs & ->). eauto.
    + destruct (Ascii.eqb_spec c "["); [congruence |].
      destruct (indexOf "[" s); [| intros H; discriminate H].
      intros _. destruct (IH eq_refl) as (a & b & rest & ->). eauto.
Qed.

(** The loop over the fields never throws. *)
Lemma parse_field_returns (r : realm) (pb : parsed) (key : string) (v : value) :
  snd (parse_field r pb key v) = Return tt.
Proof.
  unfold parse_field.
  destruct (startsWith "personalInfo[" key).
  - destruct (includes "[" _) eqn:E; cbn [andb]; [| reflexivity].
    destruct (includes "]" _); [| reflexivity].
    destruct (includes_split _ E) as (a & b & rest & ->).
    destruct (store_indexed _ _ _ _ _). reflexivity.
  - destruct (startsWith "cardDesign[" key); [reflexivity |].
    destruct (startsWith "deliveryInfo[" key); reflexivity.
Qed.

Lemma parse_fields_returns (fields : list (string * value))
    (r : realm) (pb : parsed) :
  snd (parse_fields r pb fields) = Return tt.
Proof.
  revert r pb. induction fields as [| [key v] fields IH]; intros r pb; cbn.
  - reflexivity.
  - pose proof (parse_field_returns r pb key v) as H.
    destruct (parse_field r pb key v) as [[r1 pb1] c]. cbn in H. subst c.
    apply IH.
Qed.

Lemma startsWith_exclusive (key : string) :
  (startsWith "personalInfo[" key = true ->
   startsWith "cardDesign[" key = false
   /\ startsWith "deliveryInfo[" key = false)
  /\ (startsWith "cardDesign[" key = true ->
      startsWith "deliveryInfo[" key = false).
Proof.
  destruct key as [| c key]; [split; intros H; discriminate H |].
  cbn [startsWith]. split.
  - destruct (Ascii.eqb_spec "p" c) as [<- | Hne]; cbn [andb];
      [intros _; split; reflexivity | intros H; discriminate H].
  - destruct (Ascii.eqb_spec "c" c) as [<- | Hne]; cbn [andb];
      [intros _; reflexivity | intros H; discriminate H].
Qed.

Lemma set_lookup (g : group) (k name : string) (v : value) :
  name <> "__proto__" ->
  assoc name (own (set g k v))
  = if String.eqb k name then Some (Scalar v) else assoc name (own g).
Proof.
  intros Hname. unfold set.
  destruct (String.eqb_spec k name) as [-> | Hne].
  - apply String.eqb_neq in Hname. rewrite Hname. cbn [andb own].
    apply assoc_set_eq.
  - destruct (String.eqb k "__proto__" && negb (null_proto g)).
    + destruct v; reflexivity.
    + cbn [own]. apply assoc_set_ne. exact Hne.
Qed.

Lemma parse_field_cardDesign
    (r : realm) (pb : parsed) (key name : string) (v : value) :
  name <> "__proto__" ->
  assoc name (own (p_cardDesign (snd (fst (parse_field r pb key v)))))
  = if addresses "cardDesign[" name key then Some (Scalar v)
    else assoc name (own (p_cardDesign pb)).
Proof.
  intros Hname. unfold parse_field, addresses, nested_key.
  destruct (startsWith "personalInfo[" key) eqn:Hp.
  - rewrite (proj1 (proj1 (startsWith_exclusive key) Hp)).
    destruct (includes "[" _ && includes "]" _); [| reflexivity].
    destruct (split "[" _) as [| a [| b rest]]; try reflexivity.
    destruct (store_indexed _ _ _ _ _). reflexivity.
  - destruct (startsWith "cardDesign[" key).
    + cbn [fst snd p_cardDesign]. apply set_lookup, Hname.
    + destruct (startsWith "deliveryInfo[" key); reflexivity.
Qed.

Lemma parse_field_deliveryInfo
    (r : realm) (pb : parsed) (key name : string) (v : value) :
  name <> "__proto__" ->
  assoc name (own (p_deliveryInfo (snd (fst (parse_field r pb key v)))))
  = if addresses "deliveryInfo[" name key then Some (Scalar v)
    else assoc name (own (p_deliveryInfo pb)).
Proof.
  intros Hname. unfold parse_field, addresses, nested_key.
  destruct (startsWith "personalInfo[" key) eqn:Hp.
  - rewrite (proj2 (proj1 (startsWith_exclusive key) Hp)).
    destruct (includes "[" _ && includes "]" _); [| reflexivity].
    destruct (split "[" _) as [| a [| b rest]]; try reflexivity.
    destruct (store_indexed _ _ _ _ _). reflexivity.
  - destruct (startsWith "cardDesign[" key) eqn:Hc.
    + rewrite (proj2 (startsWith_exclusive key) Hc). reflexivity.
    + destruct (startsWith "deliveryInfo[" key).
      * cbn [fst snd p_deliveryInfo]. apply set_lookup, Hname.
      * reflexivity.
Qed.

Section LoopLookup.

Variable prefix : string.
Variable proj : parsed -> group.
Hypothesis step :
  forall r pb key name v,
    name <> "__proto__" ->
    assoc name (own (proj (snd (fst (parse_field r pb key v)))))
    = if addresses prefix name key then Some (Scalar v)
      else assoc name (own (proj pb)).

(** After the loop a group holds, under each name, what the form
    supplied there last. *)
Lemma parse_fields_lookup (fields : list (string * value))
    (r : realm) (pb : parsed) (name : string) :
  name <> "__proto__" ->
  assoc name (own (proj (snd (fst (parse_fields r pb fields)))))
  = match supplied prefix name fields with
    | Some w => Some (Scalar w)
    | None => assoc name (own (proj pb))
    end.
Proof.
  intros Hname. revert r pb.
  induction fields as [| [key v] fields IH]; intros r pb; [reflexivity |].
  cbn [parse_fields supplied].
  pose proof (parse_field_returns r pb key v) as Hret.
  pose proof (step r pb key name v Hname) as Hstep.
  destruct (parse_field r pb key v) as [[r1 pb1] c].
  cbn [fst snd] in *. subst c. rewrite IH.
  destruct (supplied prefix name fields); [reflexivity |].
  rewrite Hstep. destruct (addresses prefix name key); reflexivity.
Qed.

End LoopLookup.

(** C6, amended.  When a flat form body supplies a value [v] under
    [cardDesign[includePrintedLogo]], [req.body.cardDesign.includePrintedLogo]
    becomes [v === 'true' || v === true]: the string "true" and the boolean
    [true] give [true], every other defined value (the string "false"
    among them) gives [false], and only [undefined] is left as it is.  The
    same holds for [deliveryInfo[useSameContact]] whenever the middleware
    runs to its end. *)
Theorem parseFormData_coerces_flags
    (r : realm) (fields : list (string * value)) :
  (forall v,
    supplied "cardDesign[" "includePrintedLogo" fields = Some v ->
    nested_field (snd (fst (parseFormData r fields)))
      "cardDesign" "includePrintedLogo"
    = Some (coerced_flag v))
  /\ (forall v,
      supplied "deliveryInfo[" "useSameContact" fields = Some v ->
      snd (parseFormData r fields) = Return tt ->
      nested_field (snd (fst (parseFormData r fields)))
        "deliveryInfo" "useSameContact"
      = Some (coerced_flag v)).
Proof.
  pose proof (parse_fields_returns fields r parsedBody0) as Hret.
  pose proof (parse_fields_lookup "cardDesign[" p_cardDesign
                parse_field_cardDesign fields r parsedBody0
                "includePrintedLogo" ltac:(discriminate)) as Hcd.
  pose proof (parse_fields_lookup "deliveryInfo[" p_deliveryInfo
                parse_field_deliveryInfo fields r parsedBody0
                "useSameContact" ltac:(discriminate)) as Hdi.
  destruct (parse_fields r parsedBody0 fields) as [[r1 pb] c] eqn:Hloop.
  cbn [fst snd] in *. subst c.
  destruct (parseFormData_after_loop r r1 fields pb Hloop)
    as (b & c & Hrun & Hb_cd & Hb_di).
  rewrite Hrun. cbn [fst snd]. split.
  - intros v Hv. apply Hb_cd. rewrite Hcd, Hv. reflexivity.
  - intros v Hv Hc. apply Hb_di; [exact Hc |]. rewrite Hdi, Hv. reflexivity.
Qed.

Lemma parseFormData_coerces_flags_witness :
  nested_field (snd (fst (parseFormData pristine order_form)))
    "cardDesign" "includePrintedLogo" = Some (JBool false)
  /\ nested_field (snd (fst (parseFormData pristine order_form)))
       "deliveryInfo" "useSameContact" = Some (JBool true).
Proof.
  split.
  - apply (proj1 (parseFormData_coerces_flags pristine order_form)
             (JStr "false")).
    reflexivity.
  - apply (proj2 (parseFormData_coerces_flags pristine order_form)
             (JStr "true")); reflexivity.
Defined.

(** *** When the middleware throws *)

Lemma normalize_color_throws (r : realm) (g : group) (e : string) :
  snd (normalize_color r g) = Throw e ->
  e = "TypeError: req.body.cardDesign.color.toLowerCase is not a function"
  /\ target_truthy (get r g "color") = true
  /\ (forall s, get r g "color" <> TOwn (Scalar (JStr s))).
Proof.
  unfold normalize_color.
  destruct (target_truthy (get r g "color")) eqn:Ht; [| discriminate].
  destruct (get r g "color") as [[[] |] | [] | | |]; cbn [snd];
    case_ifs; cbn [snd]; intros H; inversion H;
    repeat split; intros s0 Hs; discriminate Hs.
Qed.

(** The only exception [parseFormData] raises is the [TypeError] of
    calling [toLowerCase] on a parsed colour that is not a string. *)
Lemma parseFormData_throws_only_for_color
    (r : realm) (fields : list (string * value)) (e : string) :
  snd (parseFormData r fields) = Throw e ->
  e = "TypeError: req.body.cardDesign.color.toLowerCase is not a function".
Proof.
  unfold parseFormData.
  pose proof (parse_fields_returns fields r parsedBody0) as Hloop.
  destruct (parse_fields r parsedBody0 fields) as [[r1 pb] c].
  cbn in Hloop. subst c.
  unfold attach.
  destruct (has_keys (p_cardDesign pb)).
  - pose proof (normalize_color_throws r1
                  (coerce_flag r1 "includePrintedLogo" (p_cardDesign pb))) as Hc.
    destruct (normalize_color r1 _) as [cd [u | e0]]; cbn [snd] in *.
    + destruct (has_keys (p_deliveryInfo pb)); discriminate.
    + intros H. inversion H; subst. apply (Hc e eq_refl).
  - destruct (has_keys (p_deliveryInfo pb)); discriminate.
Qed.

(** C7 at a body that carries a number as the card colour: the
    middleware throws after it has attached the [cardDesign] group, and
    [next()] is never called. *)
Theorem parseFormData_throws_on_numeric_color :
  parseFormData pristine [("cardDesign[color]", JNum 123)]
  = (pristine,
     [("cardDesign[color]", Field (JNum 123));
      ("cardDesign",
       Group {| null_proto := false; own := [("color", Scalar (JNum 123))] |})],
     Throw "TypeError: req.body.cardDesign.color.toLowerCase is not a function").
Proof. reflexivity. Qed.

(** A key that goes through [__proto__] writes on the shared
    [Object.prototype] and leaves the body as it was. *)
Lemma parseFormData_writes_on_prototype :
  parseFormData pristine [("personalInfo[__proto__][0]", JStr "x")]
  = ({| on_prototype := [(Int 0, JStr "x")]; on_members := [] |},
     [("personalInfo[__proto__][0]", Field (JStr "x"))],
     Return tt).
Proof. reflexivity. Qed.

(** *** Bodies of strings *)

Lemma number_key_not_color (n : number) :
  String.eqb "color" (number_key n) = false.
Proof.
  destruct n as [| [| p | p]]; try reflexivity; unfold number_key, decimal;
    cbn [Z.to_int NilZero.string_of_int NilZero.string_of_uint];
    destruct (Pos.to_uint p); reflexivity.
Qed.

Lemma lookup_color_on_prototype (l : list (number * value)) :
  lookup_number_key "color" l = None.
Proof.
  induction l as [| [n v] l IH]; [reflexivity |].
  cbn [lookup_number_key]. rewrite number_key_not_color. exact IH.
Qed.

Lemma strings_only_set (g : group) (k s : string) :
  strings_only g -> strings_only (set g k (JStr s)).
Proof.
  intros Hg k' m. unfold set.
  destruct (String.eqb k "__proto__" && negb (null_proto g)); [apply Hg |].
  cbn [own]. destruct (String.eqb_spec k k') as [<- | Hne].
  - rewrite assoc_set_eq. intros H. inversion H. eauto.
  - rewrite assoc_set_ne by exact Hne. apply Hg.
Qed.

Lemma parse_field_cardDesign_strings
    (r : realm) (pb : parsed) (key s : string) :
  strings_only (p_cardDesign pb) ->
  strings_only (p_cardDesign (snd (fst (parse_field r pb key (JStr s))))).
Proof.
  intros Hg. unfold parse_field.
  destruct (startsWith "personalInfo[" key).
  - destruct (includes "[" _ && includes "]" _); [| exact Hg].
    destruct (split "[" _) as [| a [| b rest]]; try exact Hg.
    destruct (store_indexed _ _ _ _ _). exact Hg.
  - destruct (startsWith "cardDesign[" key).
    + cbn [fst snd p_cardDesign]. apply strings_only_set, Hg.
    + destruct (startsWith "deliveryInfo[" key); exact Hg.
Qed.

Lemma parse_fields_cardDesign_strings (fields : list (string * value))
    (r : realm) (pb : parsed) :
  Forall (fun kv => exists s, snd kv = JStr s) fields ->
  strings_only (p_cardDesign pb) ->
  strings_only (p_cardDesign (snd (fst (parse_fields r pb fields)))).
Proof.
  intros Hall. revert r pb.
  induction Hall as [| [key v] fields [s Hs] Hall IH]; intros r pb Hg.
  - exact Hg.
  - cbn in Hs. subst v. cbn [parse_fields].
    pose proof (parse_field_returns r pb key (JStr s)) as Hret.
    pose proof (parse_field_cardDesign_strings r pb key s Hg) as Hg1.
    destruct (parse_field r pb key (JStr s)) as [[r1 pb1] c].
    cbn [fst snd] in *. subst c. apply IH, Hg1.
Qed.

Lemma normalize_color_strings (r : realm) (g : group) :
  (forall m, assoc "color" (own g) = Some m -> exists s, m = Scalar (JStr s)) ->
  snd (normalize_color r g) = Return tt.
Proof.
  intros Hg. unfold normalize_color, get.
  destruct (assoc "color" (own g)) as [m |].
  - destruct (Hg m eq_refl) as [s ->].
    cbn [target_truthy]. destruct (truthy (JStr s)); [| reflexivity].
    case_ifs; reflexivity.
  - rewrite lookup_color_on_prototype.
    destruct (null_proto g); reflexivity.
Qed.

Lemma coerce_flag_keeps_color (r : realm) (g : group) :
  assoc "color" (own (coerce_flag r "includePrintedLogo" g))
  = assoc "color" (own g).
Proof.
  unfold coerce_flag.
  destruct (target_defined _); [| reflexivity].
  unfold set. cbn [String.eqb Ascii.eqb Bool.eqb andb own].
  apply assoc_set_ne. discriminate.
Qed.

(** A body whose values are all strings passes the middleware: it runs
    to its end and calls [next()]. *)
Lemma parseFormData_returns_on_strings
    (r : realm) (fields : list (string * value)) :
  Forall (fun kv => exists s, snd kv = JStr s) fields ->
  snd (parseFormData r fields) = Return tt.
Proof.
  intros Hall. unfold parseFormData.
  pose proof (parse_fields_returns fields r parsedBody0) as Hloop.
  pose proof (parse_fields_cardDesign_strings fields r parsedBody0 Hall) as Hcd.
  destruct (parse_fields r parsedBody0 fields) as [[r1 pb] c].
  cbn [fst snd] in *. subst c.
  assert (Hg : strings_only (p_cardDesign pb)).
  { apply Hcd. intros k m H. discriminate H. }
  unfold attach.
  destruct (has_keys (p_cardDesign pb)).
  - pose proof (normalize_color_strings r1
                  (coerce_flag r1 "includePrintedLogo" (p_cardDesign pb))) as Hc.
    destruct (normalize_color r1 _) as [cd c]. cbn [snd] in Hc.
    rewrite Hc.
    + destruct (has_keys (p_deliveryInfo pb)); reflexivity.
    + intros m. rewrite coerce_flag_keeps_color. apply Hg.
  - destruct (has_keys (p_deliveryInfo pb)); reflexivity.
Qed.

(* ===================================================================== *)
(** * Part IV: further properties of the code                            *)
(* ===================================================================== *)

(** ** Delivery validation, continued *)

Lemma prototype_member_not_country (k : string) :
  is_prototype_member k = true -> assoc k COUNTRY_CITY_MAP = @None (list string).
Proof.
  unfold is_prototype_member, object_prototype_members. cbn [existsb].
  intros H.
  repeat (apply orb_prop in H; destruct H as [H | H];
          [apply String.eqb_eq in H; subst k; reflexivity |]).
  discriminate H.
Qed.

(** X1.  [validateCountryCity] throws exactly when both values are present
    and the country, as a property key, names a member that the table
    inherits from [Object.prototype]. *)
Theorem validateCountryCity_throws_iff (country city : value) :
  (exists e, validateCountryCity country city = Throw e)
  <-> truthy country = true /\ truthy city = true
      /\ is_prototype_member (to_string country) = true.
Proof.
  unfold validateCountryCity, lookup_country.
  pose proof (prototype_member_not_country (to_string country)) as Hdisj.
  destruct (truthy country), (truthy city); cbn [negb orb];
    try (split; [intros [e H]; discriminate H
                | intros (H1 & H2 & _); first [discriminate H1 | discriminate H2]]).
  destruct (assoc (to_string country) COUNTRY_CITY_MAP) as [cs |] eqn:Hcs.
  - split.
    + intros [e H]. destruct (negb (cities_include cs city)); discriminate H.
    + intros (_ & _ & Hm). discriminate (Hdisj Hm).
  - destruct (is_prototype_member (to_string country)).
    + split; [auto | intros _; eauto].
    + split; [intros [e H]; discriminate H | intros (_ & _ & H); discriminate H].
Qed.

(** X2.  For a country and a city that are both present, and a country
    that names no inherited member, [validateCountryCity] accepts the pair
    exactly when [getValidCities(country)] lists the city. *)
Theorem validateCountryCity_agrees_with_getValidCities (country city : value) :
  truthy country = true ->
  truthy city = true ->
  is_prototype_member (to_string country) = false ->
  (validateCountryCity country city = Return None
   <-> exists cs, getValidCities country = Cities cs
                  /\ cities_include cs city = true).
Proof.
  intros Hc Hy Hm. unfold validateCountryCity, getValidCities, lookup_country.
  rewrite Hc, Hy, Hm. cbn [negb orb].
  destruct (assoc (to_string country) COUNTRY_CITY_MAP) as [cs |].
  - destruct (cities_include cs city) eqn:Hin; cbn [negb]; split.
    + intros _. exists cs. auto.
    + reflexivity.
    + intros H. discriminate H.
    + intros (cs' & Hcs & Hin'). inversion Hcs; subst. congruence.
  - split; [intros H; discriminate H |].
    intros (cs & Hcs & Hin). inversion Hcs; subst. discriminate Hin.
Qed.

Lemma validateCountryCity_agrees_with_getValidCities_witness :
  validateCountryCity (JStr "UK") (JStr "Bristol") = Return None
  <-> exists cs, getValidCities (JStr "UK") = Cities cs
                 /\ cities_include cs (JStr "Bristol") = true.
Proof.
  apply (validateCountryCity_agrees_with_getValidCities
           (JStr "UK") (JStr "Bristol")); reflexivity.
Defined.

(** X3.  A partial update that supplies a city but no country is checked
    against the country stored on the existing order: the city passes when
    the list of the stored country has it, and otherwise the update is
    refused with the message that names the stored country and its
    cities. *)
Theorem validateDeliveryInfo_city_against_stored_country
    (di edi : Order.DeliveryInfo) (existing : Order.OrderData)
    (cs : list string) :
  truthy (Order.country di) = false ->
  truthy (Order.city di) = true ->
  Order.deliveryInfo existing = Some edi ->
  truthy (Order.country edi) = true ->
  assoc (to_string (Order.country edi)) COUNTRY_CITY_MAP = Some cs ->
  validateDeliveryInfo (Some di) (Some existing)
  = if cities_include cs (Order.city di) then Return None
    else Return (Some (invalid_city_message (Order.country edi)
                         (Order.city di) cs)).
Proof.
  intros Hc Hy He Hec Hcs.
  unfold validateDeliveryInfo, or_else, existing_delivery.
  rewrite Hc, Hy, He. unfold validateCountryCity, lookup_country.
  rewrite Hec, Hy, Hcs. cbn [negb orb].
  destruct (cities_include cs (Order.city di)); reflexivity.
Qed.

Lemma validateDeliveryInfo_city_against_stored_country_witness :
  validateDeliveryInfo
    (Some {| Order.country := JUndefined; Order.city := JStr "London";
             Order.useSameContact := JUndefined |})
    (Some pending_order)
  = Return (Some "Invalid city 'London' for country 'JO'. Valid cities are: Amman, Irbid, Zarqa, Aqaba, Salt").
Proof.
  apply (validateDeliveryInfo_city_against_stored_country
           {| Order.country := JUndefined; Order.city := JStr "London";
              Order.useSameContact := JUndefined |}
           {| Order.country := JStr "JO"; Order.city := JStr "Amman";
              Order.useSameContact := JBool true |}
           pending_order
           ["Amman"; "Irbid"; "Zarqa"; "Aqaba"; "Salt"]); reflexivity.
Defined.

(** X4.  [validateRequiredFields] returns [null] exactly when the three
    groups are present and the product id is truthy; otherwise its message
    names the first one missing, in the order personal information, card
    design, delivery information, product. *)
Theorem validateRequiredFields_first_missing (o : Order.OrderData) :
  (validateRequiredFields o = None
   <-> is_Some (Order.personalInfo o) /\ is_Some (Order.cardDesign o)
       /\ is_Some (Order.deliveryInfo o) /\ truthy (Order.product o) = true)
  /\ (validateRequiredFields o = Some "Personal information is required"
      <-> Order.personalInfo o = None)
  /\ (validateRequiredFields o = Some "Card design information is required"
      <-> is_Some (Order.personalInfo o) /\ Order.cardDesign o = None)
  /\ (validateRequiredFields o = Some "Delivery information is required"
      <-> is_Some (Order.personalInfo o) /\ is_Some (Order.cardDesign o)
          /\ Order.deliveryInfo o = None)
  /\ (validateRequiredFields o = Some "Product ID is required"
      <-> is_Some (Order.personalInfo o) /\ is_Some (Order.cardDesign o)
          /\ is_Some (Order.deliveryInfo o) /\ truthy (Order.product o) = false).
Proof.
  unfold validateRequiredFields.
  destruct (Order.personalInfo o) as [pi |], (Order.cardDesign o) as [cd |],
    (Order.deliveryInfo o) as [di |], (truthy (Order.product o));
    cbn; repeat split; intros; try discriminate; try reflexivity; eauto;
    repeat match goal with
           | H : _ /\ _ |- _ => destruct H
           | H : is_Some None |- _ => destruct H as [? H]; discriminate H
           | H : @eq bool _ _ |- _ => discriminate H
           | H : @eq (option _) _ _ |- _ => discriminate H
           end.
Qed.

(** ** The order controller, continued *)

Lemma validateCompanyLogo_with_upload
    (cd : option Order.CardDesign) (fs : option Files)
    (existing : option Order.OrderData) (f : File) (rest : list File) :
  uploaded_logo fs = Some (f :: rest) ->
  validateCompanyLogo cd fs existing = None.
Proof.
  intros Hup. unfold validateCompanyLogo.
  destruct cd as [cd |]; [| reflexivity].
  destruct (negb (truthy (Order.includePrintedLogo cd))); [reflexivity |].
  destruct fs as [m |]; [| discriminate Hup]. cbn in Hup |- *.
  rewrite Hup. cbn. rewrite orb_true_r. reflexivity.
Qed.

Section CreationRefusals.

Variable setOrderDefaults : Order.OrderData -> User -> Order.OrderData.
Variable processOrderFiles : option Files -> Order.OrderData -> Order.OrderData.
Variable calculateOrderTotal : Z -> value -> OrderUtils.Pricing.
Variable deliveryDateText : Order.OrderData -> string.
Variable orderSchemaValid : Order.OrderData -> bool.

Let create := createOrder setOrderDefaults processOrderFiles
                calculateOrderTotal deliveryDateText orderSchemaValid.

(** [createOrder] refuses a body that lacks a required field with
    the 400 error of [validateRequiredFields], before it looks the product
    up; a complete body whose product id matches no product is refused
    with the 404 error "Product not found".  Neither changes the
    database. *)
Theorem createOrder_refuses_before_storing
    (newId : string) (db : DB) (req : Request) :
  let defaults := setOrderDefaults (body req) (user req) in
  (forall e, validateRequiredFields defaults = Some e ->
             create newId db req = (db, Failed e 400))
  /\ (validateRequiredFields defaults = None ->
      products db !! to_string (Order.product defaults) = None ->
      create newId db req = (db, Failed "Product not found" 404)).
Proof.
  intros defaults. subst create. unfold createOrder. fold defaults. split.
  - intros e ->. reflexivity.
  - intros -> ->. reflexivity.
Qed.

(** X5.  Whatever [createOrder] is sent and however it ends, it writes
    at most the one new order: the products and every order stored under
    another id are afterwards as they were. *)
Theorem createOrder_frame (newId : string) (db : DB) (req : Request) :
  let r := create newId db req in
  products (fst r) = products db
  /\ (forall id, id <> newId -> orders (fst r) !! id = orders db !! id).
Proof.
  subst create. unfold createOrder.
  destruct (validateRequiredFields _); [cbn; auto |].
  destruct (products db !! _); [| cbn; auto].
  destruct (validateCompanyLogo _ _ _); [cbn; auto |].
  destruct (validateDeliveryInfo _ _) as [[e |] | e]; try (cbn; auto; fail).
  destruct (Order_create _ _) as [o | e]; [| cbn; auto].
  cbn. split; [reflexivity |].
  intros id Hid. apply lookup_insert_ne. congruence.
Qed.

End CreationRefusals.

Lemma createOrder_refuses_before_storing_witness :
  createOrder (fun b _ => b) (processOrderFiles None)
    (fun p flag => OrderUtils.calculateOrderTotal 5 p (truthy flag))
    (fun _ => "12/1/2026") (fun _ => true) "o2" shop
    {| params_id := ""; body := with_status JUndefined order_outside_whitelist;
       files := None; user := customer_u1 |}
  = (shop, Failed "Personal information is required" 400).
Proof.
  apply (proj1 (createOrder_refuses_before_storing (fun b _ => b)
                  (processOrderFiles None)
                  (fun p flag => OrderUtils.calculateOrderTotal 5 p (truthy flag))
                  (fun _ => "12/1/2026") (fun _ => true) "o2" shop
                  {| params_id := "";
                     body := with_status JUndefined order_outside_whitelist;
                     files := None; user := customer_u1 |})).
  reflexivity.
Defined.

Section UpdateHandlers.

Variable processOrderFiles : option Files -> Order.OrderData -> Order.OrderData.
Variable buildOrderUpdateObject : Order.OrderData -> gmap string value.
Variable applySet : gmap string value -> Order.OrderData -> Order.OrderData.
Variable orderSchemaValid : Order.OrderData -> bool.
Variable STATUSES : list string.

Let update := updateOrder processOrderFiles buildOrderUpdateObject applySet.
Let transition := updateOrderStatus orderSchemaValid STATUSES.

(** X6.  Whatever [updateOrder] and [updateOrderStatus] are sent and
    however they end, they write at most the order the request addresses:
    the products and every order stored under another id are afterwards
    as they were. *)
Theorem update_handlers_frame (db : DB) (req : Request) :
  (products (fst (update db req)) = products db
   /\ (forall id, id <> params_id req ->
                  orders (fst (update db req)) !! id = orders db !! id))
  /\ (products (fst (transition db req)) = products db
      /\ (forall id, id <> params_id req ->
                     orders (fst (transition db req)) !! id = orders db !! id)).
Proof.
  subst update transition. split.
  - unfold updateOrder.
    destruct (orders db !! params_id req); [| cbn; auto].
    destruct (validateCompanyLogo _ _ _); [cbn; auto |].
    destruct (validateDeliveryInfo _ _) as [[e |] | e]; try (cbn; auto; fail).
    destruct (updateData_of _ _ _) as [u | e]; [| cbn; auto].
    destruct (Z.of_nat (size u) =? 0); [cbn; auto |].
    cbn. split; [reflexivity |].
    intros id Hid. apply lookup_insert_ne. congruence.
  - unfold updateOrderStatus.
    destruct (negb (truthy _)); [cbn; auto |].
    destruct (orders db !! params_id req); [| cbn; auto].
    destruct (updateStatus _ _ _) as [o1 | e1]; [| cbn; auto].
    destruct (Order_save _ _) as [o2 | e2]; [| cbn; auto].
    cbn. split; [reflexivity |].
    intros id Hid. apply lookup_insert_ne. congruence.
Qed.

(** X7.  An update that uploads a company logo always has something to
    update: once the order exists and the delivery data passes, the
    handler answers 200 and stores the order with the update set applied,
    whatever the rest of the body holds; the logo rule is met by the
    upload itself and the error "No valid fields" cannot occur. *)
Theorem updateOrder_with_upload_updates
    (db : DB) (req : Request) (existing : Order.OrderData)
    (f : File) (rest : list File) :
  let processed := processOrderFiles (files req) (body req) in
  let updateData :=
    <["cardDesign.companyLogo" := JStr (path f)]>
      (buildOrderUpdateObject processed) in
  orders db !! params_id req = Some existing ->
  uploaded_logo (files req) = Some (f :: rest) ->
  validateDeliveryInfo (Order.deliveryInfo processed) (Some existing)
  = Return None ->
  update db req
  = (with_orders (<[params_id req := applySet updateData existing]> (orders db)) db,
     Responded 200 (applySet updateData existing) "Order updated successfully").
Proof.
  intros processed updateData Hord Hup Hdel. subst update.
  unfold updateOrder. rewrite Hord. fold processed.
  rewrite (validateCompanyLogo_with_upload _ _ _ f rest Hup), Hdel.
  unfold updateData_of. rewrite Hup. fold updateData.
  destruct (Z.of_nat (size updateData) =? 0) eqn:Hsize; [| reflexivity].
  apply Z.eqb_eq in Hsize.
  assert (Hz : size updateData = 0%nat) by lia.
  apply map_size_empty_iff in Hz.
  exfalso. apply (insert_non_empty _ _ _ Hz).
Qed.

(** [updateOrderStatus] asks for the status before it looks the
    order up: a missing status gives the 400 error "Please provide a
    status" whether or not the order exists.  With a status given, and for
    [updateOrder] always, an id that matches no order gives the 404 error
    "No order found with that ID". *)
Theorem update_handlers_early_refusals (db : DB) (req : Request) :
  (truthy (Order.status (body req)) = false ->
   transition db req = (db, Failed "Please provide a status" 400))
  /\ (truthy (Order.status (body req)) = true ->
      orders db !! params_id req = None ->
      transition db req = (db, Failed "No order found with that ID" 404))
  /\ (orders db !! params_id req = None ->
      update db req = (db, Failed "No order found with that ID" 404)).
Proof.
  subst update transition. unfold updateOrderStatus, updateOrder.
  repeat split.
  - intros ->. reflexivity.
  - intros -> ->. reflexivity.
  - intros ->. reflexivity.
Qed.

End UpdateHandlers.

Lemma updateOrder_with_upload_updates_witness :
  updateOrder (processOrderFiles None) (fun _ => ∅) set_logo_only shop
    logo_update_request
  = (with_orders
       (<["o1" := with_companyLogo
                    (JStr "/srv/app/public/uploads/companyLogo/logo-1700000000000-42.png")
                    pending_order]> (orders shop)) shop,
     Responded 200
       (with_companyLogo
          (JStr "/srv/app/public/uploads/companyLogo/logo-1700000000000-42.png")
          pending_order)
       "Order updated successfully").
Proof.
  exact (updateOrder_with_upload_updates (processOrderFiles None) (fun _ => ∅)
           set_logo_only shop logo_update_request pending_order logo_file []
           eq_refl eq_refl eq_refl).
Defined.

Lemma update_handlers_early_refusals_witness :
  updateOrderStatus (fun _ => true) known_statuses shop
    {| params_id := "missing"; body := with_status (JStr "") pending_order;
       files := None; user := customer_u1 |}
  = (shop, Failed "Please provide a status" 400).
Proof.
  apply (proj1 (update_handlers_early_refusals (processOrderFiles None)
                  (fun _ => ∅) set_logo_only (fun _ => true) known_statuses shop
                  {| params_id := "missing";
                     body := with_status (JStr "") pending_order;
                     files := None; user := customer_u1 |})).
  reflexivity.
Defined.

Section CustomerOrdersAccess.

Variable findByCustomer : DB -> string -> list Order.OrderData.

(** X8.  [getCustomerOrders] hands out the orders of a customer only to
    an admin or to that customer: for them it answers 200 with what
    [findByCustomer] returns and its count, and for everybody else it
    answers the 403 error and no orders. *)
Theorem getCustomerOrders_access (db : DB) (u : User) (customerId : string) :
  (role u = "admin" \/ user_id u = customerId ->
   getCustomerOrders findByCustomer db u customerId
   = Listed 200 (Z.of_nat (length (findByCustomer db customerId)))
       (findByCustomer db customerId))
  /\ (role u <> "admin" -> user_id u <> customerId ->
      getCustomerOrders findByCustomer db u customerId
      = Refused "You can only access your own orders" 403).
Proof.
  unfold getCustomerOrders. split.
  - intros [H | H].
    + rewrite H. reflexivity.
    + rewrite H, String.eqb_refl, andb_false_r. reflexivity.
  - intros H1 H2. apply String.eqb_neq in H1, H2. rewrite H1, H2. reflexivity.
Qed.

End CustomerOrdersAccess.

Lemma getCustomerOrders_access_witness :
  getCustomerOrders orders_of shop customer_u1 "u1"
  = Listed 200 1 [pending_order]
  /\ getCustomerOrders orders_of shop customer_u1 "u2"
     = Refused "You can only access your own orders" 403
  /\ getCustomerOrders orders_of shop admin_user "u2" = Listed 200 0 [].
Proof.
  split; [| split].
  - apply (proj1 (getCustomerOrders_access orders_of shop customer_u1 "u1")).
    right. reflexivity.
  - apply (proj2 (getCustomerOrders_access orders_of shop customer_u1 "u2"));
      discriminate.
  - apply (proj1 (getCustomerOrders_access orders_of shop admin_user "u2")).
    left. reflexivity.
Defined.

(** ** utils/fileUpload.js *)

Lemma append_assoc (a b c : string) : (a +:+ b) +:+ c = a +:+ (b +:+ c).
Proof.
  induction a as [| x a IH]; [reflexivity |].
  change (String x ((a +:+ b) +:+ c) = String x (a +:+ (b +:+ c))).
  rewrite IH. reflexivity.
Qed.

Lemma append_cons (x : ascii) (a b : string) :
  String x a +:+ b = String x (a +:+ b).
Proof. reflexivity. Qed.

Lemma drop_append (a b : string) (n : nat) :
  drop (String.length a + n) (a +:+ b) = drop n b.
Proof. induction a as [| x a IH]; cbn; [reflexivity | exact IH]. Qed.

Lemma startsWith_append (p s : string) :
  startsWith p s = true -> s = p +:+ drop (String.length p) s.
Proof.
  revert s. induction p as [| a p IH]; intros s; [reflexivity |].
  destruct s as [| b s]; cbn; [intros H; discriminate H |].
  destruct (Ascii.eqb_spec a b) as [<- | Hne]; cbn [andb];
    [| intros H; discriminate H].
  intros H. rewrite append_cons. f_equal. apply IH, H.
Qed.

(** [indexOf] finds an occurrence, and the first one. *)
Lemma indexOf_occurrence (p s : string) (n : nat) :
  indexOf p s = Some n ->
  (exists before,
      String.length before = n
      /\ s = before +:+ p +:+ drop (n + String.length p) s)
  /\ (forall m, (m < n)%nat -> startsWith p (drop m s) = false).
Proof.
  revert n. induction s as [| c s IH]; intros n; cbn [indexOf].
  - destruct (startsWith p "") eqn:Hp; [| intros H; discriminate H].
    intros H. inversion H; subst. split; [| intros m Hm; lia].
    exists "". split; [reflexivity |]. apply (startsWith_append p "" Hp).
  - destruct (startsWith p (String c s)) eqn:Hp.
    + intros H. inversion H; subst. split; [| intros m Hm; lia].
      exists "". split; [reflexivity |].
      apply (startsWith_append p (String c s) Hp).
    + destruct (indexOf p s) as [k |]; [| intros H; discriminate H].
      intros H. inversion H; subst. destruct (IH k eq_refl) as [[before [Hl Hs]] Hmin].
      split.
      * exists (String c before). split; [cbn; lia |].
        rewrite append_cons. cbn [Nat.add drop]. f_equal. exact Hs.
      * intros [| m] Hm; [exact Hp |]. cbn [drop]. apply Hmin. lia.
Qed.

(** X9.  [getRelativeFilePath] returns [null] only for a missing file.
    For a path without "public" it returns the bare file name; otherwise
    it returns what follows the first occurrence of "public", so that the
    path is some prefix, then "public", then the result. *)
Theorem getRelativeFilePath_strips_through_public (f : File) :
  getRelativeFilePath None = None
  /\ (includes "public" (path f) = false ->
      getRelativeFilePath (Some f) = Some (filename f))
  /\ (includes "public" (path f) = true ->
      exists before r,
        getRelativeFilePath (Some f) = Some r
        /\ path f = before +:+ "public" +:+ r
        /\ forall m, (m < String.length before)%nat ->
                     startsWith "public" (drop m (path f)) = false).
Proof.
  split; [reflexivity |]. unfold getRelativeFilePath, includes.
  destruct (indexOf "public" (path f)) as [n |] eqn:Hn; split;
    intros H; try discriminate H; try reflexivity.
  destruct (indexOf_occurrence _ _ _ Hn) as [[before [Hl Hs]] Hmin].
  exists before, (substring_from (n + 6) (path f)).
  split; [reflexivity |]. split; [exact Hs |].
  intros m Hm. apply Hmin. lia.
Qed.

Lemma getRelativeFilePath_strips_through_public_witness :
  exists before r,
    getRelativeFilePath (Some logo_file) = Some r
    /\ path logo_file = before +:+ "public" +:+ r
    /\ forall m, (m < String.length before)%nat ->
                 startsWith "public" (drop m (path logo_file)) = false.
Proof.
  apply (proj2 (proj2 (getRelativeFilePath_strips_through_public logo_file))).
  reflexivity.
Defined.

(** A pattern without the character [c] cannot start across a [c]. *)
Lemma startsWith_skip (p s t : string) (c : ascii) :
  all_chars (fun x => negb (Ascii.eqb x c)) p = true ->
  startsWith p (s +:+ String c t) = startsWith p s.
Proof.
  revert s. induction p as [| a p IH]; intros s Hp; [reflexivity |].
  cbn [all_chars] in Hp. apply andb_prop in Hp as [Ha Hp].
  destruct s as [| b s].
  - change ("" +:+ String c t) with (String c t). cbn [startsWith].
    apply negb_true_iff in Ha. rewrite Ha. reflexivity.
  - rewrite append_cons. cbn [startsWith]. rewrite (IH s Hp). reflexivity.
Qed.

Lemma startsWith_public_slash (s t : string) :
  startsWith "public" (s +:+ String "/" t) = startsWith "public" s.
Proof. apply startsWith_skip. reflexivity. Qed.

Lemma indexOf_public_after_root (root rest : string) :
  includes "public" root = false ->
  indexOf "public" (root +:+ "/public" +:+ rest)
  = Some (String.length root + 1)%nat.
Proof.
  unfold includes. induction root as [| c root IH].
  - intros _. reflexivity.
  - rewrite append_cons. cbn [indexOf String.length].
    change (String c (root +:+ "/public" +:+ rest))
      with (String c root +:+ String "/" ("public" +:+ rest)).
    rewrite startsWith_public_slash.
    destruct (startsWith "public" (String c root)); [intros H; discriminate H |].
    destruct (indexOf "public" root) eqn:Hroot; [intros H; discriminate H |].
    intros _. rewrite (IH eq_refl). reflexivity.
Qed.

(** X10.  A file the disk storage wrote below [<root>/public/uploads],
    where [root] itself does not contain "public", resolves to
    [/uploads/<subdirectory>/<filename>], the subdirectory being the one
    the storage picked for the field. *)
Theorem stored_upload_relative_path
    (root : string) (dirs : gset string) (f : File) :
  includes "public" root = false ->
  path f = path_join (snd (destination (root +:+ "/public/uploads") dirs f))
             (filename f) ->
  getRelativeFilePath (Some f)
  = Some ("/uploads/" +:+ upload_subdir (fieldname f) +:+ "/" +:+ filename f).
Proof.
  intros Hroot Hpath. unfold getRelativeFilePath. rewrite Hpath.
  unfold destination, path_join. cbn [snd].
  set (sub := upload_subdir (fieldname f)).
  assert (Hshape :
            ((root +:+ "/public/uploads") +:+ "/" +:+ sub) +:+ "/" +:+ filename f
            = root +:+ "/public" +:+ ("/uploads/" +:+ sub +:+ "/" +:+ filename f)).
  { rewrite !append_assoc. reflexivity. }
  rewrite Hshape, (indexOf_public_after_root _ _ Hroot).
  unfold substring_from.
  replace (String.length root + 1 + 6)%nat with (String.length root + 7)%nat by lia.
  rewrite drop_append. reflexivity.
Qed.

Lemma stored_upload_relative_path_witness :
  getRelativeFilePath (Some logo_file)
  = Some ("/uploads/" +:+ upload_subdir "companyLogo" +:+ "/"
          +:+ "logo-1700000000000-42.png").
Proof.
  apply (stored_upload_relative_path "/srv/app" ∅ logo_file); reflexivity.
Defined.

Section DeletingFiles.

Variable publicPath : string -> string.
Variable unlinkFails : string -> bool.

(** X11.  [deleteFile] answers [true] exactly when the file existed and
    could be unlinked, and then the file is gone; when it answers [false]
    nothing has changed; no other path is ever affected. *)
Theorem deleteFile_removes_that_file_only (fs : gset string) (filePath : string) :
  let r := deleteFile publicPath unlinkFails fs filePath in
  (snd r = true
   <-> publicPath filePath ∈ fs /\ unlinkFails (publicPath filePath) = false)
  /\ (snd r = true -> publicPath filePath ∉ fst r)
  /\ (snd r = false -> fst r = fs)
  /\ (forall q, q <> publicPath filePath -> q ∈ fst r <-> q ∈ fs).
Proof.
  unfold deleteFile. case_bool_decide as Hin.
  - destruct (unlinkFails (publicPath filePath)); cbn.
    + split; [split; [intros H; discriminate H | intros [_ H]; discriminate H] |].
      split; [intros H; discriminate H |]. split; [reflexivity | tauto].
    + split; [tauto |].
      split; [intros _; rewrite elem_of_difference, elem_of_singleton; tauto |].
      split; [intros H; discriminate H |].
      intros q Hq. rewrite elem_of_difference, elem_of_singleton. tauto.
  - cbn. split; [split; [intros H; discriminate H | intros [H _]; contradiction] |].
    split; [intros H; discriminate H |]. split; [reflexivity | tauto].
Qed.

End DeletingFiles.

Lemma deleteFile_removes_that_file_only_witness :
  "/srv/app/public/uploads/images/card.png"
  ∉ fst (deleteFile (fun p => "/srv/app/public" +:+ p) (fun _ => false)
           {["/srv/app/public/uploads/images/card.png"]}
           "/uploads/images/card.png").
Proof.
  apply (proj1 (proj2 (deleteFile_removes_that_file_only
                         (fun p => "/srv/app/public" +:+ p) (fun _ => false)
                         {["/srv/app/public/uploads/images/card.png"]}
                         "/uploads/images/card.png"))).
  reflexivity.
Defined.

(** ** The file middleware of utils/orderValidation.js *)

(** X12.  [processOrderFiles] changes nothing but the logo path of the
    card design.  Without a company-logo upload the body is returned as it
    is; with one, [cardDesign.companyLogo] becomes the resolved path of the
    upload, [req.file] taking precedence over [req.files], whose first
    file is used otherwise. *)
Theorem processOrderFiles_touches_only_the_logo
    (file : option File) (fs : option Files) (b : Order.OrderData) :
  let b' := processOrderFiles file fs b in
  (Order.product b' = Order.product b
   /\ Order.customer b' = Order.customer b
   /\ Order.personalInfo b' = Order.personalInfo b
   /\ Order.deliveryInfo b' = Order.deliveryInfo b
   /\ Order.productPrice b' = Order.productPrice b
   /\ Order.logoSurcharge b' = Order.logoSurcharge b
   /\ Order.total b' = Order.total b
   /\ Order.status b' = Order.status b
   /\ Order.notes b' = Order.notes b)
  /\ (forall cd, Order.cardDesign b = Some cd ->
        exists cd', Order.cardDesign b' = Some cd'
                    /\ Order.color cd' = Order.color cd
                    /\ Order.includePrintedLogo cd'
                       = Order.includePrintedLogo cd)
  /\ (no_logo_upload file fs -> b' = b)
  /\ (forall f, file = Some f -> fieldname f = "companyLogo" ->
        exists cd', Order.cardDesign b' = Some cd'
                    /\ Order.companyLogo cd' = stored_path f)
  /\ (forall f0 rest,
        match file with
        | Some f => fieldname f <> "companyLogo"
        | None => True
        end ->
        uploaded_logo fs = Some (f0 :: rest) ->
        exists cd', Order.cardDesign b' = Some cd'
                    /\ Order.companyLogo cd' = stored_path f0).
Proof.
  assert (Hframe : forall p,
             let b1 := with_companyLogo p b in
             (Order.product b1 = Order.product b
              /\ Order.customer b1 = Order.customer b
              /\ Order.personalInfo b1 = Order.personalInfo b
              /\ Order.deliveryInfo b1 = Order.deliveryInfo b
              /\ Order.productPrice b1 = Order.productPrice b
              /\ Order.logoSurcharge b1 = Order.logoSurcharge b
              /\ Order.total b1 = Order.total b
              /\ Order.status b1 = Order.status b
              /\ Order.notes b1 = Order.notes b)
             /\ (forall cd, Order.cardDesign b = Some cd ->
                   exists cd', Order.cardDesign b1 = Some cd'
                               /\ Order.color cd' = Order.color cd
                               /\ Order.includePrintedLogo cd'
                                  = Order.includePrintedLogo cd)
             /\ exists cd', Order.cardDesign b1 = Some cd'
                            /\ Order.companyLogo cd' = p).
  { intros p. cbn. split; [repeat split |]. split.
    - intros cd ->. eexists. repeat split.
    - destruct (Order.cardDesign b); eexists; split; reflexivity. }
  assert (Hsame :
            (Order.product b = Order.product b
             /\ Order.customer b = Order.customer b
             /\ Order.personalInfo b = Order.personalInfo b
             /\ Order.deliveryInfo b = Order.deliveryInfo b
             /\ Order.productPrice b = Order.productPrice b
             /\ Order.logoSurcharge b = Order.logoSurcharge b
             /\ Order.total b = Order.total b
             /\ Order.status b = Order.status b
             /\ Order.notes b = Order.notes b)
            /\ (forall cd, Order.cardDesign b = Some cd ->
                  exists cd', Order.cardDesign b = Some cd'
                              /\ Order.color cd' = Order.color cd
                              /\ Order.includePrintedLogo cd'
                                 = Order.includePrintedLogo cd))
    by (split; [repeat split | intros cd H; exists cd; auto]).
  unfold processOrderFiles, no_logo_upload, logo_uploaded, uploaded_logo,
    stored_path.
  destruct file as [f |].
  - destruct (String.eqb_spec (fieldname f) "companyLogo") as [Hf | Hf].
    + destruct (Hframe (path_value (getRelativeFilePath (Some f))))
        as (H1 & H2 & H3).
      split; [exact H1 |]. split; [exact H2 |].
      split; [intros [Hno _]; contradiction |].
      split; [intros f' Hf' _; inversion Hf'; subst; exact H3 |].
      intros f0 rest Hno. contradiction.
    + destruct fs as [m |].
      * destruct (m !! "companyLogo") as [[| f0 rest] |].
        -- destruct Hsame as [H1 H2]. repeat split; auto;
             try (intros; congruence).
        -- destruct (Hframe (path_value (getRelativeFilePath (Some f0))))
             as (H1 & H2 & H3).
           split; [exact H1 |]. split; [exact H2 |].
           split; [intros [_ Hno]; discriminate Hno |].
           split; [intros f' Hf' Hc; inversion Hf'; subst; contradiction |].
           intros f1 rest1 _ Heq. inversion Heq; subst. exact H3.
        -- destruct Hsame as [H1 H2]. repeat split; auto;
             try (intros; congruence).
      * destruct Hsame as [H1 H2]. repeat split; auto;
          try (intros; congruence).
  - destruct fs as [m |].
    + destruct (m !! "companyLogo") as [[| f0 rest] |].
      * destruct Hsame as [H1 H2]. repeat split; auto;
          try (intros; congruence).
      * destruct (Hframe (path_value (getRelativeFilePath (Some f0))))
          as (H1 & H2 & H3).
        split; [exact H1 |]. split; [exact H2 |].
        split; [intros [_ Hno]; discriminate Hno |].
        split; [intros f' Hf'; discriminate Hf' |].
        intros f1 rest1 _ Heq. inversion Heq; subst. exact H3.
      * destruct Hsame as [H1 H2]. repeat split; auto;
          try (intros; congruence).
    + destruct Hsame as [H1 H2]. repeat split; auto;
        try (intros; congruence).
Qed.

Lemma processOrderFiles_touches_only_the_logo_witness :
  processOrderFiles None None underpriced_body = underpriced_body
  /\ exists cd',
       Order.cardDesign
         (processOrderFiles (Some logo_file) None underpriced_body) = Some cd'
       /\ Order.companyLogo cd' = stored_path logo_file.
Proof.
  split.
  - apply (proj1 (proj2 (proj2 (processOrderFiles_touches_only_the_logo
                                  None None underpriced_body)))).
    split; [exact I | reflexivity].
  - apply (proj1 (proj2 (proj2 (proj2 (processOrderFiles_touches_only_the_logo
                                         (Some logo_file) None underpriced_body))))
             logo_file); reflexivity.
Defined.

(** X13.  A single-file upload reaches [validateCompanyLogo] only through
    the path [processOrderFiles] writes: after the middleware ran on a
    [req.file] for the field [companyLogo] whose resolved path is not
    empty, the logo rule is met without any [req.files] and without an
    existing order. *)
Theorem processOrderFiles_then_validateCompanyLogo
    (f : File) (fs : option Files) (b : Order.OrderData) (r : string) :
  fieldname f = "companyLogo" ->
  getRelativeFilePath (Some f) = Some r ->
  r <> "" ->
  validateCompanyLogo
    (Order.cardDesign (processOrderFiles (Some f) fs b)) None None
  = None.
Proof.
  intros Hf Hr Hne. unfold processOrderFiles. rewrite Hf, Hr. cbn.
  apply String.eqb_neq in Hne.
  destruct (Order.cardDesign b) as [cd |]; [| reflexivity].
  cbn [Order.includePrintedLogo Order.companyLogo truthy]. rewrite Hne.
  cbn [negb orb andb].
  destruct (negb (truthy (Order.includePrintedLogo cd))); reflexivity.
Qed.

Lemma processOrderFiles_then_validateCompanyLogo_witness :
  validateCompanyLogo
    (Order.cardDesign (processOrderFiles (Some logo_file) None underpriced_body))
    None None
  = None.
Proof.
  apply (processOrderFiles_then_validateCompanyLogo logo_file None
           underpriced_body "/uploads/companyLogo/logo-1700000000000-42.png");
    [reflexivity | reflexivity | discriminate].
Defined.

(** ** routes/products.js *)

(** X14.  [processUploadedImages] leaves [req.body.images] alone when no
    file was uploaded.  Otherwise the field becomes an array: the images
    the body already had (an array as it is, a single truthy value as one
    entry, a falsy value dropped), followed by the resolved paths of the
    uploads in upload order. *)
Theorem processUploadedImages_appends_uploads
    (files : option (list File)) (images : ProductsRouter.images_field) :
  (files = None \/ files = Some [] ->
   ProductsRouter.processUploadedImages files images = images)
  /\ (forall f rest, files = Some (f :: rest) ->
        ProductsRouter.processUploadedImages files images
        = ProductsRouter.Many
            (existing_images images ++ map stored_path (f :: rest)))
  /\ (forall l, files = Some l ->
        Forall (fun v => exists s, v = JStr s) (map stored_path l)).
Proof.
  split; [| split].
  - intros [-> | ->]; reflexivity.
  - intros f rest ->. unfold ProductsRouter.processUploadedImages,
      existing_images, stored_path.
    destruct images as [v | l]; cbn [ProductsRouter.field_truthy];
      [destruct (truthy v) |]; reflexivity.
  - intros l _. apply Forall_forall. intros v Hv.
    apply list_elem_of_fmap in Hv as (file & -> & _).
    unfold stored_path, getRelativeFilePath.
    destruct (indexOf "public" (path file)); cbn; eauto.
Qed.

Lemma processUploadedImages_appends_uploads_witness :
  ProductsRouter.processUploadedImages
    (Some [image_file "a.png"; image_file "b.png"])
    (ProductsRouter.One (JStr "/img/old.png"))
  = ProductsRouter.Many
      [JStr "/img/old.png"; JStr "/uploads/images/a.png";
       JStr "/uploads/images/b.png"].
Proof.
  apply (proj1 (proj2 (processUploadedImages_appends_uploads
                         (Some [image_file "a.png"; image_file "b.png"])
                         (ProductsRouter.One (JStr "/img/old.png"))))
           (image_file "a.png") [image_file "b.png"]).
  reflexivity.
Defined.

(** ** The form-data middleware, continued *)

Lemma parse_field_unprefixed
    (r : realm) (pb : parsed) (key : string) (v : value) :
  prefixed key = false -> parse_field r pb key v = (r, pb, Return tt).
Proof.
  unfold prefixed, parse_field. intros H.
  apply orb_false_elim in H as [H Hd]. apply orb_false_elim in H as [Hp Hc].
  rewrite Hp, Hc, Hd. reflexivity.
Qed.

Lemma parse_fields_unprefixed
    (fields : list (string * value)) (r : realm) (pb : parsed) :
  Forall (fun kv => prefixed (fst kv) = false) fields ->
  parse_fields r pb fields = (r, pb, Return tt).
Proof.
  induction 1 as [| [key v] fields Hkey Hall IH]; [reflexivity |].
  cbn [parse_fields]. cbn in Hkey.
  rewrite (parse_field_unprefixed r pb key v Hkey). exact IH.
Qed.

(** X15.  A body none of whose keys starts with [personalInfo[],
    [cardDesign[] or [deliveryInfo[] passes the middleware untouched: no
    group is attached, nothing is written elsewhere, and [next()] is
    called. *)
Theorem parseFormData_leaves_other_bodies
    (r : realm) (fields : list (string * value)) :
  Forall (fun kv => prefixed (fst kv) = false) fields ->
  parseFormData r fields
  = (r, map (fun kv => (fst kv, Field (snd kv))) fields, Return tt).
Proof.
  intros Hall. unfold parseFormData.
  rewrite (parse_fields_unprefixed fields r parsedBody0 Hall). reflexivity.
Qed.

Lemma parseFormData_leaves_other_bodies_witness :
  parseFormData pristine [("product", JStr "p1"); ("notes", JNum 7)]
  = (pristine,
     [("product", Field (JStr "p1")); ("notes", Field (JNum 7))],
     Return tt).
Proof.
  apply (parseFormData_leaves_other_bodies pristine
           [("product", JStr "p1"); ("notes", JNum 7)]).
  repeat constructor.
Defined.

Lemma normalize_color_canonical (r : realm) (g : group) (s : string) :
  assoc "color" (own g) = Some (Scalar (JStr s)) ->
  snd (normalize_color r g) = Return tt
  /\ assoc "color" (own (fst (normalize_color r g)))
     = Some (Scalar (JStr (canonical_color s))).
Proof.
  intros Hs. unfold normalize_color, get, canonical_color. rewrite Hs.
  cbn [target_truthy truthy].
  destruct (String.eqb_spec s "") as [-> | Hne]; cbn [negb].
  - split; [reflexivity | exact Hs].
  - destruct (String.eqb (toLowerCase s) "#000"
              || String.eqb (toLowerCase s) "#000000"
              || String.eqb (toLowerCase s) "black").
    + split; [reflexivity |]. cbn [fst]. rewrite set_lookup by discriminate.
      reflexivity.
    + destruct (String.eqb (toLowerCase s) "#fff"
                || String.eqb (toLowerCase s) "#ffffff"
                || String.eqb (toLowerCase s) "white").
      * split; [reflexivity |]. cbn [fst]. rewrite set_lookup by discriminate.
        reflexivity.
      * split; [reflexivity | exact Hs].
Qed.

Lemma attach_color (r : realm) (pb : parsed) (b : Body) (s : string) :
  assoc "color" (own (p_cardDesign pb)) = Some (Scalar (JStr s)) ->
  nested_field (fst (attach r pb b)) "cardDesign" "color"
  = Some (JStr (canonical_color s)).
Proof.
  intros Hs. unfold attach.
  rewrite (assoc_has_keys _ _ _ Hs).
  rewrite <- (coerce_flag_keeps_color r (p_cardDesign pb)) in Hs.
  destruct (normalize_color_canonical r _ s Hs) as [Hret Hcol].
  destruct (normalize_color r
              (coerce_flag r "includePrintedLogo" (p_cardDesign pb)))
    as [cd c].
  cbn [fst snd] in Hret, Hcol. subst c.
  assert (Hcd : forall b0,
             nested_field (assoc_set "cardDesign" (Group cd) b0)
               "cardDesign" "color" = Some (JStr (canonical_color s))).
  { intros b0. unfold nested_field. rewrite assoc_set_eq, Hcol. reflexivity. }
  destruct (has_keys (p_deliveryInfo pb)); cbn [fst]; [| apply Hcd].
  unfold nested_field. rewrite assoc_set_ne by discriminate. apply Hcd.
Qed.

(** X16.  A colour string supplied under [cardDesign[color]] reaches
    [req.body.cardDesign.color] canonicalised: "#000", "#000000" and
    "black" in any letter case become "black", "#fff", "#ffffff" and
    "white" become "white", and every other string is passed on as it
    was sent. *)
Theorem parseFormData_canonical_color
    (r : realm) (fields : list (string * value)) (s : string) :
  supplied "cardDesign[" "color" fields = Some (JStr s) ->
  nested_field (snd (fst (parseFormData r fields))) "cardDesign" "color"
  = Some (JStr (canonical_color s)).
Proof.
  intros Hs. unfold parseFormData.
  pose proof (parse_fields_returns fields r parsedBody0) as Hret.
  pose proof (parse_fields_lookup "cardDesign[" p_cardDesign
                parse_field_cardDesign fields r parsedBody0
                "color" ltac:(discriminate)) as Hcd.
  destruct (parse_fields r parsedBody0 fields) as [[r1 pb] c].
  cbn [fst snd] in *. subst c. rewrite Hs in Hcd.
  pose proof (attach_color r1 pb
                (map (fun kv => (fst kv, Field (snd kv))) fields) s Hcd) as H.
  destruct (attach r1 pb _) as [b c]. exact H.
Qed.

Lemma parseFormData_canonical_color_witness :
  nested_field (snd (fst (parseFormData pristine order_form)))
    "cardDesign" "color" = Some (JStr "white").
Proof.
  apply (parseFormData_canonical_color pristine order_form "#FFF").
  reflexivity.
Defined.

Lemma attach_keeps (r : realm) (pb : parsed) (b : Body) (key : string) :
  group_name key = false ->
  assoc key (fst (attach r pb b)) = assoc key b.
Proof.
  unfold group_name. intros H.
  apply orb_false_elim in H as [H Hd]. apply orb_false_elim in H as [Hp Hc].
  apply String.eqb_neq in Hp, Hc, Hd.
  assert (H1 : forall (g : bvalue) (b0 : Body),
             assoc key (assoc_set "personalInfo" g b0) = assoc key b0)
    by (intros; apply assoc_set_ne; congruence).
  assert (H2 : forall (g : bvalue) (b0 : Body),
             assoc key (assoc_set "cardDesign" g b0) = assoc key b0)
    by (intros; apply assoc_set_ne; congruence).
  assert (H3 : forall (g : bvalue) (b0 : Body),
             assoc key (assoc_set "deliveryInfo" g b0) = assoc key b0)
    by (intros; apply assoc_set_ne; congruence).
  unfold attach.
  destruct (has_keys (p_personalInfo pb)), (has_keys (p_cardDesign pb));
    try destruct (normalize_color r _) as [cd [u | e]];
    try destruct (has_keys (p_deliveryInfo pb));
    cbn [fst]; rewrite ?H3, ?H2, ?H1; reflexivity.
Qed.

(** X17.  The middleware only adds: under every key other than
    [personalInfo], [cardDesign] and [deliveryInfo] the body holds
    afterwards exactly what it held before, the flat bracket keys
    included. *)
Theorem parseFormData_keeps_other_keys
    (r : realm) (fields : list (string * value)) (key : string) :
  group_name key = false ->
  assoc key (snd (fst (parseFormData r fields)))
  = assoc key (map (fun kv => (fst kv, Field (snd kv))) fields).
Proof.
  intros Hkey. unfold parseFormData.
  destruct (parse_fields r parsedBody0 fields) as [[r1 pb] [u | e]];
    [| reflexivity].
  pose proof (attach_keeps r1 pb
                (map (fun kv => (fst kv, Field (snd kv))) fields) key Hkey) as H.
  destruct (attach r1 pb _) as [b c]. exact H.
Qed.

Lemma parseFormData_keeps_other_keys_witness :
  assoc "cardDesign[color]" (snd (fst (parseFormData pristine order_form)))
  = Some (Field (JStr "#FFF")).
Proof.
  apply (parseFormData_keeps_other_keys pristine order_form "cardDesign[color]").
  reflexivity.
Defined.

Lemma store_indexed_realm
    (r : realm) (pi : group) (arrayKey : string) (n : number) (v : value) :
  is_prototype_member arrayKey = false ->
  fst (store_indexed r pi arrayKey n v) = r.
Proof.
  intros Hm. unfold store_indexed, get.
  destruct (assoc arrayKey (own pi)) as [[old | slots] |];
    [destruct (truthy old); reflexivity | reflexivity |].
  destruct (null_proto pi); [reflexivity |].
  destruct (lookup_number_key arrayKey (on_prototype r)) as [old |];
    [destruct (truthy old); reflexivity |].
  destruct (String.eqb_spec arrayKey "__proto__") as [-> | Hne];
    [discriminate Hm |].
  rewrite Hm. reflexivity.
Qed.

Lemma parse_field_realm (r : realm) (pb : parsed) (key : string) (v : value) :
  match array_key key with
  | Some k => is_prototype_member k = false
  | None => True
  end ->
  fst (fst (parse_field r pb key v)) = r.
Proof.
  unfold array_key, nested_key, parse_field.
  destruct (startsWith "personalInfo[" key).
  - destruct (includes "[" _ && includes "]" _); [| reflexivity].
    destruct (split "[" _) as [| a [| b rest]]; try reflexivity.
    cbn [head]. intros Hm.
    pose proof (store_indexed_realm r (p_personalInfo pb) a
                  (parseInt (replace "]" "" b)) v Hm) as H.
    destruct (store_indexed _ _ _ _ _). exact H.
  - intros _. destruct (startsWith "cardDesign[" key); [reflexivity |].
    destruct (startsWith "deliveryInfo[" key); reflexivity.
Qed.

(** X18.  The middleware writes outside the body only through an array
    key that names a member of [Object.prototype]: when no
    [personalInfo[k][i]] key has such a [k] ([__proto__], [constructor],
    [toString], ...), the shared prototype and its members are left as
    they were. *)
Theorem parseFormData_spares_the_prototype
    (r : realm) (fields : list (string * value)) :
  Forall (fun kv => match array_key (fst kv) with
                    | Some k => is_prototype_member k = false
                    | None => True
                    end) fields ->
  fst (fst (parseFormData r fields)) = r.
Proof.
  intros Hall.
  assert (Hloop : forall pb, fst (fst (parse_fields r pb fields)) = r).
  { induction Hall as [| [key v] fields Hkey Hall IH]; intros pb;
      [reflexivity |].
    cbn [parse_fields]. cbn [fst] in Hkey.
    pose proof (parse_field_realm r pb key v Hkey) as Hr.
    pose proof (parse_field_returns r pb key v) as Hret.
    destruct (parse_field r pb key v) as [[r1 pb1] c].
    cbn [fst snd] in *. subst. apply IH. }
  unfold parseFormData. specialize (Hloop parsedBody0).
  destruct (parse_fields r parsedBody0 fields) as [[r1 pb] [u | e]];
    cbn [fst] in Hloop; subst r1; [| reflexivity].
  destruct (attach r pb _) as [b c]. reflexivity.
Qed.

Lemma parseFormData_spares_the_prototype_witness :
  fst (fst (parseFormData pristine order_form)) = pristine.
Proof.
  apply (parseFormData_spares_the_prototype pristine order_form).
  repeat constructor.
Defined.

(** *** Arrays under [personalInfo] *)

Lemma prototype_member_proto (name : string) :
  is_prototype_member name = false -> name <> "__proto__".
Proof. intros H ->. discriminate H. Qed.

Lemma set_keeps (g : group) (k name : string) (v : value) :
  k <> name -> name <> "__proto__" ->
  assoc name (own (set g k v)) = assoc name (own g).
Proof.
  intros Hk Hname. rewrite set_lookup by exact Hname.
  apply String.eqb_neq in Hk. rewrite Hk. reflexivity.
Qed.

Lemma store_indexed_elsewhere
    (r : realm) (pi : group) (k name : string) (n : number) (v : value) :
  k <> name ->
  assoc name (own (snd (store_indexed r pi k n v))) = assoc name (own pi).
Proof.
  intros Hk. unfold store_indexed.
  assert (Hset : forall slots,
             assoc name (own (set_array pi k slots)) = assoc name (own pi))
    by (intros slots; cbn [set_array own]; apply assoc_set_ne, Hk).
  destruct (get r pi k) as [[old | slots] | old | | m |]; cbn [snd];
    try destruct (truthy old); cbn [snd]; first [apply Hset | reflexivity].
Qed.

Lemma store_indexed_here
    (r : realm) (pi : group) (name slot : string) (n : number) (v : value) :
  is_prototype_member name = false ->
  lookup_number_key name (on_prototype r) = None ->
  array_or_absent pi name ->
  array_or_absent (snd (store_indexed r pi name n v)) name
  /\ group_slot (snd (store_indexed r pi name n v)) name slot
     = if String.eqb (number_key n) slot then Some v
       else group_slot pi name slot.
Proof.
  intros Hm Hr Hinv.
  unfold store_indexed, get, array_or_absent, group_slot in *.
  destruct (assoc name (own pi)) as [[old | slots] |] eqn:Hown;
    [contradiction | |].
  - cbn [snd set_array own]. rewrite assoc_set_eq. split; [exact I |].
    destruct (String.eqb_spec (number_key n) slot) as [<- | Hne].
    + apply assoc_set_eq.
    + apply assoc_set_ne, Hne.
  - assert (Hfresh :
              array_or_absent
                (set_array pi name [(number_key n, v)]) name
              /\ group_slot (set_array pi name [(number_key n, v)]) name slot
                 = if String.eqb (number_key n) slot then Some v else None).
    { unfold array_or_absent, group_slot. cbn [set_array own].
      rewrite assoc_set_eq. split; [exact I |]. cbn [assoc].
      rewrite String.eqb_sym. reflexivity. }
    unfold array_or_absent, group_slot in Hfresh.
    destruct (null_proto pi); [exact Hfresh |].
    rewrite Hr.
    destruct (String.eqb_spec name "__proto__") as [-> | Hne];
      [discriminate Hm |].
    rewrite Hm. exact Hfresh.
Qed.

Lemma parse_field_slot
    (r : realm) (pb : parsed) (key name slot : string) (v : value) :
  is_prototype_member name = false ->
  lookup_number_key name (on_prototype r) = None ->
  harmless_for name key ->
  array_or_absent (p_personalInfo pb) name ->
  let pb1 := snd (fst (parse_field r pb key v)) in
  array_or_absent (p_personalInfo pb1) name
  /\ group_slot (p_personalInfo pb1) name slot
     = if writes_slot name slot key then Some v
       else group_slot (p_personalInfo pb) name slot.
Proof.
  intros Hm Hr [Hplain Hharm] Hinv.
  unfold writes_slot, array_slot, plain_key, array_key, nested_key in *.
  unfold parse_field.
  destruct (startsWith "personalInfo[" key).
  - destruct (includes "[" _ && includes "]" _).
    + destruct (split "[" _) as [| a [| b rest]];
        try (cbn [fst snd]; auto; fail).
      destruct (String.eqb_spec a name) as [-> | Hne]; cbn [andb].
      * pose proof (store_indexed_here r (p_personalInfo pb) name slot
                      (parseInt (replace "]" "" b)) v Hm Hr Hinv) as H.
        destruct (store_indexed _ _ _ _ _). exact H.
      * pose proof (store_indexed_elsewhere r (p_personalInfo pb) a name
                      (parseInt (replace "]" "" b)) v Hne) as H.
        destruct (store_indexed _ _ _ _ _) as [r1 pi1].
        cbn [fst snd p_personalInfo] in *.
        unfold array_or_absent, group_slot in *. rewrite H. auto.
    + cbn [fst snd p_personalInfo].
      assert (Hk : replace "]" "" (replace "personalInfo[" "" key) <> name)
        by congruence.
      unfold array_or_absent, group_slot in *.
      rewrite (set_keeps _ _ _ _ Hk (prototype_member_proto _ Hm)). auto.
  - destruct (startsWith "cardDesign[" key); [cbn; auto |].
    destruct (startsWith "deliveryInfo[" key); cbn; auto.
Qed.

Lemma parse_fields_slot (fields : list (string * value))
    (r : realm) (pb : parsed) (name slot : string) :
  is_prototype_member name = false ->
  lookup_number_key name (on_prototype r) = None ->
  Forall (fun kv => harmless_for name (fst kv)) fields ->
  array_or_absent (p_personalInfo pb) name ->
  group_slot (p_personalInfo (snd (fst (parse_fields r pb fields)))) name slot
  = match supplied_slot name slot fields with
    | Some w => Some w
    | None => group_slot (p_personalInfo pb) name slot
    end.
Proof.
  intros Hm Hr Hall. revert pb.
  induction Hall as [| [key v] fields Hkey Hall IH]; intros pb Hinv;
    [reflexivity |].
  cbn [parse_fields supplied_slot]. cbn [fst] in Hkey.
  pose proof (parse_field_returns r pb key v) as Hret.
  pose proof (parse_field_realm r pb key v (proj2 Hkey)) as Hrealm.
  pose proof (parse_field_slot r pb key name slot v Hm Hr Hkey Hinv)
    as [Hinv1 Hslot].
  destruct (parse_field r pb key v) as [[r1 pb1] c].
  cbn [fst snd] in *. subst c r1. rewrite (IH pb1 Hinv1).
  destruct (supplied_slot name slot fields); [reflexivity |].
  rewrite Hslot. destruct (writes_slot name slot key); reflexivity.
Qed.

Lemma attach_personalInfo (r : realm) (pb : parsed) (b : Body)
    (name slot : string) (v : value) :
  group_slot (p_personalInfo pb) name slot = Some v ->
  nested_slot (fst (attach r pb b)) "personalInfo" name slot = Some v.
Proof.
  intros Hv. unfold attach.
  assert (Hkeys : has_keys (p_personalInfo pb) = true).
  { unfold group_slot in Hv.
    destruct (assoc name (own (p_personalInfo pb))) as [m |] eqn:E;
      [| discriminate Hv]. apply (assoc_has_keys _ _ _ E). }
  rewrite Hkeys.
  assert (H1 : nested_slot (assoc_set "personalInfo" (Group (p_personalInfo pb)) b)
                 "personalInfo" name slot = Some v)
    by (unfold nested_slot; rewrite assoc_set_eq; exact Hv).
  assert (H2 : forall (g : bvalue) (b0 : Body),
             nested_slot b0 "personalInfo" name slot = Some v ->
             nested_slot (assoc_set "cardDesign" g b0) "personalInfo" name slot
             = Some v)
    by (intros g b0 H; unfold nested_slot in *;
        rewrite assoc_set_ne by discriminate; exact H).
  assert (H3 : forall (g : bvalue) (b0 : Body),
             nested_slot b0 "personalInfo" name slot = Some v ->
             nested_slot (assoc_set "deliveryInfo" g b0) "personalInfo" name slot
             = Some v)
    by (intros g b0 H; unfold nested_slot in *;
        rewrite assoc_set_ne by discriminate; exact H).
  destruct (has_keys (p_cardDesign pb));
    try destruct (normalize_color r _) as [cd [u | e]];
    try destruct (has_keys (p_deliveryInfo pb));
    cbn [fst]; auto.
Qed.

(** X19.  Keys of the form [personalInfo[name][i]] fill an array: slot
    [i] of [req.body.personalInfo[name]] holds the value of the last field
    that wrote it, whatever other slots were written.  This holds when
    [name] is not a member of [Object.prototype] and nothing was written on
    the prototype under it, and no field sets [personalInfo[name]] as a
    plain property or writes through a prototype member. *)
Theorem parseFormData_fills_arrays
    (r : realm) (fields : list (string * value)) (name slot : string)
    (v : value) :
  is_prototype_member name = false ->
  lookup_number_key name (on_prototype r) = None ->
  Forall (fun kv => harmless_for name (fst kv)) fields ->
  supplied_slot name slot fields = Some v ->
  nested_slot (snd (fst (parseFormData r fields))) "personalInfo" name slot
  = Some v.
Proof.
  intros Hm Hr Hall Hv. unfold parseFormData.
  pose proof (parse_fields_returns fields r parsedBody0) as Hret.
  pose proof (parse_fields_slot fields r parsedBody0 name slot Hm Hr Hall I)
    as Hslot.
  destruct (parse_fields r parsedBody0 fields) as [[r1 pb] c].
  cbn [fst snd] in *. subst c. rewrite Hv in Hslot.
  pose proof (attach_personalInfo r1 pb
                (map (fun kv => (fst kv, Field (snd kv))) fields)
                name slot v Hslot) as H.
  destruct (attach r1 pb _) as [b c]. exact H.
Qed.

Lemma parseFormData_fills_arrays_witness :
  nested_slot (snd (fst (parseFormData pristine phone_form)))
    "personalInfo" "phoneNumbers" "0" = Some (JStr "0770000000")
  /\ nested_slot (snd (fst (parseFormData pristine phone_form)))
       "personalInfo" "phoneNumbers" "2" = Some (JStr "0780000000").
Proof.
  split.
  - apply (parseFormData_fills_arrays pristine phone_form "phoneNumbers" "0");
      try reflexivity.
    repeat constructor; discriminate.
  - apply (parseFormData_fills_arrays pristine phone_form "phoneNumbers" "2");
      try reflexivity.
    repeat constructor; discriminate.
Defined.

(** ** The Product model, continued *)

Lemma existsb_eqb_In (x : string) (l : list string) :
  existsb (String.eqb x) l = true <-> In x l.
Proof.
  rewrite existsb_exists. split.
  - intros (y & Hy & He). apply String.eqb_eq in He. subst. exact Hy.
  - intros H. exists x. split; [exact H | apply String.eqb_refl].
Qed.

Lemma existsb_eqb_not_In (x : string) (l : list string) :
  existsb (String.eqb x) l = false <-> ~ In x l.
Proof.
  rewrite <- existsb_eqb_In. destruct (existsb _ _); split; intros H;
    try reflexivity; try discriminate H; try (intros H'; discriminate H').
  exfalso. apply H. reflexivity.
Qed.

Lemma filter_none {A : Type} (f : A -> bool) (l : list A) :
  (forall x, In x l -> f x = true) -> List.filter f l = l.
Proof.
  induction l as [| a l IH]; intros H; [reflexivity |].
  cbn. rewrite (H a (or_introl eq_refl)). f_equal.
  apply IH. intros x Hx. apply H. right. exact Hx.
Qed.

Lemma NoDup_snoc {A : Type} (l : list A) (a : A) :
  List.NoDup l -> ~ In a l -> List.NoDup (l ++ [a]).
Proof.
  induction 1 as [| x l Hx Hl IH]; intros Ha; cbn.
  - constructor; [intros [] | constructor].
  - constructor.
    + rewrite in_app_iff. intros [H | [H | []]]; [contradiction |].
      apply Ha. left. symmetry. exact H.
    + apply IH. intros H. apply Ha. right. exact H.
Qed.

Lemma map_stored (l : list string) :
  Forall as_stored l -> List.map ProductModel.colorSetters l = l.
Proof.
  induction 1 as [| c l Hc Hl IH]; [reflexivity |].
  cbn [List.map]. rewrite Hc, IH. reflexivity.
Qed.

Lemma filter_other_colors (lc : string) (l : list string) :
  ~ In lc l ->
  List.filter (fun c => negb (String.eqb c lc)) l = l.
Proof.
  intros Hnot. apply filter_none. intros x Hx.
  apply negb_true_iff, String.eqb_neq. intros ->. contradiction.
Qed.

(** *** White space and letter case *)

Lemma lower_ascii_idem (c : ascii) :
  lower_ascii (lower_ascii c) = lower_ascii c.
Proof. destruct c as [[] [] [] [] [] [] [] []]; reflexivity. Qed.

Lemma toLowerCase_idem (s : string) :
  toLowerCase (toLowerCase s) = toLowerCase s.
Proof.
  induction s as [| c s IH]; [reflexivity |].
  cbn [toLowerCase]. rewrite lower_ascii_idem, IH. reflexivity.
Qed.

Lemma is_space_lower_ascii (c : ascii) :
  is_space (lower_ascii c) = is_space c.
Proof. destruct c as [[] [] [] [] [] [] [] []]; reflexivity. Qed.

Lemma toLowerCase_trim_start (s : string) :
  toLowerCase (trim_start s) = trim_start (toLowerCase s).
Proof.
  induction s as [| c s IH]; [reflexivity |].
  cbn [trim_start toLowerCase]. rewrite is_space_lower_ascii.
  destruct (is_space c); [exact IH | reflexivity].
Qed.

Lemma toLowerCase_trim_end (s : string) :
  toLowerCase (trim_end s) = trim_end (toLowerCase s).
Proof.
  induction s as [| c s IH]; [reflexivity |].
  cbn [trim_end toLowerCase]. rewrite <- IH, is_space_lower_ascii.
  destruct (trim_end s) as [| a r]; cbn [toLowerCase].
  - destruct (is_space c); reflexivity.
  - reflexivity.
Qed.

Lemma trim_start_clean (s : string) : starts_clean (trim_start s).
Proof.
  induction s as [| c s IH]; [exact I |].
  cbn [trim_start]. destruct (is_space c) eqn:E; [exact IH | exact E].
Qed.

Lemma trim_start_of_clean (s : string) : starts_clean s -> trim_start s = s.
Proof.
  destruct s as [| c s]; [reflexivity |]. cbn. intros ->. reflexivity.
Qed.

Lemma trim_end_clean (s : string) : starts_clean s -> starts_clean (trim_end s).
Proof.
  destruct s as [| c s]; [intros _; exact I |].
  cbn [starts_clean trim_end]. intros Hc.
  destruct (trim_end s); [rewrite Hc |]; exact Hc.
Qed.

Lemma trim_end_idem (s : string) : trim_end (trim_end s) = trim_end s.
Proof.
  induction s as [| c s IH]; [reflexivity |].
  cbn [trim_end]. destruct (trim_end s) as [| a r] eqn:E.
  - destruct (is_space c) eqn:Ec; [reflexivity |].
    cbn [trim_end]. rewrite Ec. reflexivity.
  - cbn [trim_end] in IH |- *.
    destruct (trim_end r) as [| b r']; cbn [trim_end];
      destruct (is_space a); inversion IH; subst; reflexivity.
Qed.

Lemma trim_idem (s : string) : trim (trim s) = trim s.
Proof.
  unfold trim.
  rewrite (trim_start_of_clean (trim_end (trim_start s))).
  - apply trim_end_idem.
  - apply trim_end_clean, trim_start_clean.
Qed.

Lemma colorSetters_idem (s : string) :
  ProductModel.colorSetters (ProductModel.colorSetters s)
  = ProductModel.colorSetters s.
Proof.
  unfold ProductModel.colorSetters, trim.
  rewrite toLowerCase_trim_end, toLowerCase_trim_start, toLowerCase_idem.
  apply (trim_idem (toLowerCase s)).
Qed.

(** X20.  [addColor] looks for the colour in lower case and stores what
    the schema's setters make of it.  For a colour without white space
    around it the two agree: the colour is listed afterwards, a list
    without duplicates stays so, and adding it again in any letter case
    changes nothing.  For a padded colour whose trimmed form is already
    listed they do not: the trimmed form is appended once more, and the
    list has a duplicate.  The method returns the list it leaves on the
    document. *)
Theorem addColor_adds_once (color : string) (doc : ProductModel.Product) :
  let lc := toLowerCase color in
  let stored := ProductModel.colorSetters lc in
  let doc' := fst (ProductModel.addColor color doc) in
  snd (ProductModel.addColor color doc) = ProductModel.colors doc'
  /\ (forall x, In x (ProductModel.colors doc')
                <-> In x (ProductModel.colors doc)
                    \/ (x = stored /\ ~ In lc (ProductModel.colors doc)))
  /\ (as_stored lc ->
      In lc (ProductModel.colors doc')
      /\ (List.NoDup (ProductModel.colors doc)
          -> List.NoDup (ProductModel.colors doc'))
      /\ (forall again, toLowerCase again = lc ->
                        fst (ProductModel.addColor again doc') = doc'))
  /\ (~ as_stored lc ->
      In stored (ProductModel.colors doc) ->
      ~ In lc (ProductModel.colors doc) ->
      ProductModel.colors doc' = ProductModel.colors doc ++ [stored]
      /\ ~ List.NoDup (ProductModel.colors doc')).
Proof.
  unfold ProductModel.addColor, as_stored. cbn [fst snd].
  destruct (existsb (String.eqb (toLowerCase color)) (ProductModel.colors doc))
    eqn:Hin; cbn [negb].
  - apply existsb_eqb_In in Hin.
    split; [reflexivity |].
    split; [intros x; split; [auto | intros [H | [_ H]]; [exact H | contradiction]] |].
    split.
    + intros _. split; [exact Hin |]. split; [auto |].
      intros again ->. apply existsb_eqb_In in Hin. rewrite Hin. reflexivity.
    + intros _ _ Hnot. contradiction.
  - apply existsb_eqb_not_In in Hin.
    cbn [ProductModel.with_colors ProductModel.colors].
    split; [reflexivity |].
    split.
    { intros x. rewrite in_app_iff. cbn [In]. split.
      - intros [H | [H | []]]; [left; exact H | right; split; [symmetry; exact H | exact Hin]].
      - intros [H | [H _]]; [left; exact H | right; left; symmetry; exact H]. }
    split.
    + intros Hst. rewrite Hst.
      split; [apply in_app_iff; right; left; reflexivity |].
      split; [intros Hnd; apply NoDup_snoc; assumption |].
      intros again ->.
      assert (Hnow : existsb (String.eqb (toLowerCase color))
                       (ProductModel.colors doc ++ [toLowerCase color]) = true)
        by (apply existsb_eqb_In, in_app_iff; right; left; reflexivity).
      rewrite Hnow. reflexivity.
    + intros _ Hlisted _. split; [reflexivity |].
      intros Hnd. apply NoDup_remove_2 in Hnd.
      rewrite app_nil_r in Hnd. contradiction.
Qed.

(** X21.  On a list as the schema stores it, [removeColor] drops every
    entry equal to the colour in lower case and keeps exactly the others.
    Removing a colour without white space around it that [addColor] has
    just added to a list that did not have it gives the document back,
    whatever letter case either call used; a padded colour is stored
    trimmed by [addColor], and [removeColor] of the same argument leaves
    it in the list. *)
Theorem removeColor_removes (color : string) (doc : ProductModel.Product) :
  Forall as_stored (ProductModel.colors doc) ->
  let lc := toLowerCase color in
  let doc' := fst (ProductModel.removeColor color doc) in
  ~ In lc (ProductModel.colors doc')
  /\ (forall x, In x (ProductModel.colors doc')
                <-> In x (ProductModel.colors doc) /\ x <> lc)
  /\ (forall added,
        toLowerCase added = lc ->
        as_stored lc ->
        ~ In lc (ProductModel.colors doc) ->
        fst (ProductModel.removeColor color
               (fst (ProductModel.addColor added doc))) = doc)
  /\ (~ as_stored lc ->
      ~ In lc (ProductModel.colors doc) ->
      In (ProductModel.colorSetters lc)
        (ProductModel.colors
           (fst (ProductModel.removeColor color
                   (fst (ProductModel.addColor color doc)))))).
Proof.
  intros Hstored. unfold ProductModel.removeColor.
  cbn [fst ProductModel.with_colors ProductModel.colors].
  assert (Hsub : Forall as_stored
                   (List.filter (fun c => negb (String.eqb c (toLowerCase color)))
                      (ProductModel.colors doc))).
  { apply List.Forall_forall. intros x Hx. apply filter_In in Hx.
    exact (proj1 (List.Forall_forall _ _) Hstored x (proj1 Hx)). }
  rewrite (map_stored _ Hsub).
  assert (Hmem : forall x l,
             In x (List.filter (fun c => negb (String.eqb c (toLowerCase color))) l)
             <-> In x l /\ x <> toLowerCase color).
  { intros x l. rewrite filter_In, negb_true_iff, String.eqb_neq. tauto. }
  split; [intros H; apply Hmem in H; tauto |].
  split; [intros x; apply Hmem |].
  split.
  - intros added Hsame Hst Hnot. unfold ProductModel.addColor. rewrite Hsame.
    rewrite (proj2 (existsb_eqb_not_In _ _) Hnot).
    cbn [negb fst ProductModel.with_colors ProductModel.colors
      ProductModel.title ProductModel.description ProductModel.price
      ProductModel.images ProductModel.isNew ProductModel.updatedAt].
    rewrite Hst, List.filter_app. cbn [List.filter]. rewrite String.eqb_refl.
    cbn [negb]. rewrite app_nil_r, (filter_other_colors _ _ Hnot).
    rewrite (map_stored _ Hstored). destruct doc. reflexivity.
  - intros Hpad Hnot. unfold ProductModel.addColor.
    rewrite (proj2 (existsb_eqb_not_In _ _) Hnot).
    cbn [negb fst ProductModel.with_colors ProductModel.colors].
    rewrite List.filter_app, (filter_other_colors _ _ Hnot).
    cbn [List.filter].
    destruct (String.eqb_spec (ProductModel.colorSetters (toLowerCase color))
                (toLowerCase color)) as [E | _]; [contradiction |].
    cbn [negb]. rewrite List.map_app. apply in_app_iff. right.
    cbn [List.map]. rewrite colorSetters_idem. left. reflexivity.
Qed.

Lemma removeColor_removes_witness :
  fst (ProductModel.removeColor "red"
         (fst (ProductModel.addColor "RED" card_product))) = card_product
  /\ In "red"
       (ProductModel.colors
          (fst (ProductModel.removeColor " red"
                  (fst (ProductModel.addColor " red" card_product))))).
Proof.
  assert (Hstored : Forall as_stored (ProductModel.colors card_product))
    by (repeat constructor).
  split.
  - apply (proj1 (proj2 (proj2 (removeColor_removes "red" card_product Hstored)))
             "RED").
    + reflexivity.
    + reflexivity.
    + cbn. intros [H | [H | []]]; discriminate H.
  - apply (proj2 (proj2 (proj2 (removeColor_removes " red" card_product Hstored)))).
    + intros H. discriminate H.
    + cbn. intros [H | [H | []]]; discriminate H.
Defined.

Lemma addColor_adds_once_witness :
  List.NoDup (ProductModel.colors (fst (ProductModel.addColor "RED" card_product)))
  /\ ~ List.NoDup
         (ProductModel.colors (fst (ProductModel.addColor " Black" card_product))).
Proof.
  split.
  - apply (proj1 (proj2 (proj1 (proj2 (proj2 (addColor_adds_once "RED" card_product)))
                           eq_refl))).
    cbn. repeat constructor; cbn; intros H;
      repeat (destruct H as [H | H]; [discriminate H |]); exact H.
  - apply (proj2 (proj2 (proj2 (addColor_adds_once " Black" card_product))));
      cbn.
    + intros H. discriminate H.
    + left. reflexivity.
    + intros [H | [H | []]]; discriminate H.
Defined.

Lemma strict_eq_spec (a b : value) : strict_eq a b = true <-> a = b.
Proof.
  destruct a as [| | x | x | x], b as [| | y | y | y]; cbn;
    try (split; [intros H; discriminate H | intros H; discriminate H]);
    try (split; reflexivity).
  - destruct x, y; cbn; split; intros H; try reflexivity; discriminate H.
  - rewrite Z.eqb_eq. split; [intros -> | intros H; inversion H]; reflexivity.
  - rewrite String.eqb_eq. split; [intros -> | intros H; inversion H]; reflexivity.
Qed.

Lemma existsb_strict_eq_In (x : value) (l : list value) :
  existsb (strict_eq x) l = true <-> In x l.
Proof.
  rewrite existsb_exists. split.
  - intros (y & Hy & He). apply strict_eq_spec in He. subst. exact Hy.
  - intros H. exists x. split; [exact H | apply strict_eq_spec; reflexivity].
Qed.

Lemma filter_strict_eq_In (url x : value) (l : list value) :
  In x (List.filter (fun img => negb (strict_eq img url)) l)
  <-> In x l /\ x <> url.
Proof.
  rewrite filter_In, negb_true_iff. split; intros [H1 H2]; split; auto.
  - intros ->. rewrite (proj2 (strict_eq_spec url url) eq_refl) in H2.
    discriminate H2.
  - destruct (strict_eq x url) eqn:E; [| reflexivity].
    apply strict_eq_spec in E. contradiction.
Qed.

Lemma loose_eq_refl (StringToNumber : string -> number) (a : value) :
  loose_eq StringToNumber a a = true.
Proof.
  destruct a as [| | b | n | s]; cbn.
  - reflexivity.
  - reflexivity.
  - destruct b; reflexivity.
  - apply Z.eqb_refl.
  - apply String.eqb_refl.
Qed.

Section AddingImages.

Variable StringToNumber : string -> number.

(** X22.  On a document with an image list, [addImage] keeps the images
    listed before and adds nothing but the image.  It adds the image only
    when no listed image equals it loosely ([==]), so the image itself is
    listed afterwards exactly when it was listed before or nothing listed
    equalled it loosely; a second call adds nothing.  [removeImage] drops
    every entry strictly equal to the image and keeps the others, and
    removing an image that was not listed right after [addImage] of it
    gives the document back. *)
Theorem addImage_removeImage
    (url : value) (doc : ProductModel.Product) (imgs : list value) :
  ProductModel.images doc = Some imgs ->
  (exists doc' l,
      ProductModel.addImage StringToNumber url doc = Return (doc', l)
      /\ ProductModel.images doc' = Some l
      /\ (forall x, In x imgs -> In x l)
      /\ (forall x, In x l -> x = url \/ In x imgs)
      /\ (In url l
          <-> In url imgs
              \/ forall y, In y imgs -> loose_eq StringToNumber url y = false)
      /\ ProductModel.addImage StringToNumber url doc' = Return (doc', l))
  /\ (exists doc' l,
        ProductModel.removeImage url doc = Return (doc', l)
        /\ ProductModel.images doc' = Some l
        /\ (forall x, In x l <-> In x imgs /\ x <> url))
  /\ (~ In url imgs ->
      exists added l,
        ProductModel.addImage StringToNumber url doc = Return (added, l)
        /\ ProductModel.removeImage url added = Return (doc, imgs)).
Proof.
  intros Himgs. unfold ProductModel.addImage, ProductModel.removeImage.
  rewrite Himgs.
  assert (Heta : ProductModel.with_images imgs doc = doc)
    by (destruct doc; cbn in Himgs; subst; reflexivity).
  assert (Hkeep : ~ In url imgs ->
            List.filter (fun img => negb (strict_eq img url)) imgs = imgs).
  { intros Hnot. apply filter_none. intros x Hx. apply negb_true_iff.
    destruct (strict_eq x url) eqn:E; [| reflexivity].
    apply strict_eq_spec in E. subst. contradiction. }
  split; [| split].
  - destruct (existsb (loose_eq StringToNumber url) imgs) eqn:Hin; cbn [negb].
    + eexists _, _. split; [reflexivity |]. split; [reflexivity |].
      split; [auto |]. split; [auto |]. split.
      * split; [auto |]. intros [H | H]; [exact H |].
        apply existsb_exists in Hin. destruct Hin as (y & Hy & He).
        rewrite (H y Hy) in He. discriminate He.
      * cbn [ProductModel.images ProductModel.with_images].
        rewrite Hin. reflexivity.
    + eexists _, _. split; [reflexivity |]. split; [reflexivity |].
      split; [intros x Hx; apply in_app_iff; left; exact Hx |].
      split.
      { intros x Hx. apply in_app_iff in Hx.
        destruct Hx as [Hx | [Hx | []]]; [right; exact Hx | left; symmetry; exact Hx]. }
      split.
      * split.
        -- intros _. right. intros y Hy.
           destruct (loose_eq StringToNumber url y) eqn:E; [| reflexivity].
           assert (Hex : existsb (loose_eq StringToNumber url) imgs = true)
             by (apply existsb_exists; exists y; split; assumption).
           rewrite Hex in Hin. discriminate Hin.
        -- intros _. apply in_app_iff. right. left. reflexivity.
      * cbn [ProductModel.images ProductModel.with_images].
        assert (Hnow : existsb (loose_eq StringToNumber url) (imgs ++ [url]) = true).
        { apply existsb_exists. exists url.
          split; [apply in_app_iff; right; left; reflexivity |].
          apply loose_eq_refl. }
        rewrite Hnow. destruct doc. reflexivity.
  - eexists _, _. split; [reflexivity |]. split; [reflexivity |].
    intros x. apply filter_strict_eq_In.
  - intros Hnot.
    destruct (existsb (loose_eq StringToNumber url) imgs); cbn [negb].
    + eexists _, _. split; [reflexivity |].
      rewrite Heta, Himgs, (Hkeep Hnot), Heta. reflexivity.
    + eexists _, _. split; [reflexivity |].
      cbn [ProductModel.images ProductModel.with_images].
      rewrite List.filter_app. cbn [List.filter].
      rewrite (proj2 (strict_eq_spec url url) eq_refl). cbn [negb].
      rewrite app_nil_r, (Hkeep Hnot).
      destruct doc. cbn in Himgs. subst. reflexivity.
Qed.

End AddingImages.

Lemma addImage_removeImage_witness :
  exists added l,
    ProductModel.addImage unread (JStr "/uploads/images/b.png") card_product
    = Return (added, l)
    /\ ProductModel.removeImage (JStr "/uploads/images/b.png") added
       = Return (card_product, [JStr "/uploads/images/card.png"]).
Proof.
  apply (proj2 (proj2 (addImage_removeImage unread
                         (JStr "/uploads/images/b.png")
                         card_product [JStr "/uploads/images/card.png"]
                         eq_refl))).
  cbn. intros [H | []]. discriminate H.
Defined.

Section LastImage.

Variable schemaValid : ProductModel.Product -> bool.

(** X23.  Removing the only image of a product and saving it does not
    leave the product without an image: the document that is persisted
    carries exactly the default image. *)
Theorem removeImage_then_save_restores_default
    (now : Z) (url : value) (doc removed saved : ProductModel.Product)
    (imgs left : list value) :
  ProductModel.images doc = Some imgs ->
  (forall x, In x imgs -> x = url) ->
  ProductModel.removeImage url doc = Return (removed, left) ->
  ProductModel.save schemaValid now removed = Return saved ->
  ProductModel.images saved = Some [JStr "/img/products/default-product.jpg"].
Proof.
  intros Himgs Hall Hrem Hsave. unfold ProductModel.removeImage in Hrem.
  rewrite Himgs in Hrem. inversion Hrem; subst; clear Hrem.
  assert (Hempty : List.filter (fun img => negb (strict_eq img url)) imgs = []).
  { clear Himgs Hsave. induction imgs as [| a imgs IH]; [reflexivity |].
    cbn. rewrite (Hall a (or_introl eq_refl)).
    rewrite (proj2 (strict_eq_spec url url) eq_refl). cbn.
    apply IH. intros x Hx. apply Hall. right. exact Hx. }
  rewrite Hempty in Hsave. unfold ProductModel.save in Hsave.
  destruct (schemaValid _); [| discriminate Hsave].
  unfold ProductModel.preSaveUpdatedAt, ProductModel.preSaveImages in Hsave.
  destruct (negb (ProductModel.isNew _)); cbn in Hsave;
    inversion Hsave; reflexivity.
Qed.

(** X24.  The pre-save hooks of the model leave the content of a product
    alone: after a successful [save] the title, the description, the price
    and the colours are the ones the document had, and so is an image list
    that was not empty. *)
Theorem save_frame (now : Z) (doc saved : ProductModel.Product) :
  ProductModel.save schemaValid now doc = Return saved ->
  ProductModel.title saved = ProductModel.title doc
  /\ ProductModel.description saved = ProductModel.description doc
  /\ ProductModel.price saved = ProductModel.price doc
  /\ ProductModel.colors saved = ProductModel.colors doc
  /\ (forall imgs, ProductModel.images doc = Some imgs -> imgs <> [] ->
                   ProductModel.images saved = Some imgs).
Proof.
  unfold ProductModel.save, ProductModel.preSaveUpdatedAt,
    ProductModel.preSaveImages.
  destruct (schemaValid doc); [| intros H; discriminate H].
  destruct (ProductModel.isNew doc); cbn [negb];
    cbn [ProductModel.images ProductModel.with_updatedAt];
    (destruct (ProductModel.images doc) as [[| i imgs] |] eqn:E;
     cbn; intros H; inversion H; subst; clear H; cbn;
     repeat split; try reflexivity;
     intros l Hl Hne; inversion Hl; subst;
     first [contradiction | exact E | reflexivity]).
Qed.

End LastImage.

Lemma removeImage_then_save_restores_default_witness :
  ProductModel.images
    (ProductModel.with_updatedAt 1700000000000
       (ProductModel.with_images [JStr ProductModel.default_image]
          card_product))
  = Some [JStr "/img/products/default-product.jpg"].
Proof.
  apply (removeImage_then_save_restores_default
           (fun p => ProductModel.price_validator (ProductModel.price p))
           1700000000000 (JStr "/uploads/images/card.png") card_product
           (ProductModel.with_images [] card_product)
           (ProductModel.with_updatedAt 1700000000000
              (ProductModel.with_images [JStr ProductModel.default_image]
                 card_product))
           [JStr "/uploads/images/card.png"] []).
  - reflexivity.
  - cbn. intros x [H | []]. symmetry. exact H.
  - reflexivity.
  - reflexivity.
Defined.

Lemma save_frame_witness :
  ProductModel.images
    (ProductModel.with_updatedAt 1700000000000 card_product)
  = Some [JStr "/uploads/images/card.png"].
Proof.
  apply (proj2 (proj2 (proj2 (proj2
           (save_frame
              (fun p => ProductModel.price_validator (ProductModel.price p))
              1700000000000 card_product
              (ProductModel.with_updatedAt 1700000000000 card_product)
              eq_refl))))).
  - reflexivity.
  - discriminate.
Defined.

(** *** Colours and the validator *)

Lemma name_char_lower_ascii (c : ascii) :
  ProductModel.is_letter c || is_space c = true ->
  ProductModel.is_letter (lower_ascii c) || is_space (lower_ascii c) = true.
Proof.
  destruct c as [[] [] [] [] [] [] [] []]; intros H;
    first [reflexivity | discriminate H].
Qed.

Lemma hex_digit_lower_ascii (c : ascii) :
  ProductModel.is_hex_digit c = true ->
  ProductModel.is_hex_digit (lower_ascii c) = true
  /\ is_space (lower_ascii c) = false.
Proof.
  destruct c as [[] [] [] [] [] [] [] []]; intros H;
    first [split; reflexivity | discriminate H].
Qed.

Lemma space_lower_ascii (c : ascii) :
  is_space c = true -> lower_ascii c = c.
Proof.
  destruct c as [[] [] [] [] [] [] [] []]; intros H;
    first [reflexivity | discriminate H].
Qed.

Lemma all_chars_impl (p q : ascii -> bool) (s : string) :
  (forall c, p c = true -> q c = true) ->
  all_chars p s = true -> all_chars q s = true.
Proof.
  intros Hpq. induction s as [| c s IH]; [reflexivity |].
  cbn [all_chars]. intros H. apply andb_prop in H. destruct H as [Hc Hs].
  rewrite (Hpq c Hc), (IH Hs). reflexivity.
Qed.

Lemma all_chars_lower (p q : ascii -> bool) (s : string) :
  (forall c, p c = true -> q (lower_ascii c) = true) ->
  all_chars p s = true -> all_chars q (toLowerCase s) = true.
Proof.
  intros Hpq. induction s as [| c s IH]; [reflexivity |].
  cbn [all_chars toLowerCase]. intros H. apply andb_prop in H.
  destruct H as [Hc Hs]. rewrite (Hpq c Hc), (IH Hs). reflexivity.
Qed.

Lemma all_chars_trim_start (p : ascii -> bool) (s : string) :
  all_chars p s = true -> all_chars p (trim_start s) = true.
Proof.
  induction s as [| c s IH]; [reflexivity |].
  cbn [trim_start]. intros H. destruct (is_space c); [| exact H].
  cbn [all_chars] in H. apply andb_prop in H. apply IH, H.
Qed.

Lemma all_chars_trim_end (p : ascii -> bool) (s : string) :
  all_chars p s = true -> all_chars p (trim_end s) = true.
Proof.
  induction s as [| c s IH]; [reflexivity |].
  cbn [trim_end all_chars]. intros H. apply andb_prop in H.
  destruct H as [Hc Hs]. specialize (IH Hs).
  destruct (trim_end s) as [| a r].
  - destruct (is_space c); [reflexivity |]. cbn. rewrite Hc. reflexivity.
  - cbn [all_chars] in IH |- *. rewrite Hc. exact IH.
Qed.

Lemma trim_start_blank (s : string) :
  trim_start s = EmptyString -> blank s = true.
Proof.
  unfold blank. induction s as [| c s IH]; [reflexivity |].
  cbn [trim_start all_chars]. destruct (is_space c); [exact IH |].
  intros H. discriminate H.
Qed.

Lemma trim_end_blank (s : string) :
  trim_end s = EmptyString -> blank s = true.
Proof.
  unfold blank. induction s as [| c s IH]; [reflexivity |].
  cbn [trim_end all_chars]. destruct (trim_end s) as [| a r].
  - destruct (is_space c); [intros _; apply IH; reflexivity |].
    intros H. discriminate H.
  - intros H. discriminate H.
Qed.

Lemma blank_trim_start (s : string) :
  blank (trim_start s) = true -> blank s = true.
Proof.
  unfold blank. induction s as [| c s IH]; [reflexivity |].
  cbn [trim_start]. destruct (is_space c) eqn:E.
  - intros H. cbn [all_chars]. rewrite E. exact (IH H).
  - intros H. exact H.
Qed.

Lemma trim_blank (s : string) : trim s = EmptyString -> blank s = true.
Proof.
  unfold trim. intros H. apply blank_trim_start, trim_end_blank, H.
Qed.

Lemma blank_trim (s : string) : blank s = true -> trim s = EmptyString.
Proof.
  unfold blank, trim. induction s as [| c s IH]; [reflexivity |].
  cbn [all_chars trim_start]. intros H. apply andb_prop in H.
  destruct H as [Hc Hs]. rewrite Hc. exact (IH Hs).
Qed.

Lemma blank_toLowerCase (s : string) :
  blank s = true -> toLowerCase s = s.
Proof.
  unfold blank. induction s as [| c s IH]; [reflexivity |].
  cbn [all_chars toLowerCase]. intros H. apply andb_prop in H.
  destruct H as [Hc Hs]. rewrite (space_lower_ascii c Hc), (IH Hs).
  reflexivity.
Qed.

Lemma blank_lower (s : string) :
  all_chars (fun c => ProductModel.is_letter c || is_space c) s = true ->
  blank (toLowerCase s) = true -> blank s = true.
Proof.
  unfold blank. induction s as [| c s IH]; [reflexivity |].
  cbn [all_chars toLowerCase]. intros H Hb.
  apply andb_prop in H. destruct H as [Hc Hs].
  apply andb_prop in Hb. destruct Hb as [Hbc Hbs].
  rewrite (IH Hs Hbs), andb_true_r.
  revert Hc Hbc. clear.
  destruct c as [[] [] [] [] [] [] [] []]; intros H1 H2;
    first [reflexivity | discriminate H1 | discriminate H2].
Qed.

Lemma trim_without_space (s : string) :
  all_chars (fun c => negb (is_space c)) s = true -> trim s = s.
Proof.
  intros H. unfold trim.
  assert (Hs : trim_start s = s).
  { destruct s as [| c s]; [reflexivity |]. cbn [all_chars] in H.
    apply andb_prop in H. destruct H as [Hc _]. apply negb_true_iff in Hc.
    cbn [trim_start]. rewrite Hc. reflexivity. }
  rewrite Hs. clear Hs. induction s as [| c s IH]; [reflexivity |].
  cbn [all_chars] in H. apply andb_prop in H. destruct H as [Hc Hr].
  apply negb_true_iff in Hc. cbn [trim_end]. rewrite (IH Hr), Hc.
  destruct s; reflexivity.
Qed.

Lemma length_toLowerCase (s : string) :
  String.length (toLowerCase s) = String.length s.
Proof. induction s as [| c s IH]; cbn; [reflexivity | rewrite IH; reflexivity]. Qed.

Lemma hexColorRegex_cons (c : ascii) (digits : string) :
  ProductModel.hexColorRegex (String c digits)
  = Ascii.eqb c "#"
    && (((String.length digits =? 6)%nat || (String.length digits =? 3)%nat)
        && all_chars ProductModel.is_hex_digit digits).
Proof.
  destruct c as [[] [] [] [] [] [] [] []]; reflexivity.
Qed.

(** What [push] stores of a colour name that is not blank is a colour
    name. *)
Lemma colorNameRegex_stored (s : string) :
  ProductModel.colorNameRegex s = true ->
  blank s = false ->
  ProductModel.colorNameRegex (ProductModel.colorSetters (toLowerCase s)) = true.
Proof.
  unfold ProductModel.colorNameRegex, ProductModel.colorSetters.
  intros H Hb. apply andb_prop in H. destruct H as [_ Hall].
  rewrite toLowerCase_idem. apply andb_true_intro. split.
  - apply negb_true_iff, String.eqb_neq. intros E.
    apply trim_blank in E. apply (blank_lower s Hall) in E. congruence.
  - unfold trim. apply all_chars_trim_end, all_chars_trim_start.
    apply (all_chars_lower _ _ s name_char_lower_ascii Hall).
Qed.

(** What [push] stores of a hex code is a hex code. *)
Lemma hexColorRegex_stored (s : string) :
  ProductModel.hexColorRegex s = true ->
  ProductModel.hexColorRegex (ProductModel.colorSetters (toLowerCase s)) = true.
Proof.
  unfold ProductModel.colorSetters. rewrite toLowerCase_idem.
  destruct s as [| c digits]; [intros H; discriminate H |].
  rewrite hexColorRegex_cons. intros H.
  apply andb_prop in H. destruct H as [Hc H].
  apply andb_prop in H. destruct H as [Hlen Hhex].
  apply Ascii.eqb_eq in Hc. subst c.
  change (toLowerCase (String "#" digits))
    with (String "#"%char (toLowerCase digits)).
  rewrite trim_without_space.
  - rewrite hexColorRegex_cons, length_toLowerCase, Hlen.
    rewrite (all_chars_lower _ _ digits
               (fun c Hc => proj1 (hex_digit_lower_ascii c Hc)) Hhex).
    reflexivity.
  - cbn [all_chars].
    rewrite (all_chars_lower ProductModel.is_hex_digit
               (fun c => negb (is_space c)) digits); [reflexivity | | exact Hhex].
    intros c Hc. rewrite (proj2 (hex_digit_lower_ascii c Hc)). reflexivity.
Qed.

(** X25.  A colour that passes the schema's validator and is not blank is
    stored by [addColor] in a form that passes it too, so a product whose
    colours all pass still has only such colours afterwards.  A blank
    colour (white space only) passes the validator as well, but [addColor]
    stores it as the empty string, which does not. *)
Theorem addColor_keeps_colors_valid
    (color : string) (doc : ProductModel.Product) :
  (ProductModel.color_validator color = true ->
   blank color = false ->
   Forall (fun c => ProductModel.color_validator c = true) (ProductModel.colors doc) ->
   Forall (fun c => ProductModel.color_validator c = true)
     (ProductModel.colors (fst (ProductModel.addColor color doc))))
  /\ (color <> "" ->
      blank color = true ->
      ~ In (toLowerCase color) (ProductModel.colors doc) ->
      ProductModel.color_validator color = true
      /\ ProductModel.colors (fst (ProductModel.addColor color doc))
         = ProductModel.colors doc ++ [""]
      /\ ProductModel.color_validator "" = false).
Proof.
  split.
  - intros Hvalid Hb Hall. unfold ProductModel.addColor. cbn [fst].
    destruct (negb (existsb _ _)); [| exact Hall].
    cbn [ProductModel.colors ProductModel.with_colors].
    apply Forall_app. split; [exact Hall |].
    constructor; [| constructor].
    unfold ProductModel.color_validator in Hvalid |- *.
    apply orb_prop in Hvalid. destruct Hvalid as [Hn | Hh].
    + rewrite (colorNameRegex_stored color Hn Hb). reflexivity.
    + rewrite (hexColorRegex_stored color Hh). apply orb_true_r.
  - intros Hne Hb Hnot. split; [| split].
    + unfold ProductModel.color_validator, ProductModel.colorNameRegex.
      rewrite (proj2 (String.eqb_neq color "") Hne).
      rewrite (all_chars_impl is_space _ color); [reflexivity | | exact Hb].
      intros c Hc. rewrite Hc. apply orb_true_r.
    + unfold ProductModel.addColor.
      rewrite (proj2 (existsb_eqb_not_In _ _) Hnot).
      cbn [negb fst ProductModel.with_colors ProductModel.colors].
      unfold ProductModel.colorSetters.
      rewrite toLowerCase_idem, (blank_toLowerCase color Hb), (blank_trim color Hb).
      reflexivity.
    + reflexivity.
Qed.

Lemma addColor_keeps_colors_valid_witness :
  Forall (fun c => ProductModel.color_validator c = true)
    (ProductModel.colors (fst (ProductModel.addColor "#FFAA00" card_product)))
  /\ ProductModel.colors (fst (ProductModel.addColor "  " card_product))
     = ["black"; "white"; ""].
Proof.
  split.
  - apply (proj1 (addColor_keeps_colors_valid "#FFAA00" card_product)).
    + reflexivity.
    + reflexivity.
    + repeat constructor.
  - apply (proj1 (proj2 (proj2 (addColor_keeps_colors_valid "  " card_product)
                           ltac:(discriminate) eq_refl
                           ltac:(cbn; intros [H | [H | []]]; discriminate H)))).
Defined.

(** ** Concrete instances *)

Lemma validateCountryCity_throws_iff_witness :
  exists e, validateCountryCity (JStr "constructor") (JStr "Amman") = Throw e.
Proof.
  apply (proj2 (validateCountryCity_throws_iff (JStr "constructor")
                  (JStr "Amman"))).
  repeat split.
Defined.

Lemma validateRequiredFields_first_missing_witness :
  validateRequiredFields order_outside_whitelist
  = Some "Personal information is required"
  /\ validateRequiredFields pending_order = None.
Proof.
  split.
  - apply (proj2 (proj1 (proj2 (validateRequiredFields_first_missing
                                  order_outside_whitelist)))).
    reflexivity.
  - apply (proj2 (proj1 (validateRequiredFields_first_missing pending_order))).
    repeat split; eauto.
Defined.

Lemma createOrder_frame_witness :
  orders
    (fst (createOrder (fun b _ => b) (processOrderFiles None)
            (fun p flag => OrderUtils.calculateOrderTotal 5 p (truthy flag))
            (fun _ => "12/1/2026") (fun _ => true) "o2" shop create_request))
    !! "o1"
  = orders shop !! "o1".
Proof.
  apply (proj2 (createOrder_frame (fun b _ => b) (processOrderFiles None)
                  (fun p flag => OrderUtils.calculateOrderTotal 5 p
                                   (truthy flag))
                  (fun _ => "12/1/2026") (fun _ => true) "o2" shop
                  create_request) "o1").
  discriminate.
Defined.

Lemma update_handlers_frame_witness :
  orders
    (fst (updateOrderStatus (fun _ => true) known_statuses shop
            (status_request "shipped")))
    !! "o7"
  = orders shop !! "o7".
Proof.
  apply (proj2 (proj2 (update_handlers_frame (processOrderFiles None)
                         (fun _ => ∅) set_logo_only (fun _ => true)
                         known_statuses shop
                         (status_request "shipped"))) "o7").
  discriminate.
Defined.
